(* ===== verification/_CoqProject ===== *)
-Q . S2P
Prelude.v
JsNumber.v
JsValue.v
JsArray.v
JsObject.v
JsDate.v
Calendar.v
Locale.v
SalesData.v
Fixtures.v
Kpi.v
KpiSpec.v
Ranking.v
KpiTypes.v
KpiFindings.v
Trend.v
Fulfillment.v
ChartConfig.v
Browser.v
Charts.v
Dashboard.v
AppModule.v
