(* ===== verification/Prelude.v ===== *)
(** * KPI dashboard: a verification development

    The program: an Angular component, [DashboardComponent]
    (src/src/app/dashboard/dashboard.component.ts), that fetches the sales
    documents of a CouchDB database through [CouchdbService], recomputes
    twelve KPI fields from them in [calculateKPIs] and draws them with
    Chart.js; [ngOnInit] sends one request and starts a 60-second
    [setInterval] that sends another each time.  The records are the [Sale]
    interface (src/src/app/models/sales-data.ts); the root module
    [AppModule] (src/src/app/app.module.ts) declares the component.  The
    development is a shallow embedding of the component, of its effects on
    the browser page, and of the part of the JavaScript runtime its code
    depends on.

    ** Files, in dependency order

    - [Prelude]: the [kpi_scope] notations ([Q#], [//]), the tactics
      ([invc], [split_ifs], [qc_unfold], [qc_lra]), the hint databases
      [kpi] and [kpi_rw], and lemmas on folds, filters, sorting and
      canonical rationals that the components share.
    - [JsNumber]: JavaScript numbers as [num] (an exact rational, [NaN], or
      an infinity) and the operators [+ - * /], [<], [>] and truthiness.
      Doubles are modelled as exact rationals: the sums of the program
      are exact in the model, so the theorems speak of the values the code
      means, not of rounding.
    - [JsValue]: the values the code handles ([undefined], [null], numbers,
      strings as lists of literal text and formatted numbers, the built-in
      functions of [Object.prototype]); [||], ToPrimitive, ToNumber and the
      [+] that concatenates strings.  String-to-number conversion is a
      field of the class [JsRuntime], so every theorem holds for any
      conversion satisfying its law; [simple_runtime] is the instance the
      examples evaluate with.
    - [JsArray]: [Array.prototype.sort] as the stable insertion sort the
      specification requires of it (SortCompare sends [NaN] to [0]), with
      the permutation, sortedness, stability and uniqueness theorems.
    - [JsObject]: objects as ordered own-property lists; property lookup
      through [Object.prototype] ([proto_get]), the [__proto__] setter,
      and OrdinaryOwnPropertyKeys (array indices first, ascending) behind
      [Object.keys], [Object.entries] and [Object.fromEntries].
    - [JsDate]: time values, the proleptic Gregorian calendar (days from
      and to civil dates), MakeDay, MakeDate, MakeFullYear and TimeClip,
      [Date.parse] on the ISO formats (date-only forms in UTC, date-time
      forms in local time) and on V8's [M/D/YYYY] form, and the en-US
      ["Month Year"] label of [toLocaleDateString].  The time zone is a
      fixed offset [tz] in milliseconds, a parameter of every theorem.
    - [Calendar]: the day numbers of [JsDate] decomposed into a March-based
      year and a day of that year; the roundtrip of the civil conversions,
      the half-year of a day ([civil_half_year]) and the civil date of the
      first day of a half-year ([civil_from_days_half_year]).
    - [Locale]: the en-US formats of ECMA-402 the chart callbacks print
      with: currency amounts ([to_locale_currency]: sign, [$], digits
      grouped by three, two fraction digits, rounding half away from zero)
      and the short month and year of a date; the reader [parse_currency]
      and the round trip of amounts ([to_locale_currency_roundtrip], the
      lemma behind C30).
    - [SalesData]: the [Sale] record; each property is [Missing], [Null] or
      a value, since the documents come from an untyped store.
    - [Fixtures]: the records of the two scenarios of the specification and
      of the edge cases.
    - [Kpi]: [calculateKPIs] and its helper methods, one definition per
      reduce callback, per reduce and per method: [total_sales],
      [group_step]/[group_sum] (salesByRegion, topCategories,
      profitDistribution), [rank_desc] (the sort of topCategories),
      [half_year_start_of]/[half_year_start]/[trend_step] (salesTrend), [profit_margin], the
      ratio methods, [calculate_median] and
      [calculate_average_fulfillment_time], [monthly_step], and
      [calculate_kpis], which assembles the twelve fields.
    - [KpiSpec]: the abstract specification of the totals and groupings
      (sums over the records, grouped by key) and the refinement theorems
      that the reduces compute it (C1-C3).
    - [Ranking]: the order of topCategories (C4).
    - [KpiTypes]: which of the TypeScript [number] annotations of the KPI
      fields the computation keeps (C27).
    - [KpiFindings]: what the code does at its edges, where the
      specification says something else or nothing (C5, C6, C10-C12,
      C14, C16, C17), and the two scenarios of the specification
      evaluated on the model.
    - [Trend]: the specification of the half-year trend and its refinement
      theorem (C7), the two-digit-year bucket (C8), the [NaN] of a
      missing [Sales] (C9), and the bounds of the bucket of a date (C28).
    - [Fulfillment]: the median and the three-tier policy of the
      fulfillment time (C13, C15).
    - [ChartConfig]: what [renderCharts] passes to [new Chart]: chart
      types, data (labels, datasets, colours) and options (scales, the
      tooltip label callbacks and the tick callback of the time axis, each
      callback a constructor interpreted by [run_label] or [run_tick]);
      the tick labels of the trend's buckets (C31).
    - [Browser]: the browser page as the state of a state-and-exception
      monad [M]: its canvases, the Chart.js charts attached to them, the
      Chart.js registry and date adapter, the [setTimeout] queue, the
      values of [Math.random] and the console.  [new Chart] on a canvas in
      use throws, as Chart.js 3 and later do; on a free canvas it records
      the chart, then throws if a controller or scale is not registered or
      a time scale has no date adapter.  The invariants [charts_ok] and
      [queues_nothing], and [keeps P], which keeps the registry well formed
      and a property [P] of every chart, with their bind lemmas.
    - [Charts]: [renderCharts], [renderChart], the deferred monthly chart,
      [getCategoryColor] and the top level of the component's module (the
      date-adapter import and [Chart.register(...registerables)],
      [module_init]).  [chart_spec] says which chart the code draws on
      each canvas (type, options, the KPI field of its data).  The colour
      bounds and prototype-named categories (C23, C24), the monthly
      chart's datasets (C25), the module's registrations (C32), the
      tooltips of the charts of objects (C33) and the amount the region
      tooltips print (C30).
    - [Dashboard]: the life cycle as a state machine: the events
      [OnInit], [Tick], [Respond], [Fail] and [Timeout] of [step] model
      [ngOnInit], the interval callback, the two subscribe callbacks and
      the queued [setTimeout] callback; the component's state includes the
      browser page of [Browser], and an exception a callback throws is
      logged ([run_callback]).  [reachable] closes the initial states under
      [step]; runs are explicit event sequences ([run]).  The invariants,
      interleavings and termination of the queue (C18-C22, C26, C29).
    - [AppModule]: the [@NgModule] metadata and the provider resolution of
      the root injector, with the animation providers it picks as an
      example ([app_module_animations]).

    ** What the theorems show

    The totals are sums of the records' values; the groupings refine a keyed-sum specification whenever no key names
    an [Object.prototype] property; topCategories is ordered by value with
    stable ties; the trend refines a per-half-year-sum specification; the
    median is the textbook median, and the fulfillment time follows the
    three-tier policy of the specification; the trend bucket of a date
    starts at or before it and ends after it.  Every reachable state of
    the component holds the KPIs of the records it stored last; along
    every run each canvas of the page holds at most one chart, the one
    the code draws there (its type, options and KPI data); the queued
    callbacks all run.  The KPI fields declared [number] are numbers, the
    tooltips of the charts of objects print dollar amounts, and the
    tooltip of a region reads back as the region's sales rounded to the
    cent; the time axis labels each trend point with its
    half-year; the module's top level is what lets the charts be built.
    The findings
    are proved as theorems too: index-named and prototype-named
    categories, the years 0-99 put in the 1900s by [new Date(y, 0, 1)], the
    missing [|| 0] of the trend, the time-zone dependent epoch bucket, the
    unguarded return on investment, the [null] fulfillment time coerced
    to [0], the ["Invalid Date"] month label, stale answers overwriting
    newer ones and polling that never stops; charts that never show a
    later answer (Chart.js refuses a canvas in use), colours that are
    built-in functions for prototype-named categories, random fill and
    border colours drawn independently, the monthly chart limited to the
    first month's categories and its [TypeError] after an empty answer,
    and animations disabled by importing [NoopAnimationsModule] last.

    ** Bounds and fuel

    No definition needs fuel: every loop of the code is a [reduce],
    [filter], [map] or [sort] over the record list, modelled by structural
    recursion on it, and the parsers recurse on the input string.  Dates
    are kept as integer milliseconds and checked against TimeClip's bound
    of 8.64e15 ms, as the code's [Date] objects are.  [Math.random] is a
    stream of rationals in the browser state; [Math.floor(x * 256)] is
    exact, as multiplying a double by 256 is.  The timer's period is not a
    bound of the model: ticks, answers and timeouts are events in any
    order, which covers every timing.

    ** Not modelled

    Chart.js's own drawing (layout, the generation of ticks, which element
    the pointer hovers) is library code: the model keeps the
    configuration a chart is built with and applies its callbacks to the
    values Chart.js passes them.  Of the library modules [AppModule]
    imports, only the animation providers are written out.  The lines of
    the sources left out are import statements, decorators, blank lines
    and braces.  [CouchdbService] is not in the sources: its answers are the
    events of [Dashboard].  Floating-point rounding, time zones with
    daylight saving and the timer's period are not modelled. *)


From stdpp Require Export base list strings numbers gmap.
From Stdlib Require Export QArith Qcanon ZArith Lia Lqa Sorted.

(** * Prelude: shared notation, tactics, hints and list lemmas *)

Declare Scope kpi_scope.
Delimit Scope kpi_scope with kpi.

(** Rational constants: [Q# z] is the integer [z] as a canonical rational,
    [z // d] the canonical rational [z / d]. *)
Definition qz (z : Z) : Qc := Q2Qc (inject_Z z).
Definition qfrac (z : Z) (d : positive) : Qc := Q2Qc (Qmake z d).
Notation "'Q#' z" := (qz z) (at level 1, z at level 0) : kpi_scope.
Notation "z // d" := (qfrac z d) (at level 40, no associativity) : kpi_scope.

Create HintDb kpi discriminated.
Create Rewrite HintDb kpi_rw.

(** ** Tactics *)

Ltac invc H := inversion H; subst; clear H.

(** Case on the first [if] or [match] scrutinee of the goal, remembering it. *)
Ltac split_ifs :=
  repeat match goal with
  | |- context [if ?b then _ else _] => destruct b eqn:?
  end.

(** Canonical rationals to [Q]: unfold the operations and drop [Qred],
    so that [lra] decides linear goals; [qc_lra] also turns an equation of
    [Qc] into one of [Q]. *)
Ltac qc_unfold :=
  unfold Qcle, Qclt, Qcminus, Qcplus, Qcopp, Qcmult, Qcdiv, Qcinv, qz in *;
  simpl in *; repeat rewrite Qred_correct in *.
Ltac qc_lra :=
  try match goal with |- @eq Qc _ _ => apply Qc_is_canon end;
  qc_unfold; lra.

(** ** Folds *)

Section Folds.
Context {A B : Type} (f : B -> A -> B).

(** A fold whose step commutes on the accumulator does not depend on the
    order of the list. *)
Lemma fold_left_perm_comm :
  (forall b x y, f (f b x) y = f (f b y) x) ->
  forall l1 l2, l1 ≡ₚ l2 -> forall b, fold_left f l1 b = fold_left f l2 b.
Proof.
  intros Hc l1 l2 Hp. induction Hp as [|x l1 l2 _ IH|x y l|l1 l2 l3 _ IH1 _ IH2];
    intros b; simpl; auto.
  - rewrite Hc. reflexivity.
  - rewrite IH1. apply IH2.
Qed.

Lemma fold_left_snoc (l : list A) (x : A) (b : B) :
  fold_left f (l ++ [x]) b = f (fold_left f l b) x.
Proof. by rewrite fold_left_app. Qed.

(** Invariant of a left fold. *)
Lemma fold_left_invariant (P : B -> Prop) (l : list A) (b : B) :
  P b -> (forall b' x, P b' -> In x l -> P (f b' x)) -> P (fold_left f l b).
Proof.
  revert b. induction l as [|x l IH]; intros b Hb Hstep; simpl; auto.
  apply IH; [apply Hstep; simpl; auto|].
  intros b' y Hb' Hy. apply Hstep; simpl; auto.
Qed.
End Folds.

(** ** Rationals *)

Lemma qz_add (a b : Z) : (qz a + qz b)%Qc = qz (a + b).
Proof.
  unfold qz, Qcplus. apply Qc_is_canon. simpl. rewrite !Qred_correct.
  by rewrite inject_Z_plus.
Qed.

Lemma qz_inj (a b : Z) : qz a = qz b -> a = b.
Proof.
  unfold qz. intros H. apply Q2Qc_eq_iff in H. by apply inject_Z_injective.
Qed.

Lemma qz_lt (a b : Z) : (qz a < qz b)%Qc <-> (a < b)%Z.
Proof.
  unfold qz, Qclt. simpl. rewrite !Qred_correct.
  rewrite Zlt_Qlt. reflexivity.
Qed.

Lemma qz_sub (a b : Z) : qz (a - b) = (qz a - qz b)%Qc.
Proof. apply Qc_is_canon. qc_unfold. rewrite <-Z.add_opp_r, inject_Z_plus, inject_Z_opp. reflexivity. Qed.

Lemma qz_le (a b : Z) : (qz a <= qz b)%Qc <-> (a <= b)%Z.
Proof. unfold qz, Qcle. simpl. rewrite !Qred_correct, Zle_Qle. reflexivity. Qed.

#[export] Hint Rewrite qz_add : kpi_rw.

Lemma Qcopp_eq_iff (a b : Qc) : (- a = - b)%Qc <-> a = b.
Proof.
  split; [|by intros ->]. intros H. apply (f_equal Qcopp) in H.
  by rewrite !Qcopp_involutive in H.
Qed.

Lemma Qc_sub_neg (a b : Qc) : (a - b < 0)%Qc <-> (a < b)%Qc.
Proof. qc_unfold. split; intros; lra. Qed.

Lemma StronglySorted_app_inv_r {A} (R : A -> A -> Prop) (l1 l2 : list A) :
  StronglySorted R (l1 ++ l2) -> StronglySorted R l2.
Proof.
  induction l1 as [|x l1 IH]; simpl; [done|].
  intros H. apply StronglySorted_inv in H as [H _]. auto.
Qed.

Section Filter.
Context {A : Type} (P : A -> Prop) `{!forall x, Decision (P x)}.

Lemma filter_Forall_id (l : list A) : Forall P l -> filter P l = l.
Proof.
  induction 1; [done|]. rewrite filter_cons_True by done. by f_equal.
Qed.

Lemma filter_Forall_nil (l : list A) : Forall (fun x => ~ P x) l -> filter P l = [].
Proof.
  induction 1; [done|]. by rewrite filter_cons_False.
Qed.
End Filter.

Lemma StronglySorted_map_iff {A B} (R : B -> B -> Prop) (f : A -> B) (l : list A) :
  StronglySorted R (map f l) <-> StronglySorted (fun x y => R (f x) (f y)) l.
Proof.
  induction l as [|x l IH]; simpl; [split; constructor|].
  split; intros Hs; apply StronglySorted_inv in Hs as [Hs Hall]; constructor.
  - by apply IH.
  - by rewrite List.Forall_map in Hall.
  - by apply IH.
  - by rewrite List.Forall_map.
Qed.

Lemma StronglySorted_impl {A} (R1 R2 : A -> A -> Prop) (l : list A) :
  (forall x y, R1 x y -> R2 x y) -> StronglySorted R1 l -> StronglySorted R2 l.
Proof.
  intros Himp. induction 1 as [|x l _ IH Hall]; constructor; [done|].
  eapply Forall_impl; [apply Hall|]. auto.
Qed.

Lemma filter_map_comm {A B} (P : B -> Prop) `{!forall x, Decision (P x)} (f : A -> B) (l : list A) :
  filter P (map f l) = map f (filter (fun x => P (f x)) l).
Proof.
  induction l as [|x l IH]; simpl; [done|].
  destruct (decide (P (f x))).
  - rewrite !filter_cons_True by done. simpl. by f_equal.
  - by rewrite !filter_cons_False.
Qed.
