(* ===== verification/JsNumber.v ===== *)
(** * JsNumber: the JavaScript Number type without rounding

    A JavaScript number is an IEEE-754 double.  The development models a
    finite double by the exact rational it denotes ([Fin q], [q : Qc]) and
    keeps the three non-finite values the dashboard can produce: [NaN] (for
    example [0 / 0] in [calculateReturnOnInvestment]) and the two infinities
    ([x / 0] for [x <> 0]).  Rounding is not modelled: sums and quotients are
    exact.  Signed zero is not modelled either: every zero the dashboard
    divides by is a [+0] (sums start at the literal [0], and [+0 + -0 = +0]).
    The operations follow ECMA-262 6.1.6.1 (Number::add, Number::multiply,
    Number::divide, Number::lessThan) on this value set. *)

From S2P Require Import Prelude.

Local Open Scope Qc_scope.

Inductive num :=
| Fin (q : Qc)
| NaN
| PInf
| NInf.

#[export] Instance num_eq_dec : EqDecision num.
Proof. solve_decision. Defined.

Definition num_zero : num := Fin 0.

(** The number [n] of a JavaScript length (a non-negative integer). *)
Definition num_of_nat (n : nat) : num := Fin (qz (Z.of_nat n)).

(** Sign of a finite value, as a comparison with zero. *)
Definition qsign (q : Qc) : comparison := Qccompare q 0.

(** The infinity (or NaN, for sign zero) that a division by zero yields. *)
Definition inf_of_sign (c : comparison) : num :=
  match c with Gt => PInf | Lt => NInf | Eq => NaN end.

Definition num_neg (x : num) : num :=
  match x with
  | Fin a => Fin (- a)
  | NaN => NaN
  | PInf => NInf
  | NInf => PInf
  end.

(** Number::add *)
Definition num_add (x y : num) : num :=
  match x, y with
  | Fin a, Fin b => Fin (a + b)
  | NaN, _ | _, NaN => NaN
  | PInf, NInf | NInf, PInf => NaN
  | PInf, _ | _, PInf => PInf
  | NInf, _ | _, NInf => NInf
  end.

(** Number::subtract is addition of the negation. *)
Definition num_sub (x y : num) : num := num_add x (num_neg y).

Definition num_sign (x : num) : option comparison :=
  match x with
  | Fin a => Some (qsign a)
  | PInf => Some Gt
  | NInf => Some Lt
  | NaN => None
  end.

Definition cmp_mul (c d : comparison) : comparison :=
  match c, d with
  | Eq, _ | _, Eq => Eq
  | Gt, Gt | Lt, Lt => Gt
  | _, _ => Lt
  end.

(** Number::multiply *)
Definition num_mul (x y : num) : num :=
  match x, y with
  | Fin a, Fin b => Fin (a * b)
  | NaN, _ | _, NaN => NaN
  | _, _ =>
      match num_sign x, num_sign y with
      | Some c, Some d => inf_of_sign (cmp_mul c d)
      | _, _ => NaN
      end
  end.

(** Number::divide (the divisor zero is [+0], see the file header). *)
Definition num_div (x y : num) : num :=
  match x, y with
  | NaN, _ | _, NaN => NaN
  | Fin a, Fin b => if decide (b = 0) then inf_of_sign (qsign a) else Fin (a / b)
  | Fin _, _ => Fin 0
  | _, Fin b => if decide (b < 0) then num_neg x else x
  | _, _ => NaN
  end.

(** Number::lessThan, with [undefined] (a NaN operand) read as [false]. *)
Definition num_lt (x y : num) : bool :=
  match x, y with
  | Fin a, Fin b => bool_decide (a < b)
  | NaN, _ | _, NaN => false
  | NInf, NInf => false
  | NInf, _ => true
  | PInf, _ => false
  | Fin _, PInf => true
  | Fin _, NInf => false
  end.

Definition num_gt (x y : num) : bool := num_lt y x.

(** ToBoolean on a number: [+0], [-0] and [NaN] are falsy. *)
Definition num_truthy (x : num) : bool :=
  match x with
  | Fin a => bool_decide (a <> 0)
  | NaN => false
  | _ => true
  end.

(** Strict equality [===] on numbers: [NaN] is not equal to itself. *)
Definition num_strict_eq (x y : num) : bool :=
  match x, y with
  | NaN, _ | _, NaN => false
  | _, _ => bool_decide (x = y)
  end.

Definition is_finite (x : num) : bool := match x with Fin _ => true | _ => false end.

(** ** Laws *)

Lemma num_add_comm (x y : num) : num_add x y = num_add y x.
Proof. destruct x, y; simpl; try reflexivity. by rewrite Qcplus_comm. Qed.

Lemma num_add_assoc (x y z : num) :
  num_add x (num_add y z) = num_add (num_add x y) z.
Proof. destruct x, y, z; simpl; try reflexivity. by rewrite Qcplus_assoc. Qed.

Lemma num_add_0_r (x : num) : num_add x num_zero = x.
Proof. destruct x; simpl; try reflexivity. by rewrite Qcplus_0_r. Qed.

Lemma num_add_0_l (x : num) : num_add num_zero x = x.
Proof. rewrite num_add_comm. apply num_add_0_r. Qed.

Lemma num_add_Fin (a b : Qc) : num_add (Fin a) (Fin b) = Fin (a + b).
Proof. reflexivity. Qed.

Lemma num_lt_Fin (a b : Qc) : num_lt (Fin a) (Fin b) = true <-> a < b.
Proof. simpl. apply bool_decide_eq_true. Qed.

Lemma num_lt_Fin_b (a b : Qc) : num_lt (Fin a) (Fin b) = bool_decide (a < b).
Proof. reflexivity. Qed.

Lemma num_div_Fin_nz (a b : Qc) : b <> 0 -> num_div (Fin a) (Fin b) = Fin (a / b).
Proof. intros Hb. unfold num_div. by case_decide. Qed.

(** Dividing a finite value by zero: [NaN] for [0 / 0], an infinity of the
    dividend's sign otherwise. *)
Lemma num_div_by_zero (a : Qc) :
  num_div (Fin a) (Fin 0) = inf_of_sign (qsign a).
Proof. unfold num_div. by case_decide. Qed.

Lemma num_mul_Fin (a b : Qc) : num_mul (Fin a) (Fin b) = Fin (a * b).
Proof. reflexivity. Qed.

Lemma num_truthy_Fin (a : Qc) : num_truthy (Fin a) = true <-> a <> 0.
Proof. simpl. apply bool_decide_eq_true. Qed.

(** A left fold of [num_add] over finite values stays finite. *)
Lemma fold_num_add_Fin {A} (g : A -> Qc) (l : list A) (a : Qc) :
  fold_left (fun s r => num_add s (Fin (g r))) l (Fin a)
  = Fin (fold_left (fun s r => s + g r) l a).
Proof. revert a. induction l as [|r l IH]; intros a; simpl; auto. Qed.

#[export] Hint Rewrite num_add_0_r num_add_0_l num_div_by_zero : kpi_rw.
#[export] Hint Resolve num_div_Fin_nz : kpi.
