(* ===== verification/JsValue.v ===== *)
(** * JsValue: JavaScript values, ToBoolean, ToPrimitive, [+], [-] and [||]

    The values the dashboard's expressions produce: [undefined], [null],
    numbers, strings and the built-in objects a plain object inherits from
    [Object.prototype] (reading [acc["constructor"]] on an empty object
    yields the function [Object], reading [acc["__proto__"]] yields
    [Object.prototype] itself).  A string is kept as a list of parts, a
    literal text or a number rendered by Number::toString; the rendering is
    never needed, because the only strings the dashboard builds are
    concatenations that start with the text of a built-in object.
    Converting such a string back to a number (StringToNumber, in the
    comparator of the category ranking) is a runtime primitive: it is the
    field of the class [JsRuntime], whose law says that a string whose first
    character cannot start a numeric literal converts to [NaN]. *)

From Stdlib Require Import Ascii.
From S2P Require Import Prelude JsNumber.

Local Open Scope string_scope.

(** Built-in objects reachable from [Object.prototype]. *)
Inductive builtin :=
| ObjectPrototype
| NativeFunction (name : string).

Inductive part :=
| PLit (s : string)
| PNum (n : num).

Inductive jsval :=
| JUndefined
| JNull
| JNumber (n : num)
| JString (s : list part)
| JObject (o : builtin).

#[export] Instance builtin_eq_dec : EqDecision builtin.
Proof. solve_decision. Defined.
#[export] Instance part_eq_dec : EqDecision part.
Proof. solve_decision. Defined.
#[export] Instance jsval_eq_dec : EqDecision jsval.
Proof. solve_decision. Defined.

(** A property of a JSON document: absent ([undefined] when read), [null],
    or a value. *)
Inductive field (A : Type) :=
| Missing
| Null
| Val (a : A).
Arguments Missing {A}.
Arguments Null {A}.
Arguments Val {A} a.

(** ** ToBoolean and [||] *)

Definition part_empty (p : part) : bool :=
  match p with PLit s => bool_decide (s = "") | PNum _ => false end.

Definition truthy (v : jsval) : bool :=
  match v with
  | JUndefined | JNull => false
  | JNumber n => num_truthy n
  | JString s => negb (forallb part_empty s)
  | JObject _ => true
  end.

(** [a || b] *)
Definition js_or (a b : jsval) : jsval := if truthy a then a else b.

(** ** ToPrimitive and ToString *)

(** The text [Object.prototype.toString] and [Function.prototype.toString]
    give for the built-ins. *)
Definition builtin_text (o : builtin) : string :=
  match o with
  | ObjectPrototype => "[object Object]"
  | NativeFunction f => "function " ++ f ++ "() { [native code] }"
  end.

Definition to_primitive (v : jsval) : jsval :=
  match v with
  | JObject o => JString [PLit (builtin_text o)]
  | _ => v
  end.

(** ToString of a primitive, as parts. *)
Definition to_parts (v : jsval) : list part :=
  match v with
  | JUndefined => [PLit "undefined"]
  | JNull => [PLit "null"]
  | JNumber n => [PNum n]
  | JString s => s
  | JObject o => [PLit (builtin_text o)]
  end.

(** ** ToNumber *)

(** Characters that can start a StringNumericLiteral after white space:
    digits, signs, the decimal point and the [I] of [Infinity]; white space
    itself is also listed, since it is skipped. *)
Definition numeric_lead (c : Ascii.ascii) : bool :=
  let n := Ascii.nat_of_ascii c in
  bool_decide (48 <= n <= 57)%nat
  || bool_decide (c ∈ ["+"; "-"; "."; "I"; " "]%char)
  || bool_decide (9 <= n <= 13)%nat.

Class JsRuntime := {
  string_to_number : list part -> num;
  string_to_number_nonnumeric : forall c s rest,
    numeric_lead c = false -> string_to_number (PLit (String c s) :: rest) = NaN
}.

Definition to_number `{JsRuntime} (v : jsval) : num :=
  match v with
  | JUndefined => NaN
  | JNull => num_zero
  | JNumber n => n
  | JString s => string_to_number s
  | JObject _ => NaN
  end.

(** ** The operators [+] and [-] (ECMA-262 13.15.3, ApplyStringOrNumericBinaryOperator) *)

Definition is_string (v : jsval) : bool := match v with JString _ => true | _ => false end.

Definition js_add `{JsRuntime} (a b : jsval) : jsval :=
  let pa := to_primitive a in
  let pb := to_primitive b in
  if is_string pa || is_string pb then JString (to_parts pa ++ to_parts pb)
  else JNumber (num_add (to_number pa) (to_number pb)).

Definition js_sub `{JsRuntime} (a b : jsval) : jsval :=
  JNumber (num_sub (to_number (to_primitive a)) (to_number (to_primitive b))).

Definition js_mul `{JsRuntime} (a b : jsval) : jsval :=
  JNumber (num_mul (to_number (to_primitive a)) (to_number (to_primitive b))).

Definition js_div `{JsRuntime} (a b : jsval) : jsval :=
  JNumber (num_div (to_number (to_primitive a)) (to_number (to_primitive b))).

(** [a > n] with a number [n] on the right: both sides go through
    ToNumeric (the string comparison branch needs two strings). *)
Definition js_gt_num `{JsRuntime} (a : jsval) (n : num) : bool :=
  num_lt n (to_number (to_primitive a)).

(** The rational value of a finite number, for comparisons of evaluated
    results. *)
Definition js_q (v : jsval) : option Q :=
  match v with JNumber (Fin q) => Some (this q) | _ => None end.

(** ** A concrete runtime: decimal naturals, everything else [NaN] *)

Fixpoint parse_digits (s : string) (acc : Z) : option Z :=
  match s with
  | EmptyString => Some acc
  | String c s' =>
      let n := Ascii.nat_of_ascii c in
      if bool_decide (48 <= n <= 57)%nat
      then parse_digits s' (10 * acc + Z.of_nat (n - 48))%Z else None
  end.

Definition simple_string_to_number (s : list part) : num :=
  match s with
  | [] => num_zero
  | [PLit t] =>
      match parse_digits t 0 with Some z => Fin (qz z) | None => NaN end
  | _ => NaN
  end.

Lemma simple_string_to_number_nonnumeric c s rest :
  numeric_lead c = false -> simple_string_to_number (PLit (String c s) :: rest) = NaN.
Proof.
  intros Hc. destruct rest; simpl; [|done].
  case_bool_decide as Hd; [|done].
  unfold numeric_lead in Hc. simpl in Hc.
  by rewrite (bool_decide_eq_true_2 _ Hd) in Hc.
Qed.

#[export] Instance simple_runtime : JsRuntime := {
  string_to_number := simple_string_to_number;
  string_to_number_nonnumeric := simple_string_to_number_nonnumeric
}.

(** ** Laws *)

Section Laws.
Context `{JsRuntime}.

Lemma js_add_num (x y : num) : js_add (JNumber x) (JNumber y) = JNumber (num_add x y).
Proof. reflexivity. Qed.

(** [x || 0] on a number is the number itself: a falsy number is a zero
    or [NaN], and a zero is replaced by [+0]. *)
Lemma js_or_Fin_zero (q : Qc) : js_or (JNumber (Fin q)) (JNumber num_zero) = JNumber (Fin q).
Proof.
  unfold js_or, truthy, num_truthy. case_bool_decide as Hq; [done|].
  by subst.
Qed.

Lemma builtin_text_lead (o : builtin) :
  exists c s, builtin_text o = String c s /\ numeric_lead c = false.
Proof. destruct o; eexists _, _; split; reflexivity. Qed.

(** Adding a number to a built-in object concatenates: the result is a
    string that starts with the object's text. *)
Lemma js_add_builtin_num (o : builtin) (n : num) :
  js_add (JObject o) (JNumber n) = JString [PLit (builtin_text o); PNum n].
Proof. reflexivity. Qed.

(** Such a string converts back to [NaN]. *)
Lemma to_number_builtin_string (o : builtin) (rest : list part) :
  to_number (JString (PLit (builtin_text o) :: rest)) = NaN.
Proof.
  destruct (builtin_text_lead o) as (c & s & -> & Hc).
  apply string_to_number_nonnumeric, Hc.
Qed.
End Laws.

#[export] Hint Rewrite @js_add_num @js_or_Fin_zero : kpi_rw.
