(* ===== verification/JsArray.v ===== *)
(** * JsArray: [Array.prototype.sort] with a comparator

    ECMA-262 (23.1.3.30) requires the sort to be stable and, for a
    consistent comparator, sorted; the algorithm is the engine's.  The
    model is a stable insertion sort ([js_sort]) driven by SortCompare
    ([sort_compare]: the comparator's result, [NaN] read as [+0]).
    [js_sort_unique] shows the choice of algorithm is immaterial: for a
    comparator that compares keys, every list that is sorted by key and
    keeps the input order among equal keys is [js_sort]'s result, so any
    conforming engine returns the same array. *)

From S2P Require Import Prelude JsNumber JsValue.

Local Open Scope Qc_scope.
Local Open Scope list_scope.

Section Sort.
Context {A : Type} (cmp : A -> A -> num).

(** SortCompare (ECMA-262 23.1.3.30.2) with a comparator. *)
Definition sort_compare (x y : A) : num :=
  let v := cmp x y in if decide (v = NaN) then num_zero else v.

(** [x] goes before [y] when SortCompare is negative. *)
Definition before (x y : A) : bool := num_lt (sort_compare x y) num_zero.

Fixpoint sort_insert (x : A) (l : list A) : list A :=
  match l with
  | [] => [x]
  | y :: l' => if before x y then x :: y :: l' else y :: sort_insert x l'
  end.

(** [l.slice().sort(cmp)] *)
Definition js_sort (l : list A) : list A :=
  fold_left (fun acc x => sort_insert x acc) l [].

Lemma sort_insert_perm x l : sort_insert x l ≡ₚ x :: l.
Proof.
  induction l as [|y l IH]; simpl; [done|].
  destruct (before x y); [done|]. rewrite IH. apply perm_swap.
Qed.

Lemma js_sort_perm l : js_sort l ≡ₚ l.
Proof.
  unfold js_sort. rewrite <-(app_nil_r l) at 2. generalize (@nil A) as acc.
  induction l as [|x l IH]; intros acc; simpl; [done|].
  rewrite IH, sort_insert_perm. symmetry. apply Permutation_middle.
Qed.

(** Where [sort_insert] puts the element: after a prefix it does not go
    before, in front of the first element it goes before. *)
Lemma sort_insert_shape x l :
  exists l1 l2, l = l1 ++ l2 /\ sort_insert x l = l1 ++ x :: l2
    /\ Forall (fun y => before x y = false) l1
    /\ match l2 with [] => True | y :: _ => before x y = true end.
Proof.
  induction l as [|y l IH]; simpl.
  - by exists [], [].
  - destruct (before x y) eqn:Hb.
    + by exists [], (y :: l).
    + destruct IH as (l1 & l2 & -> & -> & Hl1 & Hl2).
      exists (y :: l1), l2. by repeat split; try constructor.
Qed.
End Sort.

Lemma js_sort_map {A B} (cmpA : A -> A -> num) (cmpB : B -> B -> num) (f : A -> B) :
  (forall x y, cmpB (f x) (f y) = cmpA x y) ->
  forall l, js_sort cmpB (map f l) = map f (js_sort cmpA l).
Proof.
  intros Hf l. unfold js_sort.
  change (@nil B) with (map f (@nil A)). generalize (@nil A) as acc.
  induction l as [|x l IH]; intros acc; simpl; [done|].
  rewrite <-IH. f_equal.
  induction acc as [|y acc IHa]; simpl; [done|].
  unfold before, sort_compare. rewrite Hf.
  destruct (num_lt _ _); simpl; by rewrite ?IHa.
Qed.

(** ** Comparators that compare a rational key *)

Section KeySort.
Context {A : Type} (key : A -> Qc) (cmp : A -> A -> num).
Hypothesis Hcmp : forall x y, cmp x y = Fin (key x - key y).

Definition key_le (x y : A) : Prop := key x <= key y.

(** The elements of a list with key [q], in order. *)
Definition with_key (q : Qc) (l : list A) : list A := filter (fun z => key z = q) l.

Lemma before_key x y : before cmp x y = bool_decide (key x < key y).
Proof.
  unfold before, sort_compare. rewrite Hcmp, decide_False by done.
  cbn. apply bool_decide_ext, Qc_sub_neg.
Qed.

Lemma Forall_key_le_trans x y l :
  key x <= key y -> Forall (key_le y) l -> Forall (key_le x) l.
Proof.
  intros Hxy Hl. eapply Forall_impl; [apply Hl|]. unfold key_le. intros z Hz.
  by eapply Qcle_trans.
Qed.

Lemma sort_insert_sorted x l :
  StronglySorted key_le l -> StronglySorted key_le (sort_insert cmp x l).
Proof.
  induction l as [|y l IH]; intros Hs; simpl.
  - repeat constructor.
  - invc Hs. rewrite before_key. case_bool_decide as Hxy.
    + constructor; [by constructor|].
      constructor; [apply Qclt_le_weak, Hxy|].
      eapply Forall_key_le_trans; [apply Qclt_le_weak, Hxy|done].
    + constructor; [by apply IH|].
      eapply Permutation_Forall; [symmetry; apply sort_insert_perm|].
      constructor; [apply Qcnot_lt_le, Hxy|done].
Qed.

Lemma js_sort_sorted l : StronglySorted key_le (js_sort cmp l).
Proof.
  unfold js_sort. apply fold_left_invariant; [constructor|].
  intros acc x Hs _. by apply sort_insert_sorted.
Qed.

Lemma with_key_app q l1 l2 : with_key q (l1 ++ l2) = with_key q l1 ++ with_key q l2.
Proof. apply filter_app. Qed.

Lemma with_key_head q x l : key x = q -> with_key q (x :: l) = x :: with_key q l.
Proof. intros Hx. by apply filter_cons_True. Qed.

Lemma with_key_skip q x l : key x <> q -> with_key q (x :: l) = with_key q l.
Proof. intros Hx. by apply filter_cons_False. Qed.

Lemma with_key_In q y l : In y (with_key q l) <-> key y = q /\ In y l.
Proof. rewrite <-!list_elem_of_In. unfold with_key. by rewrite list_elem_of_filter. Qed.

Lemma sorted_suffix_gt x y l :
  StronglySorted key_le (y :: l) -> key x < key y -> with_key (key x) (y :: l) = [].
Proof.
  intros Hs Hxy. destruct (with_key (key x) (y :: l)) as [|z r] eqn:E; [done|].
  assert (Hz : In z (with_key (key x) (y :: l))) by (rewrite E; left; done).
  apply with_key_In in Hz as [Hzk Hz].
  apply (StronglySorted_inv) in Hs as [_ Hall].
  destruct Hz as [<-|Hz].
  - rewrite Hzk in Hxy. by destruct (Qclt_not_eq _ _ Hxy).
  - eapply List.Forall_forall in Hall; [|apply Hz]. unfold key_le in Hall.
    rewrite Hzk in Hall. by destruct (Qcle_not_lt _ _ Hall).
Qed.

Lemma with_key_sort_insert q x acc :
  StronglySorted key_le acc ->
  with_key q (sort_insert cmp x acc) = with_key q (acc ++ [x]).
Proof.
  intros Hs. destruct (sort_insert_shape cmp x acc) as (l1 & l2 & -> & -> & _ & Hl2).
  unfold with_key. rewrite !filter_app, <-app_assoc. f_equal.
  destruct (decide (key x = q)) as [<-|Hq].
  - rewrite !filter_cons_True, filter_nil by done.
    destruct l2 as [|y l2]; [done|]. rewrite before_key in Hl2.
    apply bool_decide_eq_true in Hl2.
    apply StronglySorted_app_inv_r in Hs.
    pose proof (sorted_suffix_gt x y l2 Hs Hl2) as E. unfold with_key in E.
    by rewrite E.
  - rewrite !filter_cons_False, filter_nil by done. by rewrite app_nil_r.
Qed.

(** Stability: among the elements with a given key, the sort keeps the
    input order. *)
Lemma js_sort_stable q l : with_key q (js_sort cmp l) = with_key q l.
Proof.
  unfold js_sort. change (with_key q l) with (with_key q ([] ++ l)).
  assert (Hs : StronglySorted key_le (@nil A)) by constructor.
  revert Hs. generalize (@nil A) as acc.
  induction l as [|x l IH]; intros acc Hs; simpl; [by rewrite app_nil_r|].
  rewrite IH by (by apply sort_insert_sorted).
  replace (acc ++ x :: l) with ((acc ++ [x]) ++ l) by (by rewrite <-app_assoc).
  by rewrite !with_key_app, with_key_sort_insert, !with_key_app by done.
Qed.

Lemma sorted_head_le x l y : StronglySorted key_le (x :: l) -> In y (x :: l) -> key x <= key y.
Proof.
  intros Hs [<-|Hy]; [apply Qcle_refl|].
  apply StronglySorted_inv in Hs as [_ Hall]. by eapply List.Forall_forall in Hall.
Qed.

Lemma with_key_nil_head x l (s : list A) :
  (forall q, with_key q (x :: l) = with_key q s) -> In x s.
Proof.
  intros H. specialize (H (key x)). rewrite with_key_head in H by done.
  assert (Hin : In x (with_key (key x) s)) by (rewrite <-H; left; done).
  by apply with_key_In in Hin as [_ ?].
Qed.

(** Two lists sorted by key with the same elements in the same order at
    every key are equal. *)
Lemma sorted_same_keys_eq (s1 s2 : list A) :
  StronglySorted key_le s1 -> StronglySorted key_le s2 ->
  (forall q, with_key q s1 = with_key q s2) -> s1 = s2.
Proof.
  revert s2. induction s1 as [|x s1 IH]; intros s2 Hs1 Hs2 Hq.
  - destruct s2 as [|y s2]; [done|].
    pose proof (with_key_nil_head y s2 [] (fun q => eq_sym (Hq q))) as [].
  - destruct s2 as [|y s2]; [by pose proof (with_key_nil_head x s1 [] Hq) as []|].
    assert (Hxy : key x = key y).
    { apply Qcle_antisym.
      - apply (sorted_head_le x s1 y Hs1), (with_key_nil_head y s2), (fun q => eq_sym (Hq q)).
      - apply (sorted_head_le y s2 x Hs2), (with_key_nil_head x s1), Hq. }
    pose proof (Hq (key x)) as Hk.
    rewrite (with_key_head _ x), (with_key_head _ y) in Hk by done.
    injection Hk as <- Hk. f_equal.
    apply IH; [by apply StronglySorted_inv in Hs1 as []|by apply StronglySorted_inv in Hs2 as []|].
    intros q. destruct (decide (key x = q)) as [<-|Hne]; [done|].
    specialize (Hq q). by rewrite !with_key_skip in Hq.
Qed.

(** Every stable sort of [l] by key is [js_sort l]. *)
Lemma js_sort_unique (l l' : list A) :
  StronglySorted key_le l' -> (forall q, with_key q l' = with_key q l) ->
  l' = js_sort cmp l.
Proof.
  intros Hs Hst. apply sorted_same_keys_eq; [done|apply js_sort_sorted|].
  intros q. by rewrite Hst, js_sort_stable.
Qed.
End KeySort.
