(* ===== verification/JsObject.v ===== *)
(** * JsObject: plain objects used as dictionaries

    The dashboard accumulates sums in object literals ([{}]) indexed by
    strings read from the records.  An object is modelled by its own data
    properties in creation order, [list (string * V)]; [own_get] and
    [own_set] are [[Get]] and [[Set]] of an own property (a new key is
    appended, an existing one keeps its place).

    Two behaviours of ordinary objects matter for string keys taken from
    data:
    - a key not owned by the object is looked up on [Object.prototype]
      ([proto_get]): [acc["constructor"]] is the function [Object],
      [acc["toString"]] a built-in method, [acc["__proto__"]] the prototype
      itself; assigning a primitive to [acc["__proto__"]] runs the inherited
      setter, which ignores it ([js_set]);
    - OrdinaryOwnPropertyKeys (ECMA-262 10.1.11) lists the keys that are
      array indices ([array_index]: the canonical decimal strings of
      [0 .. 2^32 - 2]) first, in ascending numeric order, then the other
      keys in creation order ([own_entries]); [Object.entries],
      [Object.keys] and [Object.values] use that order. *)

From Stdlib Require Import Ascii.
From S2P Require Import Prelude JsNumber JsValue JsArray.

Local Open Scope string_scope.
Local Open Scope list_scope.

Section Own.
Context {V : Type}.

Fixpoint own_get (o : list (string * V)) (k : string) : option V :=
  match o with
  | [] => None
  | (k', v) :: o' => if decide (k = k') then Some v else own_get o' k
  end.

Fixpoint own_set (k : string) (v : V) (o : list (string * V)) : list (string * V) :=
  match o with
  | [] => [(k, v)]
  | (k', v') :: o' => if decide (k = k') then (k, v) :: o' else (k', v') :: own_set k v o'
  end.

(** [Object.fromEntries]: CreateDataPropertyOrThrow for each entry. *)
Definition from_entries (l : list (string * V)) : list (string * V) :=
  fold_left (fun o kv => own_set kv.1 kv.2 o) l [].

Lemma own_get_set_eq k v o : own_get (own_set k v o) k = Some v.
Proof.
  induction o as [|[k' v'] o IH]; simpl; [by rewrite decide_True|].
  case_decide; simpl; [by rewrite decide_True|]. by rewrite decide_False.
Qed.

Lemma own_get_set_ne k k' v o : k <> k' -> own_get (own_set k v o) k' = own_get o k'.
Proof.
  intros Hne. induction o as [|[k'' v'] o IH]; simpl.
  - by rewrite decide_False.
  - case_decide; simpl; repeat case_decide; subst; congruence.
Qed.

Lemma own_set_keys_in k v o : k ∈ map fst o -> map fst (own_set k v o) = map fst o.
Proof.
  induction o as [|[k' v'] o IH]; simpl; intros Hk; [by apply elem_of_nil in Hk|].
  case_decide; simpl; [congruence|]. f_equal.
  apply IH. apply elem_of_cons in Hk as [?|?]; [congruence|done].
Qed.

Lemma own_set_keys_new k v o : k ∉ map fst o -> map fst (own_set k v o) = map fst o ++ [k].
Proof.
  induction o as [|[k' v'] o IH]; simpl; intros Hk; [done|].
  rewrite decide_False by (intros ->; apply Hk; left). simpl. f_equal.
  apply IH. intros ?. apply Hk. by right.
Qed.

Lemma own_get_In o k v : own_get o k = Some v -> In (k, v) o.
Proof.
  induction o as [|[k' v'] o IH]; simpl; [done|].
  case_decide; [intros [= ->]; subst; by left|]. auto.
Qed.

Lemma own_get_None o k : own_get o k = None <-> k ∉ map fst o.
Proof.
  induction o as [|[k' v'] o IH]; simpl; [split; [intros _; apply not_elem_of_nil|done]|].
  rewrite not_elem_of_cons. case_decide; [split; [done|]; intros []; congruence|].
  rewrite IH. naive_solver.
Qed.

(** Creating properties from entries with distinct keys keeps the entries. *)
Lemma from_entries_nodup (l : list (string * V)) :
  NoDup (map fst l) -> from_entries l = l.
Proof.
  unfold from_entries. intros Hnd. rewrite <-(app_nil_l l) at 2.
  assert (Hdisj : forall k, k ∈ map fst l -> k ∉ map fst (@nil (string * V))) by
    (intros ? _; apply not_elem_of_nil).
  revert Hnd Hdisj. generalize (@nil (string * V)) as acc.
  induction l as [|[k v] l IH]; intros acc Hnd Hdisj; simpl; [by rewrite app_nil_r|].
  apply NoDup_cons in Hnd as [Hk Hnd].
  assert (Hset : own_set k v acc = acc ++ [(k, v)]).
  { assert (Hk' : k ∉ map fst acc) by (apply Hdisj; left).
    clear -Hk'. induction acc as [|[k' v'] acc IH]; simpl; [done|].
    rewrite decide_False by (intros ->; apply Hk'; left). f_equal.
    apply IH. intros ?. apply Hk'. by right. }
  rewrite Hset, IH; [by rewrite <-app_assoc|done|].
  intros k' Hk'. rewrite map_app, not_elem_of_app. split.
  - apply Hdisj. by right.
  - simpl. rewrite not_elem_of_cons. split; [intros ->; contradiction|apply not_elem_of_nil].
Qed.
End Own.

(** ** Array-index keys and the order of own keys *)

(** CanonicalNumericIndexString restricted to array indices. *)
Definition array_index (k : string) : option Z :=
  match k with
  | EmptyString => None
  | String c rest =>
      if decide (c = "0"%char) then
        match rest with EmptyString => Some 0%Z | _ => None end
      else
        match parse_digits k 0 with
        | Some z => if decide (z < 4294967295)%Z then Some z else None
        | None => None
        end
  end.

Definition is_index_key {V} (p : string * V) : Prop := is_Some (array_index p.1).

#[export] Instance is_index_key_dec {V} (p : string * V) : Decision (is_index_key p).
Proof. unfold is_index_key. apply _. Defined.

Definition index_of {V} (p : string * V) : Z :=
  match array_index p.1 with Some z => z | None => 0%Z end.

(** OrdinaryOwnPropertyKeys, with the values: array indices ascending, then
    the other keys in creation order. *)
Definition own_entries {V} (o : list (string * V)) : list (string * V) :=
  js_sort (fun p1 p2 => Fin (qz (index_of p1 - index_of p2))) (filter is_index_key o)
  ++ filter (fun p => ~ is_index_key p) o.

(** [Object.keys] and [Object.values] *)
Definition object_keys {V} (o : list (string * V)) : list string := map fst (own_entries o).
Definition object_values {V} (o : list (string * V)) : list V := map snd (own_entries o).

Lemma own_entries_perm {V} (o : list (string * V)) : own_entries o ≡ₚ o.
Proof.
  unfold own_entries. rewrite js_sort_perm.
  apply filter_app_complement.
Qed.

(** [Object.keys] lists the array-index keys first, in ascending numeric
    order, then the other keys; which keys an object has decides this, not
    the order in which they were created. *)
Lemma object_keys_index_first {V} (o : list (string * V)) :
  exists pre post, object_keys o = (pre ++ post)%list /\
    Forall (fun k => is_Some (array_index k)) pre /\
    Forall (fun k => array_index k = None) post /\
    StronglySorted (fun k1 k2 => forall i1 i2, array_index k1 = Some i1 ->
                                  array_index k2 = Some i2 -> (i1 <= i2)%Z) pre /\
    (pre ++ post)%list ≡ₚ map fst o.
Proof.
  unfold object_keys. eexists _, _. split; [unfold own_entries; apply map_app|].
  split_and!.
  - apply Forall_map. eapply Permutation_Forall; [symmetry; apply js_sort_perm|].
    apply Forall_forall. intros p Hp%list_elem_of_filter. apply Hp.
  - apply Forall_map, Forall_forall. intros p [Hp _]%list_elem_of_filter.
    destruct (array_index p.1) eqn:E; [|done]. exfalso. apply Hp. unfold is_index_key. rewrite E. by eexists.
  - apply StronglySorted_map_iff.
    eapply StronglySorted_impl;
      [|apply (js_sort_sorted (fun p => qz (index_of p))); intros; by rewrite qz_sub].
    intros x y Hxy i1 i2 E1 E2. unfold key_le, index_of in Hxy. rewrite E1, E2 in Hxy. by apply qz_le.
  - rewrite <-map_app. apply Permutation_map, own_entries_perm.
Qed.

(** In an object with distinct keys, the value [Object.values] lists at
    the position of a key in [Object.keys] is the key's own property. *)
Lemma object_keys_values_lookup {V} (o : list (string * V)) i k v :
  NoDup (map fst o) -> object_keys o !! i = Some k -> object_values o !! i = Some v ->
  own_get o k = Some v.
Proof.
  intros Hnd Hk Hv. unfold object_keys, object_values in *.
  change (map fst ?l) with (fst <$> l) in Hk. change (map snd ?l) with (snd <$> l) in Hv.
  rewrite list_lookup_fmap in Hk. rewrite list_lookup_fmap in Hv.
  destruct (own_entries o !! i) as [[k' v']|] eqn:E; simplify_eq/=.
  apply list_elem_of_lookup_2 in E. rewrite own_entries_perm in E.
  clear i. induction o as [|[k1 v1] o IH]; [by apply elem_of_nil in E|].
  simpl in *. apply NoDup_cons in Hnd as [Hk1 Hnd]. case_decide as Hk; subst.
  - apply elem_of_cons in E as [[= ->]|E]; [done|].
    exfalso. apply Hk1. apply list_elem_of_fmap. by exists (k1, v).
  - apply elem_of_cons in E as [[= -> ->]|E]; [done|]. by apply IH.
Qed.

(** An object none of whose keys is an array index lists its entries in
    creation order. *)
Lemma own_entries_no_index {V} (o : list (string * V)) :
  Forall (fun p => array_index p.1 = None) o -> own_entries o = o.
Proof.
  intros Hall. unfold own_entries.
  rewrite (filter_Forall_nil is_index_key), (filter_Forall_id (fun p => ~ is_index_key p)); [done| |].
  - eapply Forall_impl; [apply Hall|]. unfold is_index_key. intros p ->. by intros [].
  - eapply Forall_impl; [apply Hall|]. unfold is_index_key. intros p -> []. done.
Qed.

(** ** Inherited properties of [Object.prototype] *)

Definition object_prototype_methods : list string :=
  ["__defineGetter__"; "__defineSetter__"; "hasOwnProperty"; "__lookupGetter__";
   "__lookupSetter__"; "isPrototypeOf"; "propertyIsEnumerable"; "toString";
   "valueOf"; "toLocaleString"].

Definition proto_get (k : string) : option builtin :=
  if decide (k = "__proto__") then Some ObjectPrototype
  else if decide (k = "constructor") then Some (NativeFunction "Object")
  else if decide (k ∈ object_prototype_methods) then Some (NativeFunction k)
  else None.

(** [o[k]] on an object created by [{}]. *)
Definition js_get (o : list (string * jsval)) (k : string) : jsval :=
  match own_get o k with
  | Some v => v
  | None => match proto_get k with Some b => JObject b | None => JUndefined end
  end.

(** [o[k] = v] for a primitive [v]. *)
Definition js_set (k : string) (v : jsval) (o : list (string * jsval)) : list (string * jsval) :=
  if decide (k = "__proto__") then o else own_set k v o.

Lemma js_get_set_eq k v o : k <> "__proto__" -> js_get (js_set k v o) k = v.
Proof. intros Hk. unfold js_get, js_set. rewrite decide_False by done. by rewrite own_get_set_eq. Qed.

Lemma js_get_set_ne k k' v o : k <> k' -> js_get (js_set k v o) k' = js_get o k'.
Proof.
  intros Hne. unfold js_get, js_set. case_decide; [done|]. by rewrite own_get_set_ne.
Qed.

Lemma js_get_absent o k : proto_get k = None -> own_get o k = None -> js_get o k = JUndefined.
Proof. intros Hp Ho. unfold js_get. by rewrite Ho, Hp. Qed.
