(* ===== verification/JsDate.v ===== *)
(** * JsDate: the JavaScript [Date] object in a fixed time zone

    A [Date] holds a time value: milliseconds since 1970-01-01T00:00Z, or
    [NaN] for an invalid date; [time] is [option Z] with [None] for [NaN].
    The calendar is the proleptic Gregorian one of ECMA-262 21.4.1; the
    conversions between day numbers and civil dates are
    [days_from_civil]/[civil_from_days] (H. Hinnant's algorithms, which
    engines use); both repeat every 400 years ([days_from_civil_period],
    [civil_from_days_period]), and the first-of-month day numbers the
    dashboard builds are strictly increasing ([half_year_start_lt]).

    The local time zone is a fixed offset [tz] (milliseconds east of UTC;
    daylight saving time is not modelled): LocalTime(t) = t + tz and
    UTC(t) = t - tz.  [Date.parse] is modelled on the forms a data file
    holds: the ISO forms [YYYY-MM-DD] (UTC) and [YYYY-MM-DDTHH:mm:ss[.sss][Z]]
    (local time without [Z]), and V8's legacy [M/D/YYYY] (local time, a
    two-digit year read as 19xx or 20xx); every other string gives [NaN]. *)

From Stdlib Require Import Ascii.
From stdpp Require Import pretty.
From S2P Require Import Prelude JsNumber JsValue.

Local Open Scope Z_scope.

(** ** Civil calendar *)

Definition is_leap (y : Z) : bool :=
  ((y mod 4 =? 0) && negb (y mod 100 =? 0)) || (y mod 400 =? 0).

Definition days_in_month (y m : Z) : Z :=
  if m =? 2 then (if is_leap y then 29 else 28)
  else if (m =? 4) || (m =? 6) || (m =? 9) || (m =? 11) then 30 else 31.

Definition valid_date (y m d : Z) : bool :=
  (1 <=? m) && (m <=? 12) && (1 <=? d) && (d <=? days_in_month y m).

(** Day number of the civil date [y-m-d] ([m] in 1..12), day 0 being
    1970-01-01. *)
Definition days_from_civil (y m d : Z) : Z :=
  let y' := if m <=? 2 then y - 1 else y in
  let era := y' / 400 in
  let yoe := y' - era * 400 in
  let mp := if 2 <? m then m - 3 else m + 9 in
  let doy := (153 * mp + 2) / 5 + d - 1 in
  let doe := yoe * 365 + yoe / 4 - yoe / 100 + doy in
  era * 146097 + doe - 719468.

(** The civil date (year, month 1..12, day) of a day number. *)
Definition civil_from_days (z : Z) : Z * Z * Z :=
  let z' := z + 719468 in
  let era := z' / 146097 in
  let doe := z' - era * 146097 in
  let yoe := (doe - doe / 1460 + doe / 36524 - doe / 146096) / 365 in
  let y := yoe + era * 400 in
  let doy := doe - (365 * yoe + yoe / 4 - yoe / 100) in
  let mp := (5 * doy + 2) / 153 in
  let d := doy - (153 * mp + 2) / 5 + 1 in
  let m := if mp <? 10 then mp + 3 else mp - 9 in
  (if m <=? 2 then y + 1 else y, m, d).

(** ** The calendar repeats every 400 years (146097 days) *)

Lemma days_from_civil_period (y m d k : Z) :
  days_from_civil (y + 400 * k) m d = days_from_civil y m d + 146097 * k.
Proof.
  unfold days_from_civil.
  assert (Hdiv : forall a, (a + 400 * k) / 400 = a / 400 + k).
  { intros a. rewrite Z.mul_comm. apply Z.div_add. lia. }
  replace (if m <=? 2 then y + 400 * k - 1 else y + 400 * k)
    with ((if m <=? 2 then y - 1 else y) + 400 * k) by (destruct (m <=? 2); lia).
  set (y' := if m <=? 2 then y - 1 else y). rewrite Hdiv.
  replace (y' + 400 * k - (y' / 400 + k) * 400) with (y' - y' / 400 * 400) by lia.
  lia.
Qed.

Lemma civil_from_days_period (z k : Z) :
  civil_from_days (z + 146097 * k) =
  let '(y, m, d) := civil_from_days z in (y + 400 * k, m, d).
Proof.
  unfold civil_from_days.
  replace (z + 146097 * k + 719468) with ((z + 719468) + k * 146097) by lia.
  rewrite Z.div_add by lia.
  replace (z + 719468 + k * 146097 - (( z + 719468) / 146097 + k) * 146097)
    with (z + 719468 - (z + 719468) / 146097 * 146097) by lia.
  set (doe := z + 719468 - (z + 719468) / 146097 * 146097).
  set (yoe := (doe - doe / 1460 + doe / 36524 - doe / 146096) / 365).
  destruct (_ <? 10); destruct (_ <=? 2); f_equal; f_equal; lia.
Qed.

(** ** Time values and the local time zone *)

Definition ms_per_day : Z := 86400000.

(** TimeClip: time values beyond 8.64e15 ms are [NaN]. *)
Definition time_clip (t : Z) : option Z :=
  if Z.abs t <=? 8640000000000000 then Some t else None.

(** The civil date of LocalTime(t). *)
Definition local_ymd (tz t : Z) : Z * Z * Z := civil_from_days ((t + tz) / ms_per_day).

(** [getFullYear()] and [getMonth()] (months counted from 0). *)
Definition get_full_year (tz t : Z) : Z := (local_ymd tz t).1.1.
Definition get_month (tz t : Z) : Z := (local_ymd tz t).1.2 - 1.

(** MakeDay, MakeDate and MakeFullYear (ECMA-262 21.4.1.28, 21.4.1.29,
    21.4.2.1 step 5). *)
Definition make_day (y m d : Z) : Z := days_from_civil (y + m / 12) (m mod 12 + 1) 1 + d - 1.
Definition make_date (day ms : Z) : Z := day * ms_per_day + ms.
Definition make_full_year (y : Z) : Z := if (0 <=? y) && (y <=? 99) then 1900 + y else y.

(** [new Date(y, m, d)]: a local date, TimeClip(UTC(...)). *)
Definition date_local (tz y m d : Z) : option Z :=
  time_clip (make_date (make_day (make_full_year y) m d) 0 - tz).

(** ** [Date.parse] *)

Definition digit (c : ascii) : option Z :=
  let n := nat_of_ascii c in
  if bool_decide (48 <= n <= 57)%nat then Some (Z.of_nat n - 48) else None.

(** Exactly [k] digits. *)
Fixpoint read_digits (k : nat) (acc : Z) (s : string) : option (Z * string) :=
  match k with
  | O => Some (acc, s)
  | S k' =>
      match s with
      | String c s' =>
          match digit c with Some v => read_digits k' (10 * acc + v) s' | None => None end
      | EmptyString => None
      end
  end.

(** One or more digits. *)
Fixpoint read_number_from (acc : Z) (s : string) : Z * string :=
  match s with
  | String c s' =>
      match digit c with Some v => read_number_from (10 * acc + v) s' | None => (acc, s) end
  | EmptyString => (acc, s)
  end.

Definition read_number (s : string) : option (Z * string) :=
  match s with
  | String c s' => match digit c with Some v => Some (read_number_from v s') | None => None end
  | EmptyString => None
  end.

Definition expect (c : ascii) (s : string) : option string :=
  match s with
  | String c' s' => if decide (c = c') then Some s' else None
  | EmptyString => None
  end.

Definition between (lo x hi : Z) : bool := (lo <=? x) && (x <=? hi).

(** The time of day of an ISO date-time, [HH:mm[:ss[.sss]]], with what is
    left of the string. *)
Definition read_iso_time (s : string) : option (Z * string) :=
  '(h, s) ← read_digits 2 0 s;
  s ← expect ":" s;
  '(mi, s) ← read_digits 2 0 s;
  let '(sec, ms, s) :=
    match expect ":" s with
    | Some s1 =>
        match read_digits 2 0 s1 with
        | Some (sec, s2) =>
            match expect "." s2 with
            | Some s3 => match read_digits 3 0 s3 with
                         | Some (ms, s4) => (sec, ms, s4)
                         | None => (sec, -1, s3)
                         end
            | None => (sec, 0, s2)
            end
        | None => (-1, 0, s1)
        end
    | None => (0, 0, s)
    end in
  if between 0 h 24 && between 0 mi 59 && between 0 sec 59 && between 0 ms 999
     && (negb (h =? 24) || ((mi =? 0) && (sec =? 0) && (ms =? 0)))
  then Some (((h * 60 + mi) * 60 + sec) * 1000 + ms, s) else None.

(** The ISO forms [YYYY], [YYYY-MM], [YYYY-MM-DD] (UTC) and
    [YYYY-MM-DDTHH:mm[:ss[.sss]]] followed by [Z] (UTC) or nothing (local). *)
Definition parse_iso (tz : Z) (s : string) : option Z :=
  '(y, s) ← read_digits 4 0 s;
  let '(mo, d, s) :=
    match expect "-" s with
    | Some s1 =>
        match read_digits 2 0 s1 with
        | Some (mo, s2) =>
            match expect "-" s2 with
            | Some s3 => match read_digits 2 0 s3 with
                         | Some (d, s4) => (mo, d, s4)
                         | None => (0, 0, s3)
                         end
            | None => (mo, 1, s2)
            end
        | None => (0, 0, s1)
        end
    | None => (1, 1, s)
    end in
  if negb (between 1 mo 12 && between 1 d 31) then None else
  let day := make_day y (mo - 1) d in
  match s with
  | EmptyString => time_clip (make_date day 0)
  | String "T" s =>
      '(ms, s) ← read_iso_time s;
      match s with
      | EmptyString => time_clip (make_date day ms - tz)
      | String "Z" EmptyString => time_clip (make_date day ms)
      | _ => None
      end
  | _ => None
  end.

(** V8's legacy parser on [M/D/Y]: local midnight, a year below 50 is
    20xx and one below 100 is 19xx. *)
Definition parse_mdy (tz : Z) (s : string) : option Z :=
  '(mo, s) ← read_number s;
  s ← expect "/" s;
  '(d, s) ← read_number s;
  s ← expect "/" s;
  '(y, s) ← read_number s;
  let y := if y <? 50 then 2000 + y else if y <? 100 then 1900 + y else y in
  match s with
  | EmptyString =>
      if between 1 mo 12 && between 1 d 31
      then time_clip (make_date (make_day y (mo - 1) d) 0 - tz) else None
  | _ => None
  end.

Definition date_parse (tz : Z) (s : string) : option Z :=
  match parse_iso tz s with
  | Some t => Some t
  | None => parse_mdy tz s
  end.

(** [new Date(v)] for a property [v] of a record: [undefined] is [NaN],
    [null] is the epoch, a string is parsed. *)
Definition date_of_field (tz : Z) (f : field string) : option Z :=
  match f with
  | Missing => None
  | Null => Some 0
  | Val s => date_parse tz s
  end.

(** ** [toLocaleDateString('en-US', { year: 'numeric', month: 'long' })] *)

Definition month_names : list string :=
  ["January"; "February"; "March"; "April"; "May"; "June"; "July";
   "August"; "September"; "October"; "November"; "December"].

(** A month name of [names] and the year: the era year is printed without
    the era (1 BC prints as 1). *)
Definition month_year_in (names : list string) (tz : Z) (t : option Z) : string :=
  match t with
  | None => "Invalid Date"
  | Some t =>
      let '(y, m, _) := local_ymd tz t in
      (nth (Z.to_nat (m - 1)) names "" ++ " " ++ pretty (if (1 <=? y)%Z then y else (1 - y)%Z))%string
  end.

Definition month_year_label (tz : Z) (t : option Z) : string := month_year_in month_names tz t.

(** ** Half-year starts *)

(** The day number of the first day of half-year [k]: year [k / 2], January
    for even [k], July for odd [k]. *)
Definition half_year_day (k : Z) : Z := days_from_civil (k / 2) (if Z.even k then 1 else 7) 1.

Ltac days_lia := unfold days_from_civil; cbn -[Z.div Z.mul Z.add Z.sub];
  Z.div_mod_to_equations; lia.

Lemma days_jan_lt_jul y : days_from_civil y 1 1 < days_from_civil y 7 1.
Proof. days_lia. Qed.

Lemma days_jul_lt_next_jan y : days_from_civil y 7 1 < days_from_civil (y + 1) 1 1.
Proof. unfold days_from_civil. cbn -[Z.div Z.mul Z.add Z.sub].
  replace (y + 1 - 1) with y by lia. Z.div_mod_to_equations; lia. Qed.

Lemma half_year_day_succ k : half_year_day k < half_year_day (k + 1).
Proof.
  unfold half_year_day.
  assert (Hev : forall j, Z.even (2 * j) = true) by (intros j; by rewrite Z.even_mul).
  assert (Hod : forall j, Z.even (2 * j + 1) = false)
    by (intros j; by rewrite Z.even_add, Z.even_mul).
  assert (Hd : forall j r, 0 <= r < 2 -> (2 * j + r) / 2 = j) by (intros; Z.div_mod_to_equations; lia).
  destruct (Z.Even_or_Odd k) as [[j ->]|[j ->]].
  - rewrite Hev, Hod, (Hd j 1) by lia. rewrite <-(Z.add_0_r (2 * j)) at 1.
    rewrite Hd by lia. apply days_jan_lt_jul.
  - replace (2 * j + 1 + 1) with (2 * (j + 1) + 0) by lia.
    rewrite Z.add_0_r, Hev, Hod, (Hd j 1) by lia.
    rewrite <-(Z.add_0_r (2 * (j + 1))), Hd by lia. apply days_jul_lt_next_jan.
Qed.

Lemma half_year_day_mono k1 k2 : k1 < k2 -> half_year_day k1 < half_year_day k2.
Proof.
  intros Hlt. replace k2 with (k1 + Z.of_nat (Z.to_nat (k2 - k1 - 1)) + 1) by lia.
  induction (Z.to_nat (k2 - k1 - 1)) as [|n IH].
  - rewrite Z.add_0_r. apply half_year_day_succ.
  - eapply Z.lt_trans; [apply IH|].
    replace (k1 + Z.of_nat (S n) + 1) with ((k1 + Z.of_nat n + 1) + 1) by lia.
    apply half_year_day_succ.
Qed.

Lemma half_year_day_inj k1 k2 : half_year_day k1 = half_year_day k2 -> k1 = k2.
Proof.
  intros Heq. destruct (Z.lt_trichotomy k1 k2) as [H|[H|H]]; [|done|];
    apply half_year_day_mono in H; lia.
Qed.
