(* ===== verification/Calendar.v ===== *)
(** * Calendar: where a day number falls among the half-years

    Hinnant's conversions count years from March 1 (the "shifted" year,
    so that February 29 is the last day of one).  [shifted_start y] is the
    day number of March 1 of year [y]; a day is [shifted_start Y + doy]
    with [0 <= doy <= 365] for the shifted year [Y] that [civil_from_days]
    computes ([civil_from_days_parts]).  From that decomposition:
    [civil_roundtrip] (the civil date of a day number names that day
    again), and [civil_half_year] (a day lies between the first day of its
    half-year, January 1 or July 1 of its year, and the first day of the
    next half-year), on which the bounds of the trend buckets rest. *)

From S2P Require Import Prelude JsNumber JsValue JsDate.

Local Open Scope Z_scope.

(** The day number of March 1 of the year [y]. *)
Definition shifted_start (y : Z) : Z :=
  let era := y / 400 in
  let yoe := y - era * 400 in
  era * 146097 + yoe * 365 + yoe / 4 - yoe / 100 - 719468.

(** The shifted year and the day of that year of a day number, as
    [civil_from_days] computes them. *)
Definition civil_year_doy (z : Z) : Z * Z :=
  let z' := z + 719468 in
  let era := z' / 146097 in
  let doe := z' - era * 146097 in
  let yoe := (doe - doe / 1460 + doe / 36524 - doe / 146096) / 365 in
  (yoe + era * 400, doe - (365 * yoe + yoe / 4 - yoe / 100)).

Lemma days_from_civil_shifted y m d :
  days_from_civil y m d =
  shifted_start (if m <=? 2 then y - 1 else y) + (153 * (if 2 <? m then m - 3 else m + 9) + 2) / 5 + d - 1.
Proof. unfold days_from_civil, shifted_start. cbv zeta. lia. Qed.

Lemma shifted_start_succ y : shifted_start y + 365 <= shifted_start (y + 1) <= shifted_start y + 366.
Proof. unfold shifted_start. Z.div_mod_to_equations. lia. Qed.

(** The year of the era and the day of the year stay in their ranges. *)
Lemma civil_yoe_bounds (doe : Z) : 0 <= doe <= 146096 ->
  let yoe := (doe - doe / 1460 + doe / 36524 - doe / 146096) / 365 in
  0 <= yoe <= 399 /\ 0 <= doe - (365 * yoe + yoe / 4 - yoe / 100) <= 365.
Proof. intros H yoe. subst yoe. split; Z.div_mod_to_equations; lia. Qed.

Lemma civil_from_days_parts (z : Z) :
  let '(y, doy) := civil_year_doy z in
  z = shifted_start y + doy /\ 0 <= doy <= 365 /\
  civil_from_days z =
    (let mp := (5 * doy + 2) / 153 in
     let m := if mp <? 10 then mp + 3 else mp - 9 in
     (if m <=? 2 then y + 1 else y, m, doy - (153 * mp + 2) / 5 + 1)).
Proof.
  unfold civil_year_doy. cbv zeta.
  set (era := (z + 719468) / 146097).
  set (doe := z + 719468 - era * 146097).
  assert (Hdoe : 0 <= doe <= 146096) by (subst doe era; Z.div_mod_to_equations; lia).
  destruct (civil_yoe_bounds doe Hdoe) as [Hyoe Hdoy]. cbv zeta in Hyoe, Hdoy.
  set (yoe := (doe - doe / 1460 + doe / 36524 - doe / 146096) / 365) in *.
  split_and!; [|lia..|reflexivity].
  unfold shifted_start. cbv zeta.
  replace ((yoe + era * 400) / 400) with era by (Z.div_mod_to_equations; lia).
  replace (yoe + era * 400 - era * 400) with yoe by lia. subst doe. lia.
Qed.

(** The civil date of a day number is a day with that number. *)
Lemma civil_roundtrip (z : Z) :
  let '(y, m, d) := civil_from_days z in days_from_civil y m d = z.
Proof.
  pose proof (civil_from_days_parts z) as Hp.
  destruct (civil_year_doy z) as [y doy]. destruct Hp as (Hz & Hdoy & ->). cbv beta iota zeta.
  rewrite days_from_civil_shifted.
  destruct (Z.ltb_spec ((5 * doy + 2) / 153) 10); cbv beta iota;
    [rewrite (proj2 (Z.leb_gt (_ + 3) 2)), (proj2 (Z.ltb_lt 2 _)) by (Z.div_mod_to_equations; lia); cbv beta iota
    |rewrite (proj2 (Z.leb_le (_ - 9) 2)), (proj2 (Z.ltb_ge 2 (_ - 9))) by (Z.div_mod_to_equations; lia);
     cbv beta iota; replace (y + 1 - 1) with y by lia];
    Z.div_mod_to_equations; lia.
Qed.

(** ** Half-years *)

Lemma half_year_day_jan y : half_year_day (2 * y) = shifted_start (y - 1) + 306.
Proof.
  unfold half_year_day. rewrite Z.even_mul, Z.mul_comm, Z.div_mul by lia. simpl.
  rewrite days_from_civil_shifted. cbn -[shifted_start Z.sub Z.add Z.div]. Z.div_mod_to_equations. lia.
Qed.

Lemma half_year_day_jul y : half_year_day (2 * y + 1) = shifted_start y + 122.
Proof.
  unfold half_year_day. rewrite Z.even_add, Z.even_mul. simpl.
  replace ((2 * y + 1) / 2) with y by (Z.div_mod_to_equations; lia).
  rewrite days_from_civil_shifted. cbn -[shifted_start Z.sub Z.add Z.div]. Z.div_mod_to_equations. lia.
Qed.

(** The half-year of a civil date: [2 * year] for January to June,
    [2 * year + 1] for July to December. *)
Definition half_year_of (ymd : Z * Z * Z) : Z :=
  let '(y, m, _) := ymd in 2 * y + (if m <=? 6 then 0 else 1).

(** A day lies in the half-year of its civil date. *)
Lemma civil_half_year (z : Z) :
  half_year_day (half_year_of (civil_from_days z)) <= z < half_year_day (half_year_of (civil_from_days z) + 1).
Proof.
  pose proof (civil_from_days_parts z) as Hp.
  destruct (civil_year_doy z) as [y doy]. destruct Hp as (Hz & Hdoy & ->).
  unfold half_year_of. cbv beta iota zeta.
  pose proof (shifted_start_succ (y - 1)) as H1. pose proof (shifted_start_succ y) as H2.
  pose proof (shifted_start_succ (y + 1)) as H3. replace (y - 1 + 1) with y in H1 by lia.
  destruct (Z.ltb_spec ((5 * doy + 2) / 153) 10) as [Hm|Hm]; cbv beta iota.
  - rewrite (proj2 (Z.leb_gt (_ + 3) 2)) by (Z.div_mod_to_equations; lia).
    destruct (Z.leb_spec ((5 * doy + 2) / 153 + 3) 6); cbv beta iota.
    + rewrite Z.add_0_r, half_year_day_jan, half_year_day_jul. Z.div_mod_to_equations. lia.
    + rewrite half_year_day_jul. replace (2 * y + 1 + 1) with (2 * (y + 1)) by lia.
      rewrite half_year_day_jan. replace (y + 1 - 1) with y by lia. Z.div_mod_to_equations. lia.
  - rewrite (proj2 (Z.leb_le (_ - 9) 2)), (proj2 (Z.leb_le (_ - 9) 6)) by (Z.div_mod_to_equations; lia).
    cbv beta iota. rewrite Z.add_0_r, half_year_day_jan, half_year_day_jul. replace (y + 1 - 1) with y by lia.
    Z.div_mod_to_equations. lia.
Qed.

(** ** The civil date of the first day of a half-year *)

Lemma shifted_start_mono a b : a <= b -> shifted_start a + 365 * (b - a) <= shifted_start b.
Proof.
  intros Hab. replace b with (a + Z.of_nat (Z.to_nat (b - a))) by lia.
  induction (Z.to_nat (b - a)) as [|n IH]; [simpl; rewrite Z.add_0_r; lia|].
  pose proof (shifted_start_succ (a + Z.of_nat n)) as Hs.
  replace (a + Z.of_nat (S n)) with (a + Z.of_nat n + 1) by lia. lia.
Qed.

(** A day strictly inside the first 365 days of a shifted year is
    decomposed in that year. *)
Lemma civil_year_doy_unique y doy : 0 < doy < 365 -> civil_year_doy (shifted_start y + doy) = (y, doy).
Proof.
  intros Hd. pose proof (civil_from_days_parts (shifted_start y + doy)) as Hp.
  destruct (civil_year_doy (shifted_start y + doy)) as [Y doy'] eqn:E. destruct Hp as (Hz & Hdoy & _).
  destruct (Z.lt_trichotomy Y y) as [Hlt|[->|Hgt]].
  - pose proof (shifted_start_mono (Y + 1) y ltac:(lia)). pose proof (shifted_start_succ Y). lia.
  - f_equal. lia.
  - pose proof (shifted_start_mono (y + 1) Y ltac:(lia)). pose proof (shifted_start_succ y). lia.
Qed.

(** January 1 and July 1: the civil date of the first day of half-year
    [k] is the first of January of year [k / 2] for an even [k], of July
    for an odd one. *)
Lemma civil_from_days_half_year k :
  civil_from_days (half_year_day k) = (k / 2, if Z.even k then 1 else 7, 1).
Proof.
  pose proof (Z.div_mod k 2 ltac:(lia)) as Hk. pose proof (Z.mod_pos_bound k 2 ltac:(lia)) as Hm.
  set (y := k / 2) in *.
  destruct (Z.eq_dec (k mod 2) 0) as [H0|H1].
  - assert (Hev : Z.even k = true) by (rewrite Hk, H0, Z.add_0_r, Z.even_mul; reflexivity).
    rewrite Hev, Hk, H0, Z.add_0_r, half_year_day_jan.
    pose proof (civil_from_days_parts (shifted_start (y - 1) + 306)) as Hp.
    rewrite civil_year_doy_unique in Hp by lia. destruct Hp as (_ & _ & ->). simpl.
    f_equal. f_equal. lia.
  - assert (Hod : Z.even k = false)
      by (rewrite Hk; replace (k mod 2) with 1 by lia; rewrite Z.even_add, Z.even_mul; reflexivity).
    rewrite Hod, Hk. replace (k mod 2) with 1 by lia. rewrite half_year_day_jul.
    pose proof (civil_from_days_parts (shifted_start y + 122)) as Hp.
    rewrite civil_year_doy_unique in Hp by lia. destruct Hp as (_ & _ & ->). reflexivity.
Qed.
