(* ===== verification/Locale.v ===== *)
(** * Locale: the en-US formats of [toLocaleString] and [toLocaleDateString]

    The tooltip callbacks of the charts print an amount with
    [value.toLocaleString('en-US', { style: 'currency', currency: 'USD' })],
    and the ticks of the time axis with
    [new Date(value).toLocaleDateString('en-US', { month: 'short', year: 'numeric' })].
    These are the ECMA-402 formats (Intl.NumberFormat, Intl.DateTimeFormat)
    with the en-US locale data.  A currency amount is printed as the sign
    (for a negative value), [$], the integer part in groups of three digits
    separated by commas, a dot and two fraction digits; the amount is
    rounded to the cent half away from zero (the rounding mode
    [halfExpand]).  [NaN] prints as [$NaN] and the infinities as [$∞] and
    [-$∞].  The numbers of the development are exact rationals
    ([JsNumber]), so the value rounded is the exact one.  A value that is
    not a number goes through [Object.prototype.toLocaleString], which
    returns its [toString()], and [undefined] or [null] has no property to
    read: the call throws a [TypeError].

    [to_locale_currency_roundtrip] reads the printed amount back with
    [parse_currency] (a reader of the en-US currency format written for
    the proof): it gives the value rounded to the cent, within half a cent
    of the value. *)

From Stdlib Require Import Ascii Qround Qabs.
From stdpp Require Import pretty.
From S2P Require Import Prelude JsNumber JsValue JsDate.

Local Open Scope string_scope.
Local Open Scope list_scope.

(** ** [toLocaleString('en-US', { style: 'currency', currency: 'USD' })] *)

(** The magnitude of the amount in cents, rounded half away from zero. *)
Definition cents (q : Qc) : Z := Qfloor (Qabs (this q) * 100 + (1 # 2)).

(** The digits from the right in groups of three separated by commas, on
    the reversed list of characters. *)
Fixpoint group_rev (l : list ascii) : list ascii :=
  match l with
  | a :: b :: c :: ((_ :: _) as rest) => a :: b :: c :: ","%char :: group_rev rest
  | _ => l
  end.

(** The integer part with the en-US grouping separator. *)
Definition grouped (n : Z) : string :=
  String.string_of_list_ascii (rev (group_rev (rev (String.list_ascii_of_string (pretty n))))).

(** A decimal digit as a character. *)
Definition digit_char (d : Z) : ascii := ascii_of_nat (48 + Z.to_nat d).

(** The two fraction digits of the currency (its minimum and maximum
    number of fraction digits are both 2). *)
Definition two_digits (n : Z) : string :=
  String (digit_char (n / 10)) (String (digit_char (n mod 10)) EmptyString).

Definition to_locale_currency (x : num) : string :=
  match x with
  | Fin q =>
      (if bool_decide (q < 0)%Qc then "-" else "") +:+ "$" +:+
      grouped (cents q / 100) +:+ "." +:+ two_digits (cents q mod 100)
  | NaN => "$NaN"
  | PInf => "$∞"
  | NInf => "-$∞"
  end.

(** [v.toLocaleString('en-US', {...})] on any value: [None] is the
    [TypeError] of reading a property of [undefined] or [null]. *)
Definition to_locale_string (v : jsval) : option (list part) :=
  match v with
  | JUndefined | JNull => None
  | JNumber n => Some [PLit (to_locale_currency n)]
  | JString _ | JObject _ => Some (to_parts v)
  end.

(** ** [toLocaleDateString('en-US', { month: 'short', year: 'numeric' })] *)

Definition short_month_names : list string :=
  ["Jan"; "Feb"; "Mar"; "Apr"; "May"; "Jun"; "Jul"; "Aug"; "Sep"; "Oct"; "Nov"; "Dec"].

Definition month_year_short (tz : Z) (t : option Z) : string := month_year_in short_month_names tz t.

(** ** Reading an amount back *)

Definition is_digit (c : ascii) : bool := match digit c with Some _ => true | None => false end.

Fixpoint digits_value (l : list ascii) (acc : Z) : option Z :=
  match l with
  | [] => Some acc
  | c :: l' => match digit c with Some d => digits_value l' (10 * acc + d) | None => None end
  end.

(** The digits of a reversed grouped integer: groups of three digits
    separated by commas, the last one of one to three digits. *)
Fixpoint ungroup_rev (l : list ascii) : option (list ascii) :=
  match l with
  | a :: b :: c :: x :: rest =>
      if bool_decide (x = ","%char) && forallb is_digit [a; b; c] then
        match ungroup_rev rest with
        | Some (d :: ds) => Some (a :: b :: c :: d :: ds)
        | _ => None
        end
      else None
  | _ => if bool_decide (l <> []) && forallb is_digit l then Some l else None
  end.

(** The signed number of cents an en-US currency string shows. *)
Definition parse_currency (s : string) : option Z :=
  let '(neg, l) :=
    match String.list_ascii_of_string s with
    | "-"%char :: l' => (true, l')
    | l => (false, l)
    end in
  match l with
  | "$"%char :: l' =>
      match rev l' with
      | f2 :: f1 :: "."%char :: ip =>
          ds ← ungroup_rev ip; i ← digits_value (rev ds) 0; f ← digits_value [f1; f2] 0;
          Some (if neg then - (100 * i + f) else 100 * i + f)%Z
      | _ => None
      end
  | _ => None
  end.

(** The value rounded to the cent, half away from zero, in cents. *)
Definition round_cents (q : Qc) : Z := if bool_decide (q < 0)%Qc then (- cents q)%Z else cents q.

(** ** Reading back what is printed *)

Lemma list_ascii_of_string_app (s1 s2 : string) :
  String.list_ascii_of_string (s1 +:+ s2) = (String.list_ascii_of_string s1 ++ String.list_ascii_of_string s2)%list.
Proof. induction s1 as [|c s1 IH]; simpl; [done|]. by rewrite IH. Qed.

Lemma digit_char_digit (d : Z) : (0 <= d <= 9)%Z -> digit (digit_char d) = Some d.
Proof.
  intros Hd. unfold digit, digit_char. rewrite nat_ascii_embedding by lia.
  rewrite bool_decide_true by lia. f_equal. lia.
Qed.

Lemma digit_pretty_N_char (d : N) : (d < 10)%N -> digit (pretty_N_char d) = Some (Z.of_N d).
Proof.
  intros Hd. rewrite <-(N2Nat.id d) in *. assert (Hn : (N.to_nat d < 10)%nat) by lia.
  generalize (N.to_nat d) Hn. intros n Hn'. clear Hd Hn.
  do 10 (destruct n as [|n]; [reflexivity|]). lia.
Qed.

Lemma is_digit_of (c : ascii) d : digit c = Some d -> is_digit c = true.
Proof. unfold is_digit. by intros ->. Qed.

Lemma digits_value_app (l1 l2 : list ascii) acc :
  digits_value (l1 ++ l2)%list acc = (a ← digits_value l1 acc; digits_value l2 a).
Proof. revert acc. induction l1 as [|c l1 IH]; intros acc; simpl; [done|]. by destruct (digit c). Qed.

(** The digits [pretty_N_go] puts in front of [s] are digits, and they
    shift the value read so far by the value of [x]. *)
Lemma pretty_N_go_digits (x : N) (s : string) :
  exists ds (k : nat), String.list_ascii_of_string (pretty_N_go x s) = (ds ++ String.list_ascii_of_string s)%list /\
    Forall (fun c => is_digit c = true) ds /\
    (forall acc, digits_value ds acc = Some (acc * 10 ^ Z.of_nat k + Z.of_N x)%Z) /\ (ds = [] <-> x = 0%N).
Proof.
  revert s. induction (N.lt_wf_0 x) as [x _ IH]; intros s.
  destruct (decide (x = 0%N)) as [->|Hx].
  { exists [], 0%nat. rewrite pretty_N_go_0. split_and!; try done. intros acc. simpl. f_equal. lia. }
  rewrite pretty_N_go_step by lia.
  destruct (IH (x / 10)%N ltac:(apply N.div_lt; lia) (String (pretty_N_char (x mod 10)) s))
    as (ds & k & Heq & Hd & Hv & _).
  assert (Hc : digit (pretty_N_char (x mod 10)) = Some (Z.of_N (x mod 10))) by (apply digit_pretty_N_char, N.mod_lt; lia).
  exists (ds ++ [pretty_N_char (x mod 10)]), (S k). rewrite Heq, <-app_assoc. split_and!; [done| | |].
  - apply Forall_app. split; [done|]. repeat constructor. by eapply is_digit_of.
  - intros acc. rewrite digits_value_app, Hv. simpl. rewrite Hc. f_equal.
    rewrite Nat2Z.inj_succ, Z.pow_succ_r, N2Z.inj_mod, N2Z.inj_div by lia.
    pose proof (Z.div_mod (Z.of_N x) 10). lia.
  - split; [intros H; by destruct ds|done].
Qed.

(** The decimal digits of a non-negative integer: at least one, and they
    read back as the integer. *)
Lemma pretty_Z_digits (n : Z) : (0 <= n)%Z ->
  let l := String.list_ascii_of_string (pretty n) in
  l <> [] /\ Forall (fun c => is_digit c = true) l /\ digits_value l 0 = Some n.
Proof.
  intros Hn l. subst l. destruct n as [|p|p]; [|unfold pretty, pretty_Z|lia].
  { split_and!; [done|repeat constructor|reflexivity]. }
  unfold pretty, pretty_positive, pretty, pretty_N. rewrite decide_False by done.
  destruct (pretty_N_go_digits (Npos p) "") as (ds & k & -> & Hd & Hv & Hz).
  rewrite app_nil_r. split_and!; [intros ->; discriminate (proj1 Hz eq_refl)|done|]. by rewrite Hv.
Qed.

Lemma group_rev_long (a b c d : ascii) rest :
  group_rev (a :: b :: c :: d :: rest) = a :: b :: c :: ","%char :: group_rev (d :: rest).
Proof. reflexivity. Qed.

Lemma ungroup_group (l : list ascii) :
  l <> [] -> Forall (fun c => is_digit c = true) l -> ungroup_rev (group_rev l) = Some l.
Proof.
  induction l as [l IH] using (well_founded_induction (well_founded_ltof _ (@length _))).
  intros Hne Hd. destruct l as [|a [|b [|c [|d rest]]]]; [done| | | |rewrite group_rev_long];
    repeat (apply Forall_cons in Hd as [?H Hd]); [| | |cbn [ungroup_rev forallb]];
    [cbn [group_rev ungroup_rev forallb]..|];
    rewrite ?bool_decide_true by done; repeat match goal with H : is_digit _ = true |- _ => rewrite H end;
    [done..|].
  rewrite (IH (d :: rest)); [done|unfold ltof; simpl; lia|done|by constructor].
Qed.

Lemma cents_bounds (q : Qc) :
  (0 <= cents q)%Z /\ (inject_Z (cents q) <= Qabs (this q) * 100 + (1 # 2) < inject_Z (cents q) + 1)%Q.
Proof.
  unfold cents. pose proof (Qfloor_le (Qabs (this q) * 100 + (1 # 2))) as Hle.
  pose proof (Qlt_floor (Qabs (this q) * 100 + (1 # 2))) as Hlt.
  rewrite inject_Z_plus in Hlt. change (inject_Z 1) with 1%Q in Hlt. split; [|done].
  pose proof (Qabs_nonneg (this q)) as Ha.
  destruct (Z.lt_ge_cases (Qfloor (Qabs (this q) * 100 + (1 # 2))) 0) as [Hf|]; [|done]. exfalso.
  assert (Hq : (inject_Z (Qfloor (Qabs (this q) * 100 + (1 # 2))) + 1 <= 0)%Q).
  { change 0%Q with (inject_Z 0). change 1%Q with (inject_Z 1). rewrite <-inject_Z_plus, <-Zle_Qle. lia. }
  lra.
Qed.

(** The two fraction digits read back as the number below 100. *)
Lemma two_digits_value (m : Z) : (0 <= m < 100)%Z ->
  digits_value (String.list_ascii_of_string (two_digits m)) 0 = Some m.
Proof.
  intros Hm. unfold two_digits. cbn [String.list_ascii_of_string digits_value].
  rewrite !digit_char_digit by (Z.div_mod_to_equations; lia). f_equal.
  Z.div_mod_to_equations. lia.
Qed.

(** The grouped integer part reads back as the integer. *)
Lemma grouped_value (n : Z) : (0 <= n)%Z ->
  (ds ← ungroup_rev (rev (String.list_ascii_of_string (grouped n))); digits_value (rev ds) 0) = Some n.
Proof.
  intros Hn. destruct (pretty_Z_digits n Hn) as (Hne & Hd & Hv). unfold grouped.
  rewrite String.list_ascii_of_string_of_list_ascii, rev_involutive, ungroup_group.
  - simpl. by rewrite rev_involutive.
  - intros Hr. apply Hne. by rewrite <-(rev_involutive (String.list_ascii_of_string _)), Hr.
  - by apply Forall_rev.
Qed.

Lemma two_digits_chars (m : Z) :
  String.list_ascii_of_string (two_digits m) = [digit_char (m / 10); digit_char (m mod 10)].
Proof. reflexivity. Qed.

(** What [toLocaleString('en-US', {style: 'currency', currency: 'USD'})]
    prints for a finite amount reads back as the amount rounded to the
    cent: [parse_currency] gives the signed cents rounded half away from
    zero, which differ from the amount in cents by at most one half. *)
Lemma to_locale_currency_roundtrip (q : Qc) :
  parse_currency (to_locale_currency (Fin q)) = Some (round_cents q) /\
  (Qabs (inject_Z (round_cents q) - this q * 100) <= 1 # 2)%Q.
Proof.
  destruct (cents_bounds q) as [Hn Hb]. unfold round_cents. split.
  - unfold to_locale_currency, parse_currency. rewrite !list_ascii_of_string_app, two_digits_chars.
    pose proof (grouped_value (cents q / 100) ltac:(Z.div_mod_to_equations; lia)) as Hg.
    pose proof (two_digits_value (cents q mod 100) ltac:(Z.div_mod_to_equations; lia)) as Ht.
    rewrite two_digits_chars in Ht. revert Hg Ht.
    generalize (String.list_ascii_of_string (grouped (cents q / 100))) (digit_char (cents q mod 100 / 10))
      (digit_char (cents q mod 100 mod 10)). intros S c1 c2 Hg Ht.
    assert (Hr : rev (S ++ ["."%char; c1; c2]) = c2 :: c1 :: "."%char :: rev S)
      by (rewrite rev_app_distr; reflexivity).
    case_bool_decide; cbn [String.list_ascii_of_string app]; rewrite Hr; cbv iota beta;
      rewrite Ht; destruct (ungroup_rev (rev S)) as [ds|]; try done; simpl in Hg |- *; rewrite Hg;
      simpl; do 2 f_equal; pose proof (Z.div_mod (cents q) 100); lia.
  - apply Qabs_Qle_condition. case_bool_decide as Hq; unfold Qclt in Hq; simpl in Hq; change (Qred 0) with 0%Q in Hq.
    + rewrite inject_Z_opp. pose proof (Qabs_neg (this q) ltac:(lra)). lra.
    + pose proof (Qabs_pos (this q) ltac:(lra)). lra.
Qed.

(** Amounts as the tooltips print them. *)
Example to_locale_currency_examples :
  map (fun q => to_locale_currency (Fin q)) [qz 0; qfrac 123456789 100; qfrac (-1) 1000; qfrac 99995 1000; qz (-10)] =
  ["$0.00"; "$1,234,567.89"; "-$0.00"; "$100.00"; "-$10.00"].
Proof. vm_compute. reflexivity. Qed.
