(* ===== verification/SalesData.v ===== *)
(** * SalesData: the [Sale] documents ([src/src/app/models/sales-data.ts])

    A [Sale] is a document of the CouchDB database as the dashboard
    receives it.  The interface declares every property; a document may
    still lack one or hold [null] there, so each property is a [field]
    ([Missing], [Null] or a value of the declared type).  Numbers are JSON
    numbers, hence finite: [field Qc]. *)

From S2P Require Import Prelude JsNumber JsValue.

Record Sale := mkSale {
  _id : field string;
  _rev : field string;
  Order_ID : field string;
  Fulfillment_Date : field string;
  Order_Date : field string;
  Ship_Date : field string;
  Ship_Mode : field string;
  Customer_ID : field string;
  Customer_Name : field string;
  Segment : field string;
  City : field string;
  State : field string;
  Country : field string;
  Region : field string;
  Product_ID : field string;
  Category : field string;
  Sub_Category : field string;
  Product_Name : field string;
  Sales : field Qc;
  Quantity : field Qc;
  Discount : field Qc;
  Profit : field Qc;
  type : field string
}.

(** Reading a numeric property: [record.Sales]. *)
Definition field_num (f : field Qc) : jsval :=
  match f with
  | Missing => JUndefined
  | Null => JNull
  | Val q => JNumber (Fin q)
  end.

(** The value a numeric property contributes to a sum when absent
    properties count as zero. *)
Definition field_q (f : field Qc) : Qc :=
  match f with Val q => q | _ => 0%Qc end.

(** A string property used as a key behind [if (record.Region)]: the key
    when the property is a non-empty string. *)
Definition field_key (f : field string) : option string :=
  match f with
  | Val s => if decide (s = ""%string) then None else Some s
  | _ => None
  end.

(** A document with only the properties the dashboard reads. *)
Definition sale (sales profit : field Qc) (region category country order ship : field string) : Sale :=
  {| _id := Missing; _rev := Missing; Order_ID := Missing; Fulfillment_Date := Missing;
     Order_Date := order; Ship_Date := ship; Ship_Mode := Missing; Customer_ID := Missing;
     Customer_Name := Missing; Segment := Missing; City := Missing; State := Missing;
     Country := country; Region := region; Product_ID := Missing; Category := category;
     Sub_Category := Missing; Product_Name := Missing; Sales := sales; Quantity := Missing;
     Discount := Missing; Profit := profit; type := Missing |}.
