(* ===== verification/Fixtures.v ===== *)
(** * Fixtures: sample documents for the witnesses

    The two records of the scenario of the specification (section 8), and
    records that exercise the edge cases the findings are about. *)

From S2P Require Import Prelude JsNumber JsValue SalesData.

Local Open Scope string_scope.

(** [{sales: 100, profit: 20, region: "West", category: "A",
      orderDate: "2023-01-15", shipDate: "2023-01-20"}] *)
Definition rec_a : Sale :=
  sale (Val (qz 100)) (Val (qz 20)) (Val "West") (Val "A") (Val "US") (Val "2023-01-15") (Val "2023-01-20").

(** [{sales: 50, profit: -10, region: "West", category: "B",
      orderDate: "2023-08-01", shipDate: invalid}] *)
Definition rec_b : Sale :=
  sale (Val (qz 50)) (Val (qz (-10))) (Val "West") (Val "B") (Val "US") (Val "2023-08-01") (Val "n/a").

(** A record whose category is a property name of [Object.prototype]. *)
Definition rec_constructor : Sale :=
  sale (Val (qz 5)) (Val (qz 1)) (Val "East") (Val "constructor") (Val "US") (Val "2023-02-01") Missing.

(** A record whose category is an array index. *)
Definition rec_index : Sale :=
  sale (Val (qz 7)) (Val (qz 1)) (Val "East") (Val "2024") (Val "US") (Val "2023-03-01") Missing.

(** A record without [Sales] and without an order date. *)
Definition rec_no_sales : Sale :=
  sale Missing (Val (qz 3)) (Val "South") (Val "A") (Val "US") Missing Missing.

(** A record whose region is [__proto__]. *)
Definition rec_proto : Sale :=
  sale (Val (qz 9)) (Val (qz 2)) (Val "__proto__") (Val "C") (Val "US") (Val "2023-01-16") (Val "2023-01-18").

(** Two records of the years 50 and 1950, in the same half of the year. *)
Definition rec_year50 : Sale :=
  sale (Val (qz 4)) (Val (qz 1)) (Val "North") (Val "A") (Val "US") (Val "0050-03-01") Missing.
Definition rec_year1950 : Sale :=
  sale (Val (qz 6)) (Val (qz 1)) (Val "North") (Val "A") (Val "US") (Val "1950-02-01") Missing.
