(* ===== verification/Kpi.v ===== *)
(** * Kpi: [DashboardComponent.calculateKPIs] and its helpers

    Source: [src/src/app/dashboard/dashboard.component.ts], lines 68-188.
    Every KPI is a function of the record list [salesData] (and of the
    local time zone [tz], through the [Date] calls).  Each [reduce] is a
    [fold_left] whose step is the arrow function of the source, written with
    the JavaScript operators of [JsValue] and the object operations of
    [JsObject]; [calculate_kpis] assembles the twelve fields in the order
    the method assigns them. *)

From S2P Require Import Prelude JsNumber JsValue JsArray JsObject JsDate SalesData.

Local Open Scope list_scope.

(** A chart point [{ x: Date, y: number }] of the sales trend. *)
Record point := mkPoint { px : option Z; py : jsval }.

(** The twelve KPI fields of the component. *)
Record kpis := mkKpis {
  totalSales : jsval;
  totalProfit : jsval;
  salesByRegion : list (string * jsval);
  topCategories : list (string * jsval);
  profitDistribution : list (string * jsval);
  salesTrend : list point;
  profitMargin : jsval;
  customerAcquisitionCost : jsval;
  customerLifetimeValue : jsval;
  averageFulfillmentTime : jsval;
  returnOnInvestment : jsval;
  monthlyRevenue : list (string * list (string * jsval))
}.

Section Kpi.
Context `{JsRuntime} (tz : Z).

(** [record.Sales || 0] and [record.Profit || 0] *)
Definition sales_or_zero (r : Sale) : jsval := js_or (field_num (Sales r)) (JNumber num_zero).
Definition profit_or_zero (r : Sale) : jsval := js_or (field_num (Profit r)) (JNumber num_zero).

(** [salesData.reduce((sum, record) => sum + (record.Sales || 0), 0)] *)
Definition total_sales (data : list Sale) : jsval :=
  fold_left (fun sum r => js_add sum (sales_or_zero r)) data (JNumber num_zero).

Definition total_profit (data : list Sale) : jsval :=
  fold_left (fun sum r => js_add sum (profit_or_zero r)) data (JNumber num_zero).

(** The arrow function of the grouping reduces:
    [if (record.K) { acc[record.K] = (acc[record.K] || 0) + value; }] *)
Definition group_step (key : Sale -> field string) (value : Sale -> jsval)
    (acc : list (string * jsval)) (r : Sale) : list (string * jsval) :=
  match field_key (key r) with
  | Some k => js_set k (js_add (js_or (js_get acc k) (JNumber num_zero)) (value r)) acc
  | None => acc
  end.

Definition group_sum (key : Sale -> field string) (value : Sale -> jsval)
    (data : list Sale) : list (string * jsval) :=
  fold_left (group_step key value) data [].

Definition sales_by_region (data : list Sale) := group_sum Region sales_or_zero data.
Definition profit_distribution (data : list Sale) := group_sum Country profit_or_zero data.

(** [Object.fromEntries(Object.entries(o).sort(([, a], [, b]) => b - a))] *)
Definition by_value_desc (e1 e2 : string * jsval) : num := to_number (js_sub e2.2 e1.2).
Definition rank_desc (o : list (string * jsval)) : list (string * jsval) :=
  from_entries (js_sort by_value_desc (own_entries o)).

Definition top_categories (data : list Sale) : list (string * jsval) :=
  rank_desc (group_sum Category sales_or_zero data).

(** [halfYearStart] of an order date: [new Date(year, 0, 1)] or
    [new Date(year, 6, 1)] of its local year. *)
Definition half_year_start_of (od : Z) : option Z :=
  if (get_month tz od <? 6)%Z
  then date_local tz (get_full_year tz od) 0 1
  else date_local tz (get_full_year tz od) 6 1.

(** [halfYearStart] of a record: its order date, or the epoch when the
    date does not parse. *)
Definition half_year_start (r : Sale) : option Z :=
  half_year_start_of (match date_of_field tz (Order_Date r) with Some t => t | None => 0%Z end).

(** [d.x.getTime() === halfYearStart.getTime()] *)
Definition time_strict_eq (a b : option Z) : bool :=
  match a, b with Some x, Some y => (x =? y)%Z | _, _ => false end.

Definition trend_step (acc : list point) (r : Sale) : list point :=
  let h := half_year_start r in
  match list_find (fun p => time_strict_eq (px p) h = true) acc with
  | Some (i, p) => <[i := mkPoint (px p) (js_add (py p) (field_num (Sales r)))]> acc
  | None => acc ++ [mkPoint h (field_num (Sales r))]
  end.

Definition sales_trend (data : list Sale) : list point := fold_left trend_step data [].

(** [this.totalSales > 0 ? (this.totalProfit / this.totalSales) * 100 : 0] *)
Definition profit_margin (ts tp : jsval) : jsval :=
  if js_gt_num ts num_zero then js_mul (js_div tp ts) (JNumber (Fin (qz 100)))
  else JNumber num_zero.

(** [calculateCustomerAcquisitionCost] and [calculateCustomerLifetimeValue] *)
Definition length_or_one (data : list Sale) : jsval :=
  js_or (JNumber (num_of_nat (length data))) (JNumber (Fin 1%Qc)).
Definition customer_acquisition_cost (ts : jsval) (data : list Sale) : jsval :=
  js_div ts (length_or_one data).
Definition customer_lifetime_value (tp : jsval) (data : list Sale) : jsval :=
  js_div tp (length_or_one data).

(** [calculateReturnOnInvestment] *)
Definition return_on_investment (ts tp : jsval) : jsval :=
  js_mul (js_div tp ts) (JNumber (Fin (qz 100))).

(** [calculateMedian]: [sorted[i]] out of range is [undefined], which is
    [NaN] in the arithmetic that follows. *)
Definition at_or_nan (l : list num) (i : nat) : num := default NaN (l !! i).

Definition calculate_median (values : list num) : num :=
  if decide (length values = 0%nat) then num_zero else
  let sorted := js_sort num_sub values in
  let middle := Nat.div (length sorted) 2 in
  if Nat.even (length sorted)
  then num_div (num_add (at_or_nan sorted (middle - 1)) (at_or_nan sorted middle)) (Fin (qz 2))
  else at_or_nan sorted middle.

(** Both dates of a record parse. *)
Definition has_valid_dates (r : Sale) : bool :=
  bool_decide (is_Some (date_of_field tz (Order_Date r)))
  && bool_decide (is_Some (date_of_field tz (Ship_Date r))).

(** [(shipDate.getTime() - orderDate.getTime()) / (1000 * 60 * 60 * 24)] *)
Definition fulfillment_days (r : Sale) : num :=
  match date_of_field tz (Ship_Date r), date_of_field tz (Order_Date r) with
  | Some s, Some o => num_div (Fin (qz (s - o))) (Fin (qz (1000 * 60 * 60 * 24)))
  | _, _ => NaN
  end.

(** [calculateAverageFulfillmentTime]: [None] is [null]. *)
Definition calculate_average_fulfillment_time (data : list Sale) : option num :=
  let valid := filter (fun r => has_valid_dates r = true) data in
  if decide (length valid = 0%nat) then None else
  let times := map fulfillment_days valid in
  let median := calculate_median times in
  let mean := num_div (fold_left num_add times num_zero) (num_of_nat (length times)) in
  if num_gt median num_zero then Some median
  else if num_gt mean num_zero then Some mean
  else None.

Definition js_of_option (o : option num) : jsval :=
  match o with Some n => JNumber n | None => JNull end.

(** The [monthlyRevenue] reduce.  [acc[month]] of a label that names a
    property of [Object.prototype] is that built-in, which is truthy, and
    the category is then written onto the built-in: [acc] is unchanged. *)
Definition monthly_step (acc : list (string * list (string * jsval))) (r : Sale)
    : list (string * list (string * jsval)) :=
  let month := month_year_label tz (date_of_field tz (Order_Date r)) in
  let acc :=
    match own_get acc month, proto_get month with
    | None, None => own_set month [] acc
    | _, _ => acc
    end in
  match field_key (Category r), own_get acc month with
  | Some c, Some inner =>
      own_set month (js_set c (js_add (js_or (js_get inner c) (JNumber num_zero)) (sales_or_zero r)) inner) acc
  | _, _ => acc
  end.

Definition monthly_revenue (data : list Sale) : list (string * list (string * jsval)) :=
  fold_left monthly_step data [].

(** [calculateKPIs] *)
Definition calculate_kpis (data : list Sale) : kpis :=
  let ts := total_sales data in
  let tp := total_profit data in
  {| totalSales := ts;
     totalProfit := tp;
     salesByRegion := sales_by_region data;
     topCategories := top_categories data;
     profitDistribution := profit_distribution data;
     salesTrend := sales_trend data;
     profitMargin := profit_margin ts tp;
     customerAcquisitionCost := customer_acquisition_cost ts data;
     customerLifetimeValue := customer_lifetime_value tp data;
     averageFulfillmentTime :=
       js_or (js_of_option (calculate_average_fulfillment_time data)) (JNumber num_zero);
     returnOnInvestment := return_on_investment ts tp;
     monthlyRevenue := monthly_revenue data |}.
End Kpi.
