(* ===== verification/KpiSpec.v ===== *)
(** * KpiSpec: what the aggregation computes, and that [Kpi] computes it

    The abstract specification of the sums and groupings of
    [calculateKPIs]: a total is the sum over the records of the numeric
    property, absent or [null] counting as zero ([sum_q]); a grouped sum
    maps each non-empty key to the sum over the records with that key
    ([keyed], [group_spec]).  The refinement theorems show that the
    [reduce]s of the component compute these values: the totals always,
    the groupings for every key that does not name a property of
    [Object.prototype]. *)

From S2P Require Import Prelude JsNumber JsValue JsArray JsObject JsDate SalesData Fixtures Kpi.

Local Open Scope list_scope.

(** ** Specification *)

Definition sum_q (f : Sale -> Qc) (data : list Sale) : Qc :=
  foldr (fun r s => (f r + s)%Qc) 0%Qc data.

Definition sales_q (r : Sale) : Qc := field_q (Sales r).
Definition profit_q (r : Sale) : Qc := field_q (Profit r).

(** The records whose property [key] is the non-empty string [k]. *)
Definition keyed (key : Sale -> field string) (k : string) (data : list Sale) : list Sale :=
  filter (fun r => field_key (key r) = Some k) data.

(** No record's key names a property of [Object.prototype]. *)
Definition keys_plain (key : Sale -> field string) (data : list Sale) : Prop :=
  Forall (fun r => forall k, field_key (key r) = Some k -> proto_get k = None) data.

(** A boolean test of [keys_plain], to evaluate it on concrete data. *)
Definition keys_plain_b (key : Sale -> field string) (data : list Sale) : bool :=
  forallb (fun r => match field_key (key r) with
                    | Some k => bool_decide (proto_get k = None)
                    | None => true
                    end) data.

Lemma keys_plain_b_spec key data : keys_plain_b key data = true -> keys_plain key data.
Proof.
  unfold keys_plain_b, keys_plain. intros Hb. apply List.Forall_forall. intros r Hr k Hk.
  eapply forallb_forall in Hb; [|apply Hr]. rewrite Hk in Hb. by apply bool_decide_eq_true in Hb.
Qed.

(** ** Sums *)

Lemma sum_q_app f l1 l2 : sum_q f (l1 ++ l2) = (sum_q f l1 + sum_q f l2)%Qc.
Proof.
  induction l1 as [|r l1 IH]; simpl; [by rewrite Qcplus_0_l|].
  unfold sum_q in *. simpl. rewrite IH. ring.
Qed.

Lemma fold_sum_q f (l : list Sale) (a : Qc) :
  fold_left (fun s r => (s + f r)%Qc) l a = (a + sum_q f l)%Qc.
Proof.
  revert a. induction l as [|r l IH]; intros a; simpl; [by rewrite Qcplus_0_r|].
  rewrite IH. unfold sum_q. simpl. ring.
Qed.

Section Sums.
Context `{JsRuntime}.

Lemma sales_or_zero_q r : sales_or_zero r = JNumber (Fin (sales_q r)).
Proof. unfold sales_or_zero, sales_q. destruct (Sales r); simpl; auto using js_or_Fin_zero. Qed.

Lemma profit_or_zero_q r : profit_or_zero r = JNumber (Fin (profit_q r)).
Proof. unfold profit_or_zero, profit_q. destruct (Profit r); simpl; auto using js_or_Fin_zero. Qed.

(** A left fold of [+] over finite numbers is their sum. *)
Lemma fold_js_add_sum (g : Sale -> jsval) (f : Sale -> Qc) (l : list Sale) (a : Qc) :
  (forall r, g r = JNumber (Fin (f r))) ->
  fold_left (fun s r => js_add s (g r)) l (JNumber (Fin a)) = JNumber (Fin (a + sum_q f l)).
Proof.
  intros Hg. revert a. induction l as [|r l IH]; intros a; simpl; [by rewrite Qcplus_0_r|].
  rewrite Hg. cbn. rewrite IH. f_equal. f_equal. unfold sum_q. simpl. ring.
Qed.
End Sums.

#[export] Hint Rewrite @sales_or_zero_q @profit_or_zero_q : kpi_rw.

(** ** Grouped sums *)

(** The distinct keys of a list, in order of first occurrence. *)
Definition first_occurrences {A} `{EqDecision A} (l : list A) : list A :=
  fold_left (fun acc k => if decide (k ∈ acc) then acc else acc ++ [k]) l [].

(** The keys the grouping reduces create, in the order they meet them:
    every non-empty key except [__proto__], whose assignment the
    inherited setter discards. *)
Definition group_keys (key : Sale -> field string) (data : list Sale) : list string :=
  first_occurrences (filter (fun k => k <> "__proto__"%string) (omap (fun r => field_key (key r)) data)).

Lemma keyed_app key k l1 l2 : keyed key k (l1 ++ l2) = keyed key k l1 ++ keyed key k l2.
Proof. apply filter_app. Qed.

Lemma keyed_one key k r :
  keyed key k [r] = if decide (field_key (key r) = Some k) then [r] else [].
Proof.
  unfold keyed. case_decide; [by rewrite filter_cons_True, filter_nil|].
  by rewrite filter_cons_False, filter_nil.
Qed.

Lemma own_set_nodup {V} k (v : V) o : NoDup (map fst o) -> NoDup (map fst (own_set k v o)).
Proof.
  intros Hnd. destruct (decide (k ∈ map fst o)) as [Hin|Hin].
  - by rewrite own_set_keys_in.
  - rewrite own_set_keys_new by done. apply NoDup_app. split_and!; [done| |apply NoDup_singleton].
    intros x Hx ->%list_elem_of_singleton. contradiction.
Qed.

Section Grouping.
Context `{JsRuntime} (key : Sale -> field string) (f : Sale -> Qc) (value : Sale -> jsval).
Hypothesis Hvalue : forall r, value r = JNumber (Fin (f r)).

(** What the specification gives to key [k]: nothing when no record has
    the key, the sum over the records with the key otherwise. *)
Definition group_spec (k : string) (data : list Sale) : option jsval :=
  match keyed key k data with
  | [] => None
  | rs => Some (JNumber (Fin (sum_q f rs)))
  end.

Lemma group_sum_snoc data r :
  group_sum key value (data ++ [r]) = group_step key value (group_sum key value data) r.
Proof. unfold group_sum. by rewrite fold_left_snoc. Qed.

Lemma group_sum_refines (data : list Sale) :
  keys_plain key data ->
  forall k, own_get (group_sum key value data) k = group_spec k data.
Proof.
  induction data as [|r data IH] using rev_ind; intros Hp k; [done|].
  apply Forall_app in Hp as [Hp Hr]. apply Forall_cons in Hr as [Hr _].
  rewrite group_sum_snoc. unfold group_step, group_spec. rewrite keyed_app, keyed_one.
  destruct (field_key (key r)) as [k0|] eqn:Hk.
  2:{ rewrite decide_False by done. rewrite app_nil_r. by apply IH. }
  specialize (Hr k0 eq_refl).
  unfold js_set. rewrite decide_False by (intros ->; discriminate).
  destruct (decide (k0 = k)) as [<-|Hne].
  - rewrite own_get_set_eq, decide_True by done.
    unfold js_get. rewrite IH by done. unfold group_spec.
    destruct (keyed key k0 data) as [|r' rs]; simpl app; rewrite Hvalue.
    + rewrite Hr. unfold js_or. simpl truthy. cbv iota.
      rewrite js_add_num, num_add_0_l. unfold sum_q. simpl. by rewrite Qcplus_0_r.
    + rewrite js_or_Fin_zero, js_add_num, num_add_Fin, app_comm_cons, sum_q_app.
      unfold sum_q at 3. simpl. by rewrite Qcplus_0_r.
  - rewrite own_get_set_ne, decide_False by congruence. rewrite app_nil_r. by apply IH.
Qed.
(** The grouping creates one property per distinct non-empty key, in
    order of first occurrence, except [__proto__]. *)
Lemma group_sum_keys (data : list Sale) :
  map fst (group_sum key value data) = group_keys key data.
Proof.
  induction data as [|r data IH] using rev_ind; [done|].
  rewrite group_sum_snoc. unfold group_keys, first_occurrences in *.
  rewrite omap_app, filter_app, fold_left_app, <-IH.
  unfold group_step. simpl. destruct (field_key (key r)) as [k|]; simpl; [|done].
  unfold js_set. destruct (decide (k = "__proto__"%string)) as [->|Hk].
  - rewrite filter_cons_False, filter_nil; [done|tauto].
  - rewrite filter_cons_True, filter_nil by done. simpl.
    case_decide; [by rewrite own_set_keys_in|by rewrite own_set_keys_new].
Qed.

Lemma group_sum_nodup (data : list Sale) : NoDup (map fst (group_sum key value data)).
Proof.
  unfold group_sum. apply fold_left_invariant; [constructor|].
  intros acc r Hnd _. unfold group_step. destruct (field_key (key r)); [|done].
  unfold js_set. case_decide; [done|]. by apply own_set_nodup.
Qed.
End Grouping.

Lemma first_occurrences_elem {A} `{EqDecision A} (k : A) l : k ∈ first_occurrences l -> k ∈ l.
Proof.
  unfold first_occurrences.
  enough (H : forall acc, k ∈ fold_left (fun acc k => if decide (k ∈ acc) then acc else acc ++ [k]) l acc ->
                          k ∈ acc \/ k ∈ l) by (intros Hk; destruct (H [] Hk) as [[]%elem_of_nil|?]; done).
  induction l as [|x l IH]; intros acc Hk; simpl in *; [by left|].
  destruct (IH _ Hk) as [Hin|Hin]; [|set_solver].
  case_decide; set_solver.
Qed.

Lemma first_occurrences_snoc {A} `{EqDecision A} (l : list A) (x : A) :
  first_occurrences (l ++ [x]) =
  if decide (x ∈ first_occurrences l) then first_occurrences l else first_occurrences l ++ [x].
Proof. unfold first_occurrences. by rewrite fold_left_app. Qed.

Lemma first_occurrences_elem_iff {A} `{EqDecision A} (k : A) l : k ∈ first_occurrences l <-> k ∈ l.
Proof.
  induction l as [|x l IH] using rev_ind; [done|].
  rewrite first_occurrences_snoc. case_decide; set_solver.
Qed.

Lemma first_occurrences_nodup {A} `{EqDecision A} (l : list A) : NoDup (first_occurrences l).
Proof.
  induction l as [|x l IH] using rev_ind; [constructor|].
  rewrite first_occurrences_snoc. case_decide as Hx; [done|].
  apply NoDup_app. split_and!; [done| |apply NoDup_singleton]. set_solver.
Qed.

(** ** Properties of the totals and groupings *)

Section Claims.
Context `{JsRuntime}.

(** C1: [totalSales] and [totalProfit] are the sums of the [Sales] and
    [Profit] properties over all records, an absent or [null] property
    counting as zero. *)
Theorem totals_are_sums (data : list Sale) :
  total_sales data = JNumber (Fin (sum_q sales_q data)) /\
  total_profit data = JNumber (Fin (sum_q profit_q data)).
Proof.
  unfold total_sales, total_profit, num_zero. split.
  - rewrite (fold_js_add_sum _ sales_q) by apply sales_or_zero_q. by rewrite Qcplus_0_l.
  - rewrite (fold_js_add_sum _ profit_q) by apply profit_or_zero_q. by rewrite Qcplus_0_l.
Qed.

(** C2: when no region or country names a property of [Object.prototype],
    [salesByRegion] and [profitDistribution] give each key the sum of the
    records with that key, and no value to a key no record has. *)
Theorem groupings_refine_spec (data : list Sale) :
  keys_plain Region data -> keys_plain Country data ->
  (forall k, own_get (sales_by_region data) k = group_spec Region sales_q k data) /\
  (forall k, own_get (profit_distribution data) k = group_spec Country profit_q k data).
Proof.
  intros Hr Hc. split; intros k.
  - apply (group_sum_refines _ _ _ sales_or_zero_q data Hr).
  - apply (group_sum_refines _ _ _ profit_or_zero_q data Hc).
Qed.

(** C3: the groupings have one property per distinct non-empty key, in
    order of first occurrence; a key [__proto__] is silently dropped. *)
Theorem grouping_keys_first_seen (data : list Sale) :
  map fst (sales_by_region data) = group_keys Region data /\
  map fst (profit_distribution data) = group_keys Country data /\
  map fst (group_sum Category sales_or_zero data) = group_keys Category data /\
  "__proto__"%string ∉ map fst (sales_by_region data).
Proof.
  split_and!; try apply group_sum_keys.
  unfold sales_by_region. rewrite group_sum_keys. unfold group_keys.
  intros Hk%first_occurrences_elem. apply list_elem_of_filter in Hk as [Hk _]. by apply Hk.
Qed.
End Claims.

Lemma groupings_refine_spec_witness :
  keys_plain Region [rec_a; rec_b; rec_constructor] /\
  keys_plain Country [rec_a; rec_b; rec_constructor] /\
  own_get (sales_by_region [rec_a; rec_b; rec_constructor]) "West"%string
  = group_spec Region sales_q "West"%string [rec_a; rec_b; rec_constructor].
Proof.
  assert (Hr : keys_plain Region [rec_a; rec_b; rec_constructor])
    by (apply keys_plain_b_spec; vm_compute; reflexivity).
  assert (Hc : keys_plain Country [rec_a; rec_b; rec_constructor])
    by (apply keys_plain_b_spec; vm_compute; reflexivity).
  split_and!; [exact Hr|exact Hc|].
  apply (proj1 (groupings_refine_spec _ Hr Hc)).
Defined.
