(* ===== verification/Ranking.v ===== *)
(** * Ranking: the order of [topCategories]

    [topCategories] is the per-category sum of sales, re-created from its
    entries sorted with [(a, b) => b - a] (dashboard.component.ts, lines
    79-88).  When every category sum is a number and no category name is
    an array index, its entries are the category sums ordered by
    decreasing value, categories with equal sums in the order they first
    appear in the data ([top_categories_ranked]); by [js_sort_unique] of
    [JsArray] this is the only such order.  The two side conditions are
    needed: [prototype_category_is_string] and
    [top_categories_index_key_first] in [KpiFindings] show what happens
    without them. *)

From S2P Require Import Prelude JsNumber JsValue JsArray JsObject JsDate SalesData Fixtures Kpi KpiSpec.

Local Open Scope list_scope.

(** The value of a category entry, as a rational. *)
Definition entry_value (e : string * jsval) : Qc :=
  match e.2 with JNumber (Fin q) => q | _ => 0%Qc end.

Definition numeric_entry (e : string * jsval) : Prop := exists q, e.2 = JNumber (Fin q).

(** No record's key is an array index. *)
Definition keys_not_index (key : Sale -> field string) (data : list Sale) : Prop :=
  Forall (fun r => forall k, field_key (key r) = Some k -> array_index k = None) data.

Lemma own_set_Forall {V} (P : string * V -> Prop) k v o :
  P (k, v) -> Forall P o -> Forall P (own_set k v o).
Proof.
  intros Hkv Ho. induction Ho as [|[k' v'] o Hx Ho IH]; simpl; [by constructor|].
  case_decide; constructor; auto.
Qed.

Lemma group_keys_origin key data k :
  k ∈ group_keys key data -> exists r, In r data /\ field_key (key r) = Some k.
Proof.
  unfold group_keys. intros Hk%first_occurrences_elem.
  apply list_elem_of_filter in Hk as [_ Hk]. apply list_elem_of_omap in Hk as (r & Hr & Hkr).
  exists r. split; [by apply list_elem_of_In|done].
Qed.

Section Numeric.
Context `{JsRuntime} (key : Sale -> field string) (f : Sale -> Qc) (value : Sale -> jsval).
Hypothesis Hvalue : forall r, value r = JNumber (Fin (f r)).

(** Under [keys_plain], every grouped value is a finite number. *)
Lemma group_sum_numeric data :
  keys_plain key data -> Forall numeric_entry (group_sum key value data).
Proof.
  intros Hp. unfold group_sum. apply fold_left_invariant; [constructor|].
  intros acc r Hacc Hr. unfold group_step.
  destruct (field_key (key r)) as [k|] eqn:Hk; [|done].
  eapply List.Forall_forall in Hp; [|apply Hr]. specialize (Hp k Hk).
  unfold js_set. rewrite decide_False by (intros ->; discriminate).
  apply own_set_Forall; [|done]. unfold numeric_entry, js_get. simpl.
  rewrite Hvalue. destruct (own_get acc k) as [v|] eqn:Ho.
  - apply own_get_In in Ho. eapply List.Forall_forall in Hacc; [|apply Ho].
    destruct Hacc as [q Hq]. simpl in Hq. subst v. rewrite js_or_Fin_zero, js_add_num. eauto.
  - rewrite Hp. eauto.
Qed.

Lemma group_sum_not_index data :
  keys_not_index key data -> Forall (fun e => array_index e.1 = None) (group_sum key value data).
Proof.
  intros Hi. apply List.Forall_forall. intros [k v] Hkv. simpl.
  assert (Hk : k ∈ group_keys key data).
  { rewrite <-(group_sum_keys key value). apply list_elem_of_In, in_map_iff. by exists (k, v). }
  apply group_keys_origin in Hk as (r & Hr & Hrk).
  eapply List.Forall_forall in Hi; [|apply Hr]. by apply Hi.
Qed.
End Numeric.

(** The category entries as pairs of a name and a rational. *)
Definition embed (e : string * Qc) : string * jsval := (e.1, JNumber (Fin e.2)).
Definition desc_q (e1 e2 : string * Qc) : num := Fin (e2.2 - e1.2).

Lemma numeric_embed (l : list (string * jsval)) :
  Forall numeric_entry l -> l = map embed (map (fun e => (e.1, entry_value e)) l).
Proof.
  induction 1 as [|[k v] l [q Hq] _ IH]; [done|]. simpl in *. subst v.
  rewrite <-IH. done.
Qed.

Lemma rank_desc_embed `{JsRuntime} (l : list (string * Qc)) :
  NoDup (map fst l) -> Forall (fun e => array_index e.1 = None) l ->
  own_entries (rank_desc (map embed l)) = map embed (js_sort desc_q l).
Proof.
  intros Hnd Hi.
  assert (Hi' : Forall (fun e : string * jsval => array_index e.1 = None) (map embed l))
    by (apply Forall_map; eapply Forall_impl; [apply Hi|]; done).
  unfold rank_desc. rewrite (own_entries_no_index (map embed l) Hi').
  rewrite (js_sort_map desc_q by_value_desc embed) by (intros [] []; reflexivity).
  rewrite from_entries_nodup.
  - apply own_entries_no_index. apply Forall_map.
    eapply Permutation_Forall; [symmetry; apply js_sort_perm|]. done.
  - rewrite map_map. simpl. by rewrite (js_sort_perm desc_q l).
Qed.

Lemma desc_q_key (x y : string * Qc) : desc_q x y = Fin ((- x.2) - (- y.2))%Qc.
Proof. unfold desc_q. f_equal. ring. Qed.

Section Ranked.
Context `{JsRuntime}.

Definition value_desc (e1 e2 : string * jsval) : Prop := (entry_value e2 <= entry_value e1)%Qc.

(** The category sums as name/rational pairs, when they are numbers. *)
Definition category_sums (data : list Sale) : list (string * Qc) :=
  map (fun e => (e.1, entry_value e)) (group_sum Category sales_or_zero data).

Lemma top_categories_embed data :
  keys_plain Category data -> keys_not_index Category data ->
  group_sum Category sales_or_zero data = map embed (category_sums data) /\
  own_entries (top_categories data) = map embed (js_sort desc_q (category_sums data)).
Proof.
  intros Hp Hi.
  assert (Hraw : group_sum Category sales_or_zero data = map embed (category_sums data))
    by (apply numeric_embed, (group_sum_numeric _ sales_q); auto using sales_or_zero_q).
  split; [done|]. unfold top_categories. rewrite Hraw. apply rank_desc_embed.
  - pose proof (group_sum_nodup Category sales_or_zero data) as Hnd.
    rewrite Hraw, map_map in Hnd. done.
  - pose proof (group_sum_not_index Category sales_or_zero data Hi) as Hn.
    rewrite Hraw in Hn. apply List.Forall_map in Hn. done.
Qed.

(** C4: [topCategories] lists the category sums by decreasing value;
    categories with equal sums keep the order in which they first appear
    in the data (the sort is stable). *)
Theorem top_categories_ranked (data : list Sale) :
  keys_plain Category data -> keys_not_index Category data ->
  let raw := group_sum Category sales_or_zero data in
  let top := own_entries (top_categories data) in
  top ≡ₚ raw /\ StronglySorted value_desc top /\
  (forall q, filter (fun e => entry_value e = q) top = filter (fun e => entry_value e = q) raw).
Proof.
  intros Hp Hi raw top. destruct (top_categories_embed data Hp Hi) as [Hraw Htop].
  subst raw top. rewrite Htop, Hraw. split_and!.
  - apply Permutation_map, js_sort_perm.
  - apply StronglySorted_map_iff.
    eapply StronglySorted_impl; [|apply (js_sort_sorted (fun e => - e.2)%Qc), desc_q_key].
    unfold key_le, value_desc, entry_value. simpl. intros x y Hxy. qc_lra.
  - intros q. rewrite !filter_map_comm. f_equal. unfold entry_value. simpl.
    pose proof (js_sort_stable (fun e => - e.2)%Qc desc_q desc_q_key (- q)%Qc (category_sums data)) as Hs.
    unfold with_key in Hs.
    rewrite (list_filter_iff (fun x => x.2 = q) (fun z => (- z.2)%Qc = (- q)%Qc)).
    + rewrite Hs. apply list_filter_iff. intros x. by rewrite Qcopp_eq_iff.
    + intros x. by rewrite Qcopp_eq_iff.
Qed.
End Ranked.

Lemma keys_not_index_b_spec key data :
  forallb (fun r => match field_key (key r) with
                    | Some k => bool_decide (array_index k = None)
                    | None => true
                    end) data = true -> keys_not_index key data.
Proof.
  intros Hb. apply List.Forall_forall. intros r Hr k Hk.
  eapply forallb_forall in Hb; [|apply Hr]. rewrite Hk in Hb. by apply bool_decide_eq_true in Hb.
Qed.

Lemma top_categories_ranked_witness :
  keys_plain Category [rec_a; rec_b; rec_no_sales] /\
  keys_not_index Category [rec_a; rec_b; rec_no_sales] /\
  StronglySorted value_desc (own_entries (top_categories [rec_a; rec_b; rec_no_sales])).
Proof.
  assert (Hp : keys_plain Category [rec_a; rec_b; rec_no_sales])
    by (apply keys_plain_b_spec; vm_compute; reflexivity).
  assert (Hi : keys_not_index Category [rec_a; rec_b; rec_no_sales])
    by (apply keys_not_index_b_spec; vm_compute; reflexivity).
  split_and!; [exact Hp|exact Hi|].
  apply (top_categories_ranked _ Hp Hi).
Defined.
