(* ===== verification/KpiTypes.v ===== *)
(** * KpiTypes: the TypeScript types of the KPI fields

    The component declares its KPI fields as [number] and its groupings
    as [{ [key: string]: number }] (dashboard.component.ts, lines 16-29).
    TypeScript does not check what the untyped documents put there; the
    theorem of this file shows which declarations [calculateKPIs] keeps:
    every scalar KPI is a number for every input, and every value of the
    three groupings is a finite number when no key names a property of
    [Object.prototype]; the trend's [y: number] is not kept (a record
    without [Sales] makes it [undefined], [trend_missing_sales_nan]). *)

From S2P Require Import Prelude JsNumber JsValue JsArray JsObject JsDate SalesData Fixtures Kpi KpiSpec Ranking.

Local Open Scope list_scope.

(** A value of TypeScript type [number]. *)
Definition is_number (v : jsval) : Prop := exists n, v = JNumber n.

Lemma from_entries_Forall {V} (P : string * V -> Prop) (l : list (string * V)) :
  Forall P l -> Forall P (from_entries l).
Proof.
  intros Hl. unfold from_entries. apply fold_left_invariant; [constructor|].
  intros o [k v] Ho Hin. apply own_set_Forall; [|done].
  by eapply List.Forall_forall in Hl.
Qed.

Lemma rank_desc_Forall `{JsRuntime} (P : string * jsval -> Prop) (o : list (string * jsval)) :
  Forall P o -> Forall P (rank_desc o).
Proof.
  intros Ho. unfold rank_desc. apply from_entries_Forall.
  rewrite (js_sort_perm by_value_desc (own_entries o)), (own_entries_perm o). done.
Qed.

Lemma js_or_number (v : jsval) (n : num) : is_number v \/ v = JNull -> is_number (js_or v (JNumber n)).
Proof. unfold is_number, js_or. intros [[m ->]| ->]; [case_match|]; eauto. Qed.

Section Types.
Context `{JsRuntime}.

(** The values of the three groupings are finite numbers when no key
    names a property of [Object.prototype]. *)
Lemma groupings_numeric (tz : Z) (data : list Sale) :
  keys_plain Region data -> keys_plain Category data -> keys_plain Country data ->
  let k := calculate_kpis tz data in
  Forall numeric_entry (salesByRegion k) /\ Forall numeric_entry (topCategories k) /\
  Forall numeric_entry (profitDistribution k).
Proof.
  intros Hr Hc Hn k. subst k. simpl. split_and!.
  - apply (group_sum_numeric _ sales_q); [apply sales_or_zero_q|done].
  - apply rank_desc_Forall, (group_sum_numeric _ sales_q); [apply sales_or_zero_q|done].
  - apply (group_sum_numeric _ profit_q); [apply profit_or_zero_q|done].
Qed.

(** C27: the scalar KPI fields are numbers for every record list, and
    the values of [salesByRegion], [topCategories] and [profitDistribution]
    are finite numbers when no region, category or country names a
    property of [Object.prototype]. *)
Theorem kpi_fields_typed (tz : Z) (data : list Sale) :
  keys_plain Region data -> keys_plain Category data -> keys_plain Country data ->
  let k := calculate_kpis tz data in
  is_number (totalSales k) /\ is_number (totalProfit k) /\ is_number (profitMargin k) /\
  is_number (customerAcquisitionCost k) /\ is_number (customerLifetimeValue k) /\
  is_number (averageFulfillmentTime k) /\ is_number (returnOnInvestment k) /\
  Forall numeric_entry (salesByRegion k) /\ Forall numeric_entry (topCategories k) /\
  Forall numeric_entry (profitDistribution k).
Proof.
  intros Hr Hc Hn k. destruct (groupings_numeric tz data Hr Hc Hn) as (Hg1 & Hg2 & Hg3).
  subst k. simpl in *. destruct (totals_are_sums data) as [-> ->].
  split_and!; try (eexists; reflexivity); try done.
  - unfold profit_margin. destruct (js_gt_num _ _); eexists; reflexivity.
  - apply js_or_number. destruct (calculate_average_fulfillment_time tz data); simpl; [left|right]; [by eexists|done].
Qed.
End Types.

Lemma kpi_fields_typed_witness :
  keys_plain Region [rec_a; rec_b; rec_no_sales] /\ keys_plain Category [rec_a; rec_b; rec_no_sales] /\
  keys_plain Country [rec_a; rec_b; rec_no_sales] /\
  Forall numeric_entry (topCategories (calculate_kpis 0 [rec_a; rec_b; rec_no_sales])).
Proof.
  assert (Hr : keys_plain Region [rec_a; rec_b; rec_no_sales]) by (apply keys_plain_b_spec; vm_compute; reflexivity).
  assert (Hc : keys_plain Category [rec_a; rec_b; rec_no_sales]) by (apply keys_plain_b_spec; vm_compute; reflexivity).
  assert (Hn : keys_plain Country [rec_a; rec_b; rec_no_sales]) by (apply keys_plain_b_spec; vm_compute; reflexivity).
  split_and!; [exact Hr|exact Hc|exact Hn|].
  destruct (kpi_fields_typed 0 [rec_a; rec_b; rec_no_sales] Hr Hc Hn) as (_&_&_&_&_&_&_&_&Htop&_).
  exact Htop.
Defined.
