(* ===== verification/KpiFindings.v ===== *)
(** * KpiFindings: the behaviours of [calculateKPIs] at its edges

    Theorems on what the component does where the specification says
    something else or nothing: the order of [topCategories] with numeric
    category names, category names inherited from [Object.prototype], the
    epoch fallback in a time zone west of
    UTC, the guards of the ratio metrics, the [null] of the fulfillment
    time, the label of an unparseable date; and the two scenarios of the
    specification (section 8) evaluated on the model. *)

From S2P Require Import Prelude JsNumber JsValue JsArray JsObject JsDate SalesData Fixtures Kpi KpiSpec.

Local Open Scope list_scope.

(** ** Objects *)

(** An own property whose key names a built-in of [Object.prototype]
    holds a string that starts with the built-in's text. *)
Definition holds_builtin_string (o : list (string * jsval)) (k : string) (b : builtin) : Prop :=
  own_get o k = None \/ exists rest, own_get o k = Some (JString (PLit (builtin_text b) :: rest)).

Lemma builtin_string_truthy (b : builtin) rest : truthy (JString (PLit (builtin_text b) :: rest)) = true.
Proof.
  destruct (builtin_text_lead b) as (c & s & -> & _). reflexivity.
Qed.

Section Proto.
Context `{JsRuntime} (key : Sale -> field string) (value : Sale -> jsval).
Hypothesis Hvalue : forall r, exists n, value r = JNumber n.

Lemma group_step_builtin_string k b acc r :
  proto_get k = Some b -> k <> "__proto__"%string ->
  holds_builtin_string acc k b -> holds_builtin_string (group_step key value acc r) k b.
Proof.
  intros Hb Hk Hacc. unfold group_step. destruct (field_key (key r)) as [k0|]; [|done].
  unfold js_set. case_decide as Hk0; [done|].
  destruct (decide (k0 = k)) as [->|Hne].
  2:{ unfold holds_builtin_string. by rewrite own_get_set_ne. }
  right. rewrite own_get_set_eq. destruct (Hvalue r) as [n ->].
  destruct Hacc as [Hn|[rest Hs]]; unfold js_get.
  - rewrite Hn, Hb. eexists. reflexivity.
  - rewrite Hs. unfold js_or. rewrite builtin_string_truthy.
    exists (rest ++ [PNum n]). reflexivity.
Qed.

Lemma group_sum_builtin_string data k b :
  proto_get k = Some b -> k <> "__proto__"%string ->
  holds_builtin_string (group_sum key value data) k b.
Proof.
  intros Hb Hk. unfold group_sum. apply fold_left_invariant; [by left|].
  intros acc r Hacc _. by apply group_step_builtin_string.
Qed.
End Proto.

Section Findings.
Context `{JsRuntime}.

(** C6: a category named after a property of [Object.prototype] (such as
    [constructor] or [toString]) never sums to a number: its entry in
    [topCategories] is a string that starts with the source text of the
    inherited function, and it compares as [NaN] in the ranking. *)
Theorem prototype_category_is_string (data : list Sale) (k : string) (b : builtin) (v : jsval) :
  proto_get k = Some b -> k <> "__proto__"%string ->
  own_get (group_sum Category sales_or_zero data) k = Some v ->
  (exists rest, v = JString (PLit (builtin_text b) :: rest)) /\ to_number v = NaN.
Proof.
  intros Hb Hk Hv.
  destruct (group_sum_builtin_string Category sales_or_zero
              (fun r => ex_intro _ _ (sales_or_zero_q r)) data k b Hb Hk) as [Hn|[rest Hs]];
    [congruence|].
  rewrite Hs in Hv. injection Hv as <-. split; [by eexists|].
  apply to_number_builtin_string.
Qed.

(** [Object.fromEntries] of the sorted entries keeps the keys of an
    object with distinct keys, in some order. *)
Lemma rank_desc_keys (o : list (string * jsval)) :
  NoDup (map fst o) -> map fst (rank_desc o) ≡ₚ map fst o.
Proof.
  intros Hnd. assert (Hp : js_sort by_value_desc (own_entries o) ≡ₚ o)
    by (rewrite js_sort_perm; apply own_entries_perm).
  unfold rank_desc. rewrite from_entries_nodup; [by rewrite Hp|]. by rewrite Hp.
Qed.

(** C5: [topCategories] is not ordered by value when a category name is
    an array index: whatever the sums, [Object.keys] lists the category
    names that are array indices first, in ascending numeric order, and
    the other names after them; together they are the distinct category
    names of the data. *)
Theorem top_categories_index_key_first (data : list Sale) :
  exists pre post, object_keys (top_categories data) = (pre ++ post)%list /\
    Forall (fun k => is_Some (array_index k)) pre /\
    Forall (fun k => array_index k = None) post /\
    StronglySorted (fun k1 k2 => forall i1 i2, array_index k1 = Some i1 ->
                                  array_index k2 = Some i2 -> (i1 <= i2)%Z) pre /\
    (pre ++ post)%list ≡ₚ group_keys Category data.
Proof.
  destruct (object_keys_index_first (top_categories data)) as (pre & post & Hk & Hpre & Hpost & Hs & Hp).
  exists pre, post. split_and!; [done..|]. rewrite Hp, <-(group_sum_keys _ sales_or_zero).
  apply rank_desc_keys, group_sum_nodup.
Qed.

(** ** Sales trend *)

(** C10: a record whose order date does not parse is bucketed from the
    epoch in local time: January 1, 1970 at UTC or east of it (less than a
    day ahead), but July 1, 1969 west of UTC. *)
Theorem epoch_bucket_depends_on_zone (tz : Z) (r : Sale) :
  date_of_field tz (Order_Date r) = None -> (- ms_per_day < tz < ms_per_day)%Z ->
  half_year_start tz r = if (tz <? 0)%Z then date_local tz 1969 6 1 else date_local tz 1970 0 1.
Proof.
  intros Hd Htz. unfold half_year_start, half_year_start_of. rewrite Hd.
  unfold get_month, get_full_year, local_ymd.
  destruct (Z.ltb_spec tz 0) as [Hneg|Hpos].
  - replace ((0 + tz) / ms_per_day)%Z with (-1)%Z by (unfold ms_per_day in *; Z.div_mod_to_equations; lia).
    reflexivity.
  - replace ((0 + tz) / ms_per_day)%Z with 0%Z by (unfold ms_per_day in *; Z.div_mod_to_equations; lia).
    reflexivity.
Qed.

(** ** Ratios *)

(** C11: [profitMargin] is [100 * profit / sales] when the total sales are
    positive and [0] otherwise: also for negative total sales, and the
    result is [0] for any positive total sales with zero profit. *)
Theorem profit_margin_finite (s p : Qc) :
  profit_margin (JNumber (Fin s)) (JNumber (Fin p)) =
  if bool_decide (0 < s)%Qc then JNumber (Fin (p / s * qz 100)%Qc) else JNumber num_zero.
Proof.
  unfold profit_margin, js_gt_num, js_mul, js_div. cbn [to_primitive to_number].
  change num_zero with (Fin 0%Qc) at 1. rewrite (num_lt_Fin_b 0 s).
  case_bool_decide as Hs; [|done].
  rewrite num_div_Fin_nz, num_mul_Fin; [done|].
  intros ->. by apply (Qclt_not_eq 0 0 Hs).
Qed.

(** C12: [returnOnInvestment] divides without a guard: with zero total
    sales it is [NaN] for zero profit and an infinity of the profit's sign
    otherwise. *)
Theorem roi_zero_sales (p : Qc) :
  return_on_investment (JNumber (Fin 0%Qc)) (JNumber (Fin p)) = JNumber (inf_of_sign (qsign p)).
Proof.
  unfold return_on_investment, js_mul, js_div. cbn [to_primitive to_number].
  rewrite num_div_by_zero. by destruct (qsign p).
Qed.

(** ** Fulfillment time *)

(** C14: when no record has both dates valid, [calculateAverageFulfillmentTime]
    returns [null], and [|| 0] turns it into [0]: "no data" and "zero days"
    are the same value of [averageFulfillmentTime]. *)
Theorem fulfillment_no_data_is_zero (tz : Z) (data : list Sale) :
  Forall (fun r => has_valid_dates tz r = false) data ->
  calculate_average_fulfillment_time tz data = None /\
  averageFulfillmentTime (calculate_kpis tz data) = JNumber num_zero.
Proof.
  intros Hall.
  assert (Hnone : calculate_average_fulfillment_time tz data = None).
  { unfold calculate_average_fulfillment_time.
    rewrite filter_Forall_nil; [done|]. eapply Forall_impl; [apply Hall|]. simpl. congruence. }
  split; [done|]. simpl. by rewrite Hnone.
Qed.

(** ** Monthly revenue *)

Lemma monthly_step_has_label tz acc r :
  proto_get (month_year_label tz (date_of_field tz (Order_Date r))) = None ->
  month_year_label tz (date_of_field tz (Order_Date r)) ∈ map fst (monthly_step tz acc r).
Proof.
  intros Hp. unfold monthly_step.
  set (month := month_year_label tz (date_of_field tz (Order_Date r))) in *.
  set (acc1 := match own_get acc month, proto_get month with
               | None, None => own_set month [] acc | _, _ => acc end).
  assert (Hacc : month ∈ map fst acc1).
  { subst acc1. rewrite Hp. destruct (own_get acc month) eqn:E.
    - apply own_get_In in E. apply list_elem_of_In, in_map_iff. by eexists (month, _).
    - rewrite own_set_keys_new by (by apply own_get_None). set_solver. }
  destruct (field_key (Category r)); [|done].
  destruct (own_get acc1 month); [|done]. by rewrite own_set_keys_in.
Qed.

(** C17: a record whose order date does not parse is grouped under the
    label ["Invalid Date"], not under a label derived from the epoch. *)
Theorem invalid_date_month_label (tz : Z) (data : list Sale) (r : Sale) :
  date_of_field tz (Order_Date r) = None ->
  "Invalid Date"%string ∈ map fst (monthly_revenue tz (data ++ [r])).
Proof.
  intros Hd. unfold monthly_revenue. rewrite fold_left_snoc.
  pose proof (monthly_step_has_label tz (fold_left (monthly_step tz) data []) r) as Hl.
  rewrite Hd in Hl. apply Hl. reflexivity.
Qed.
End Findings.

(** ** Per-record ratios *)

Section PerRecord.
Context `{JsRuntime}.

Lemma length_or_one_max (data : list Sale) :
  length_or_one data = JNumber (Fin (qz (Z.of_nat (Nat.max 1 (length data))))).
Proof.
  unfold length_or_one, js_or, num_of_nat. destruct (length data) as [|n] eqn:E; [done|].
  simpl truthy. rewrite bool_decide_true; [done|].
  intros Hq. change 0%Qc with (qz 0) in Hq. apply qz_inj in Hq. lia.
Qed.

(** C16: [customerAcquisitionCost] and [customerLifetimeValue] are the
    total sales and the total profit divided by the number of records, a
    count of zero being replaced by one. *)
Theorem cost_and_value_per_record (tz : Z) (data : list Sale) :
  customerAcquisitionCost (calculate_kpis tz data)
    = JNumber (Fin (sum_q sales_q data / qz (Z.of_nat (Nat.max 1 (length data))))%Qc) /\
  customerLifetimeValue (calculate_kpis tz data)
    = JNumber (Fin (sum_q profit_q data / qz (Z.of_nat (Nat.max 1 (length data))))%Qc).
Proof.
  simpl. unfold customer_acquisition_cost, customer_lifetime_value.
  destruct (totals_are_sums data) as [-> ->]. rewrite length_or_one_max.
  unfold js_div. cbn [to_primitive to_number].
  assert (Hnz : qz (Z.of_nat (Nat.max 1 (length data))) <> 0%Qc).
  { intros Hq. change 0%Qc with (qz 0) in Hq. apply qz_inj in Hq. lia. }
  by rewrite !num_div_Fin_nz.
Qed.
End PerRecord.

(** ** Witnesses and the scenarios of the specification *)

Lemma prototype_category_is_string_witness :
  (exists rest, JString [PLit "function Object() { [native code] }"%string; PNum (Fin (qz 5)); PNum (Fin (qz 5))]
                = JString (PLit (builtin_text (NativeFunction "Object"%string)) :: rest)) /\
  to_number (JString [PLit "function Object() { [native code] }"%string; PNum (Fin (qz 5)); PNum (Fin (qz 5))]) = NaN.
Proof.
  apply (prototype_category_is_string [rec_constructor; rec_constructor] "constructor"%string).
  - reflexivity.
  - discriminate.
  - vm_compute. reflexivity.
Defined.

Lemma epoch_bucket_depends_on_zone_witness :
  half_year_start (-18000000) rec_no_sales = date_local (-18000000) 1969 6 1.
Proof.
  apply (epoch_bucket_depends_on_zone (-18000000) rec_no_sales).
  - reflexivity.
  - unfold ms_per_day. lia.
Defined.

Lemma fulfillment_no_data_is_zero_witness :
  calculate_average_fulfillment_time 0 [rec_b; rec_no_sales] = None /\
  averageFulfillmentTime (calculate_kpis 0 [rec_b; rec_no_sales]) = JNumber num_zero.
Proof.
  apply fulfillment_no_data_is_zero.
  repeat constructor; vm_compute; reflexivity.
Defined.

Lemma invalid_date_month_label_witness :
  "Invalid Date"%string ∈ map fst (monthly_revenue 0 ([rec_a] ++ [rec_no_sales])).
Proof. apply (invalid_date_month_label 0 [rec_a] rec_no_sales). reflexivity. Defined.

(** The two-record scenario of the specification: totals 150 and 10,
    one region, categories A then B, margin 20/3 %, two half-year points
    in first-seen order, and a fulfillment time of 5 days (only the first
    record has a valid ship date). *)
Example spec_scenario_two_records :
  let k := calculate_kpis 0 [rec_a; rec_b] in
  js_q (totalSales k) = Some 150%Q /\ js_q (totalProfit k) = Some 10%Q /\
  map fst (salesByRegion k) = ["West"%string] /\
  object_keys (topCategories k) = ["A"; "B"]%string /\
  js_q (profitMargin k) = Some (20 # 3)%Q /\
  map px (salesTrend k) = [date_local 0 2023 0 1; date_local 0 2023 6 1] /\
  map (fun p => js_q (py p)) (salesTrend k) = [Some 100%Q; Some 50%Q] /\
  js_q (averageFulfillmentTime k) = Some 5%Q.
Proof. vm_compute. split_and!; reflexivity. Qed.

(** On an empty record list every sum is 0, every grouping is
    empty, the fulfillment time is 0 (its [null] coerced), the margin is
    0, and the return on investment is [NaN]. *)
Theorem empty_input_kpis (tz : Z) :
  calculate_kpis tz [] =
  mkKpis (JNumber num_zero) (JNumber num_zero) [] [] [] [] (JNumber num_zero)
         (JNumber num_zero) (JNumber num_zero) (JNumber num_zero) (JNumber NaN) [].
Proof. reflexivity. Qed.
