(* ===== verification/Trend.v ===== *)
(** * Trend: the half-year buckets of [salesTrend]

    The [salesTrend] reduce (dashboard.component.ts, lines 97-115) looks
    for the point whose date has the time value of the record's half-year
    start with [acc.find] and adds [record.Sales] to it, or pushes a new
    point.  [trend_spec] is what the specification (section 4, step 4)
    asks for: one point per distinct half-year start, in order of first
    occurrence, holding the sum of the sales of the records of that
    half-year.  [sales_trend_refines] shows the reduce computes it when
    every record has a numeric [Sales] and a half-year start that is a
    valid date; [trend_missing_sales_nan], [year_two_digit_bucket] and
    the findings in [KpiFindings] show what happens otherwise.  For a single date,
    [half_year_start_bounds] shows that its bucket starts at local midnight
    of January 1 or July 1 at or before it, with the next half-year
    starting after it (for years outside 0-99, by the calendar lemmas of
    [Calendar]). *)

From S2P Require Import Prelude JsNumber JsValue JsArray JsObject JsDate Calendar SalesData Fixtures Kpi KpiSpec.

Local Open Scope list_scope.

Lemma decide_elem_cons {A B} `{EqDecision A} (t u : A) (ks : list A) (x y : B) :
  u <> t -> (if decide (t ∈ u :: ks) then x else y) = (if decide (t ∈ ks) then x else y).
Proof.
  intros Hne. destruct (decide (t ∈ ks)) as [Hin|Hin].
  - rewrite decide_True; [done|]. by apply list_elem_of_further.
  - rewrite decide_False; [done|]. intros Hc. apply elem_of_cons in Hc as [->|Hc]; [done|]. contradiction.
Qed.

(** One reduce step on points listed by distinct dates: the point of
    date [t] is updated in place, or a point is appended. *)
Lemma trend_find_update `{JsRuntime} (keys : list Z) (F : Z -> jsval) (t : Z) (v : jsval) :
  NoDup keys ->
  let pts := map (fun u => mkPoint (Some u) (F u)) keys in
  match list_find (fun p => time_strict_eq (px p) (Some t) = true) pts with
  | Some (i, p) => <[i := mkPoint (px p) (js_add (py p) v)]> pts
  | None => pts ++ [mkPoint (Some t) v]
  end =
  if decide (t ∈ keys)
  then map (fun u => mkPoint (Some u) (if decide (u = t) then js_add (F u) v else F u)) keys
  else pts ++ [mkPoint (Some t) v].
Proof.
  intros Hnd. induction Hnd as [|u ks Hu Hnd IH]; simpl; [done|].
  destruct (decide ((u =? t)%Z = true)) as [Hut|Hut].
  - apply Z.eqb_eq in Hut as ->. rewrite decide_True by apply list_elem_of_here.
    rewrite decide_True by done. simpl. f_equal.
    apply map_ext_in. intros u Hin. rewrite decide_False; [done|].
    intros ->. by apply Hu, list_elem_of_In.
  - assert (Hne : u <> t) by (intros ->; apply Hut, Z.eqb_refl).
    rewrite (decide_False (P := u = t)) by done. rewrite decide_elem_cons by done. simpl in IH.
    destruct (list_find _ _) as [[i p]|]; simpl; rewrite IH; by destruct (decide (t ∈ ks)).
Qed.

Section Trend.
Context `{JsRuntime} (tz : Z).

(** The records whose half-year start is the time value [t]. *)
Definition bucket (t : Z) (data : list Sale) : list Sale :=
  filter (fun r => half_year_start tz r = Some t) data.

(** The distinct valid half-year starts, in order of first occurrence. *)
Definition trend_keys (data : list Sale) : list Z :=
  first_occurrences (omap (half_year_start tz) data).

(** The specification of the trend: one point per half-year, with the
    sum of its sales. *)
Definition trend_spec (data : list Sale) : list point :=
  map (fun t => mkPoint (Some t) (JNumber (Fin (sum_q sales_q (bucket t data))))) (trend_keys data).

(** The record has a number as [Sales] and a valid half-year start. *)
Definition trend_ready (r : Sale) : Prop :=
  is_Some (half_year_start tz r) /\ Sales r = Val (sales_q r).

Lemma sales_trend_snoc data r : sales_trend tz (data ++ [r]) = trend_step tz (sales_trend tz data) r.
Proof. apply fold_left_snoc. Qed.

Lemma trend_keys_snoc data r t :
  half_year_start tz r = Some t ->
  trend_keys (data ++ [r]) = if decide (t ∈ trend_keys data) then trend_keys data else trend_keys data ++ [t].
Proof. intros Ht. unfold trend_keys. rewrite omap_app. simpl. rewrite Ht. apply first_occurrences_snoc. Qed.

Lemma bucket_sum_snoc data r t u :
  half_year_start tz r = Some t ->
  sum_q sales_q (bucket u (data ++ [r])) =
  if decide (t = u) then (sum_q sales_q (bucket u data) + sales_q r)%Qc else sum_q sales_q (bucket u data).
Proof.
  intros Ht. unfold bucket. rewrite filter_app, sum_q_app. case_decide as Htu.
  - rewrite filter_cons_True, filter_nil by congruence. unfold sum_q at 2. simpl. by rewrite Qcplus_0_r.
  - rewrite filter_cons_False, filter_nil by congruence. unfold sum_q at 2. simpl. by rewrite Qcplus_0_r.
Qed.

Lemma bucket_absent t data : t ∉ trend_keys data -> sum_q sales_q (bucket t data) = 0%Qc.
Proof.
  intros Ht. unfold bucket. rewrite filter_Forall_nil; [done|].
  apply List.Forall_forall. intros r Hr Hrt. apply Ht.
  unfold trend_keys. apply first_occurrences_elem_iff, list_elem_of_omap.
  exists r. split; [by apply list_elem_of_In|done].
Qed.

Lemma bucket_point (data : list Sale) r t (keys : list Z) :
  half_year_start tz r = Some t -> Sales r = Val (sales_q r) ->
  map (fun u => mkPoint (Some u)
         (if decide (u = t)
          then js_add (JNumber (Fin (sum_q sales_q (bucket u data)))) (field_num (Sales r))
          else JNumber (Fin (sum_q sales_q (bucket u data))))) keys =
  map (fun u => mkPoint (Some u) (JNumber (Fin (sum_q sales_q (bucket u (data ++ [r])))))) keys.
Proof.
  intros Ht Hs. apply map_ext. intros u. rewrite (bucket_sum_snoc data r t u Ht), Hs.
  destruct (decide (u = t)) as [->|Hne]; [by rewrite decide_True|].
  by rewrite decide_False by congruence.
Qed.

(** The reduce computes the specification on records that are ready. *)
Lemma sales_trend_spec (data : list Sale) :
  Forall trend_ready data -> sales_trend tz data = trend_spec data.
Proof.
  induction data as [|r data IH] using rev_ind; intros Hr; [done|].
  apply Forall_app in Hr as [Hd Hr]. apply Forall_cons in Hr as [[[t Ht] Hs] _].
  rewrite sales_trend_snoc, IH by done. unfold trend_step, trend_spec.
  rewrite Ht, (trend_find_update _ _ t) by apply first_occurrences_nodup.
  rewrite (trend_keys_snoc data r t Ht). case_decide as Hin.
  - by apply bucket_point.
  - rewrite map_app. f_equal.
    + rewrite <-(bucket_point data r t (trend_keys data) Ht Hs). apply map_ext_in.
      intros u Hu. rewrite decide_False; [done|]. intros ->. by apply Hin, list_elem_of_In.
    + simpl. rewrite (bucket_sum_snoc data r t t Ht), decide_True, bucket_absent, Hs by done.
      simpl. by rewrite Qcplus_0_l.
Qed.

(** C7: when every record has a number as [Sales] and a valid half-year
    start, [salesTrend] has one point per distinct half-year start, in
    order of first occurrence in the data, and the point of a half-year
    holds the sum of the sales of its records. *)
Theorem sales_trend_refines (data : list Sale) :
  Forall trend_ready data -> sales_trend tz data = trend_spec data.
Proof. apply sales_trend_spec. Qed.

(** C9: the trend adds [record.Sales] without [|| 0]: after records
    with numeric sales, a record without [Sales] turns the point of its
    half-year into [NaN], or starts a new point at [undefined] (which
    any later addition turns into [NaN]); the totals count the same
    record as zero. *)
Theorem trend_missing_sales_nan (data : list Sale) (r : Sale) (t : Z) :
  Forall trend_ready data -> half_year_start tz r = Some t -> Sales r = Missing ->
  sales_trend tz (data ++ [r]) =
    (if decide (t ∈ trend_keys data)
     then map (fun u => mkPoint (Some u) (if decide (u = t) then JNumber NaN
                                          else JNumber (Fin (sum_q sales_q (bucket u data)))))
              (trend_keys data)
     else trend_spec data ++ [mkPoint (Some t) JUndefined]) /\
  total_sales (data ++ [r]) = total_sales data.
Proof.
  intros Hd Ht Hs. split.
  - rewrite sales_trend_snoc, (sales_trend_spec data Hd). unfold trend_step, trend_spec.
    rewrite Ht, (trend_find_update _ _ t) by apply first_occurrences_nodup. rewrite Hs.
    case_decide; [|done]. apply map_ext. intros u. by case_decide.
  - unfold total_sales, num_zero. rewrite fold_left_snoc, !(fold_js_add_sum _ sales_q) by apply sales_or_zero_q.
    rewrite sales_or_zero_q. replace (sales_q r) with 0%Qc by (unfold sales_q; by rewrite Hs).
    cbn. by rewrite Qcplus_0_r.
Qed.
End Trend.

Lemma trend_ready_b_spec `{JsRuntime} tz data :
  forallb (fun r => bool_decide (is_Some (half_year_start tz r)) &&
                    match Sales r with Val _ => true | _ => false end) data = true ->
  Forall (trend_ready tz) data.
Proof.
  intros Hb. apply List.Forall_forall. intros r Hr. eapply forallb_forall in Hb; [|apply Hr].
  apply andb_true_iff in Hb as [H1 H2]. apply bool_decide_eq_true in H1. split; [done|].
  unfold sales_q. destruct (Sales r); done.
Qed.

Lemma sales_trend_refines_witness :
  Forall (trend_ready 0) [rec_a; rec_b; rec_constructor; rec_index] /\
  sales_trend 0 [rec_a; rec_b; rec_constructor; rec_index] = trend_spec 0 [rec_a; rec_b; rec_constructor; rec_index].
Proof.
  assert (Hr : Forall (trend_ready 0) [rec_a; rec_b; rec_constructor; rec_index])
    by (apply trend_ready_b_spec; vm_compute; reflexivity).
  split; [exact Hr|]. apply (sales_trend_refines 0 _ Hr).
Defined.

Lemma trend_missing_sales_nan_witness :
  Forall (trend_ready 0) [rec_a] /\ half_year_start 0 rec_no_sales = Some 0%Z /\
  Sales rec_no_sales = Missing /\
  total_sales ([rec_a] ++ [rec_no_sales]) = total_sales [rec_a].
Proof.
  assert (Hr : Forall (trend_ready 0) [rec_a]) by (apply trend_ready_b_spec; vm_compute; reflexivity).
  assert (Ht : half_year_start 0 rec_no_sales = Some 0%Z) by (vm_compute; reflexivity).
  assert (Hs : Sales rec_no_sales = Missing) by reflexivity.
  split_and!; [exact Hr|exact Ht|exact Hs|]. exact (proj2 (trend_missing_sales_nan 0 _ _ _ Hr Ht Hs)).
Defined.

(** ** The bucket of a date *)

Local Open Scope Z_scope.

Lemma time_clip_Some (x s : Z) : time_clip x = Some s -> s = x /\ time_clip s = Some s.
Proof. unfold time_clip. case_match; [intros Hs; injection Hs as <-; by rewrite H|done]. Qed.

Lemma half_year_day_even (y : Z) : half_year_day (2 * y) = days_from_civil y 1 1.
Proof. unfold half_year_day. by rewrite Z.even_mul, Z.mul_comm, Z.div_mul by lia. Qed.

Lemma half_year_day_odd (y : Z) : half_year_day (2 * y + 1) = days_from_civil y 7 1.
Proof.
  unfold half_year_day. rewrite Z.even_add, Z.even_mul. simpl.
  by replace ((2 * y + 1) / 2) with y by (Z.div_mod_to_equations; lia).
Qed.

Lemma half_year_of_div2 (ymd : Z * Z * Z) : half_year_of ymd / 2 = ymd.1.1.
Proof. destruct ymd as [[y m] d]. simpl. destruct (m <=? 6); Z.div_mod_to_equations; lia. Qed.

(** Only the half-year of a day has the day between its first day and
    the next half-year's. *)
Lemma half_year_of_unique (k z : Z) :
  half_year_day k <= z < half_year_day (k + 1) -> half_year_of (civil_from_days z) = k.
Proof.
  intros Hk. pose proof (civil_half_year z) as Hc. set (k' := half_year_of (civil_from_days z)) in *.
  destruct (Z.lt_trichotomy k' k) as [Hlt|[Heq|Hgt]]; [|done|].
  - assert (Hle : half_year_day (k' + 1) <= half_year_day k).
    { destruct (Z.eq_dec (k' + 1) k) as [->|Hne]; [lia|]. apply Z.lt_le_incl, half_year_day_mono. lia. }
    lia.
  - assert (Hle : half_year_day (k + 1) <= half_year_day k').
    { destruct (Z.eq_dec (k + 1) k') as [<-|Hne]; [lia|]. apply Z.lt_le_incl, half_year_day_mono. lia. }
    lia.
Qed.

Section Bucket.
Context (tz : Z).

(** The local year of a time value is not one that [new Date(y, m, d)]
    moves to 19yy. *)
Definition four_digit_year (t : Z) : Prop := ~ (0 <= get_full_year tz t <= 99).

(** [halfYearStart] is the first day of a half-year at local midnight,
    clipped: the half-year of the local month in the year [MakeFullYear]
    makes of the local year. *)
Lemma half_year_start_of_make (t : Z) :
  half_year_start_of tz t =
  time_clip (half_year_day (2 * make_full_year (get_full_year tz t) +
                            (if get_month tz t <? 6 then 0 else 1)) * ms_per_day - tz).
Proof.
  unfold half_year_start_of, get_month, get_full_year.
  destruct (local_ymd tz t) as [[y m] d]. simpl.
  unfold date_local, make_date, make_day.
  destruct (m - 1 <? 6).
  - change (0 / 12) with 0. change (0 mod 12 + 1) with 1.
    rewrite !Z.add_0_r, half_year_day_even. do 2 f_equal. lia.
  - change (6 / 12) with 0. change (6 mod 12 + 1) with 7.
    rewrite !Z.add_0_r, half_year_day_odd. do 2 f_equal. unfold ms_per_day. lia.
Qed.

(** [halfYearStart] is the first day of the half-year of the local day,
    at local midnight, clipped. *)
Lemma half_year_start_of_spec (t : Z) :
  four_digit_year t ->
  half_year_start_of tz t =
  time_clip (half_year_day (half_year_of (civil_from_days ((t + tz) / ms_per_day))) * ms_per_day - tz).
Proof.
  rewrite half_year_start_of_make.
  unfold four_digit_year, get_month, get_full_year, local_ymd, make_full_year.
  destruct (civil_from_days ((t + tz) / ms_per_day)) as [[y m] d]. simpl. intros Hy.
  rewrite (proj2 (andb_false_iff _ _)) by (destruct (Z.leb_spec 0 y), (Z.leb_spec y 99); lia).
  destruct (Z.ltb_spec (m - 1) 6); [rewrite (proj2 (Z.leb_le m 6)) by lia|rewrite (proj2 (Z.leb_gt m 6)) by lia];
    reflexivity.
Qed.

(** The local date of a half-year's first day, at local midnight. *)
Lemma local_ymd_half_year_day (k : Z) :
  local_ymd tz (half_year_day k * ms_per_day - tz) = (k / 2, if Z.even k then 1 else 7, 1).
Proof.
  unfold local_ymd. rewrite Z.sub_add, Z.div_mul by (unfold ms_per_day; lia).
  apply civil_from_days_half_year.
Qed.

(** C8: [new Date(year, 0, 1)] reads a year from 0 to 99 as 1900 plus
    it: a record of a local year [y] between 0 and 99 goes to the bucket
    of January 1 or July 1 of the year [1900 + y], in the same half of
    the year as the record, and so to the same point as a record of that
    half of [1900 + y]. *)
Theorem year_two_digit_bucket (t s : Z) :
  0 <= get_full_year tz t <= 99 -> half_year_start_of tz t = Some s ->
  get_full_year tz s = 1900 + get_full_year tz t /\
  get_month tz s = (if get_month tz t <? 6 then 0 else 6).
Proof.
  intros Hy Hs. rewrite half_year_start_of_make in Hs. apply time_clip_Some in Hs as [-> _].
  unfold make_full_year.
  rewrite (proj2 (andb_true_iff _ _)) by (split; apply Z.leb_le; lia).
  set (y := get_full_year tz t) in *. set (m := get_month tz t) in *.
  unfold get_full_year, get_month. rewrite local_ymd_half_year_day. cbn [fst snd].
  destruct (m <? 6).
  - rewrite Z.add_0_r, Z.even_mul, Z.mul_comm, Z.div_mul by lia. split; reflexivity.
  - rewrite Z.even_add, Z.even_mul.
    replace ((2 * (1900 + y) + 1) / 2) with (1900 + y) by (Z.div_mod_to_equations; lia).
    split; reflexivity.
Qed.

(** C28: for an order date in a year outside 0-99, the trend point the
    record goes to starts at local midnight of January 1 or July 1, at
    or before the record's local time, and the next half-year starts
    after it: the record lies in its bucket. *)
Theorem half_year_start_bounds (t s : Z) :
  four_digit_year t -> half_year_start_of tz t = Some s ->
  exists k, s = half_year_day k * ms_per_day - tz /\
    half_year_day k * ms_per_day <= t + tz < half_year_day (k + 1) * ms_per_day.
Proof.
  intros Hy Hs. rewrite (half_year_start_of_spec t Hy) in Hs. apply time_clip_Some in Hs as [-> _].
  eexists. split; [reflexivity|].
  pose proof (civil_half_year ((t + tz) / ms_per_day)) as Hb.
  unfold ms_per_day in *. Z.div_mod_to_equations. lia.
Qed.

End Bucket.

Lemma year_two_digit_bucket_witness :
  date_of_field 0 (Order_Date rec_year50) = Some (-60584198400000) /\
  half_year_start 0 rec_year1950 = Some (-631152000000) /\
  0 <= get_full_year 0 (-60584198400000) <= 99 /\
  half_year_start_of 0 (-60584198400000) = Some (-631152000000) /\
  get_full_year 0 (-631152000000) = 1900 + get_full_year 0 (-60584198400000) /\
  get_month 0 (-631152000000) = (if get_month 0 (-60584198400000) <? 6 then 0 else 6).
Proof.
  assert (Hy : 0 <= get_full_year 0 (-60584198400000) <= 99)
    by (replace (get_full_year 0 (-60584198400000)) with 50 by (vm_compute; reflexivity); lia).
  assert (Hs : half_year_start_of 0 (-60584198400000) = Some (-631152000000)) by (vm_compute; reflexivity).
  split; [vm_compute; reflexivity|]. split; [vm_compute; reflexivity|].
  split; [exact Hy|]. split; [exact Hs|]. exact (year_two_digit_bucket 0 _ _ Hy Hs).
Defined.

Lemma half_year_start_bounds_witness :
  four_digit_year 0 (1686787200000) /\ half_year_start_of 0 1686787200000 = Some 1672531200000 /\
  exists k, 1672531200000 = half_year_day k * ms_per_day - 0 /\
    half_year_day k * ms_per_day <= 1686787200000 + 0 < half_year_day (k + 1) * ms_per_day.
Proof.
  assert (Hy : four_digit_year 0 1686787200000) by (unfold four_digit_year; replace (get_full_year 0 1686787200000) with 2023 by (vm_compute; reflexivity); lia).
  assert (Hs : half_year_start_of 0 1686787200000 = Some 1672531200000) by (vm_compute; reflexivity).
  split_and!; [exact Hy|exact Hs|]. exact (half_year_start_bounds 0 _ _ Hy Hs).
Defined.
