(* ===== verification/Fulfillment.v ===== *)
(** * Fulfillment: [calculateMedian] and [calculateAverageFulfillmentTime]

    The median of [calculateMedian] (dashboard.component.ts, lines 166-175)
    sorts a copy of the values with [(a, b) => a - b] and averages the two
    central values of an even count.  [calculate_median_spec] shows it is
    the median of the values in the usual sense: the central value, or the
    mean of the two central values, of any ascending arrangement of them.
    [average_fulfillment_policy] states the three-tier result of
    [calculateAverageFulfillmentTime] (lines 144-184) in terms of that
    median and of the mean. *)

From S2P Require Import Prelude JsNumber JsValue JsArray JsObject JsDate SalesData Fixtures Kpi.

Local Open Scope list_scope.

(** The median of an ascending list, as a textbook defines it. *)
Definition median_of_sorted (s : list Qc) : Qc :=
  let n := length s in
  if Nat.even n then ((nth (n / 2 - 1) s 0 + nth (n / 2) s 0) / qz 2)%Qc
  else nth (n / 2) s 0%Qc.

(** The comparator [(a, b) => a - b] on finite values. *)
Definition asc_q (a b : Qc) : num := Fin (a - b)%Qc.

Lemma all_eq_perm (q : Qc) (a b : list Qc) :
  Forall (fun x => x = q) a -> Forall (fun x => x = q) b -> a ≡ₚ b -> a = b.
Proof.
  revert b. induction a as [|x a IH]; intros b Ha Hb Hp.
  - symmetry. by apply Permutation_nil.
  - destruct b as [|y b]; [symmetry in Hp; by apply Permutation_nil_cons in Hp|].
    apply Forall_cons in Ha as [-> Ha]. apply Forall_cons in Hb as [-> Hb].
    f_equal. apply IH; [done|done|]. by apply Permutation_cons_inv in Hp.
Qed.

Lemma filter_eq_perm (q : Qc) (l1 l2 : list Qc) :
  l1 ≡ₚ l2 -> filter (fun z => z = q) l1 = filter (fun z => z = q) l2.
Proof.
  intros Hp. apply (all_eq_perm q).
  - apply Forall_forall. intros x Hx%list_elem_of_filter. by destruct Hx.
  - apply Forall_forall. intros x Hx%list_elem_of_filter. by destruct Hx.
  - by rewrite Hp.
Qed.

(** Sorting finite values with [(a, b) => a - b] gives their ascending
    arrangement. *)
Lemma js_sort_asc (qs s : list Qc) :
  s ≡ₚ qs -> StronglySorted Qcle s -> js_sort num_sub (map Fin qs) = map Fin s.
Proof.
  intros Hp Hs. rewrite (js_sort_map asc_q num_sub Fin) by reflexivity. f_equal.
  symmetry. apply (js_sort_unique (fun x => x) asc_q); [reflexivity|done|].
  intros q. by apply filter_eq_perm.
Qed.

Lemma at_or_nan_map_Fin (s : list Qc) (i : nat) :
  (i < length s)%nat -> at_or_nan (map Fin s) i = Fin (nth i s 0%Qc).
Proof.
  revert i. induction s as [|x s IH]; intros [|i] Hi; simpl in *; try lia; [done|].
  apply IH. lia.
Qed.

(** C15: [calculateMedian] of a non-empty list of numbers is their median:
    the central value of the ascending arrangement, or the mean of its two
    central values when the count is even. *)
Theorem calculate_median_spec (qs s : list Qc) :
  qs <> [] -> s ≡ₚ qs -> StronglySorted Qcle s ->
  calculate_median (map Fin qs) = Fin (median_of_sorted s).
Proof.
  intros Hne Hp Hs. unfold calculate_median, median_of_sorted.
  assert (Hlen : length s = length qs) by (by apply Permutation_length).
  assert (Hpos : (0 < length s)%nat) by (destruct qs; [done|rewrite Hlen; simpl; lia]).
  rewrite length_map, decide_False by (rewrite <-Hlen; lia).
  rewrite (js_sort_asc qs s Hp Hs), length_map.
  assert (Hhalf : (length s / 2 < length s)%nat) by (apply Nat.div_lt; lia).
  destruct (Nat.even (length s)) eqn:Hev.
  - assert (Hge2 : (2 <= length s)%nat).
    { destruct s as [|x [|y s]]; simpl in *; [lia|discriminate|lia]. }
    assert (Hone : (1 <= length s / 2)%nat) by (apply (Nat.div_le_lower_bound _ 2); lia).
    rewrite !at_or_nan_map_Fin by lia. rewrite num_add_Fin, num_div_Fin_nz; [done|].
    intros Hq. change 0%Qc with (qz 0) in Hq. by apply qz_inj in Hq.
  - by apply at_or_nan_map_Fin.
Qed.

(** ** The three-tier result *)

(** The fulfillment time of a record in days, when both dates parse. *)
Definition fulfillment_q (tz : Z) (r : Sale) : Qc :=
  match date_of_field tz (Ship_Date r), date_of_field tz (Order_Date r) with
  | Some s, Some o => (qz (s - o) / qz (1000 * 60 * 60 * 24))%Qc
  | _, _ => 0%Qc
  end.

Definition mean_q (l : list Qc) : Qc := (foldr Qcplus 0 l / qz (Z.of_nat (length l)))%Qc.

Definition valid_records (tz : Z) (data : list Sale) : list Sale :=
  filter (fun r => has_valid_dates tz r = true) data.

Lemma fulfillment_days_q tz r :
  has_valid_dates tz r = true -> fulfillment_days tz r = Fin (fulfillment_q tz r).
Proof.
  unfold has_valid_dates, fulfillment_days, fulfillment_q. intros Hv.
  apply andb_true_iff in Hv as [Ho Hs]. apply bool_decide_eq_true in Ho, Hs.
  destruct Ho as [o ->], Hs as [s ->]. apply num_div_Fin_nz.
  intros Hq. change 0%Qc with (qz 0) in Hq. by apply qz_inj in Hq.
Qed.

Lemma fold_num_add_map_Fin_from (l : list Qc) (a : Qc) :
  fold_left num_add (map Fin l) (Fin a) = Fin (a + foldr Qcplus 0 l)%Qc.
Proof.
  revert a. induction l as [|x l IH]; intros a; simpl; [by rewrite Qcplus_0_r|].
  rewrite IH. f_equal. ring.
Qed.

Lemma fold_num_add_map_Fin (l : list Qc) :
  fold_left num_add (map Fin l) num_zero = Fin (foldr Qcplus 0 l)%Qc.
Proof. unfold num_zero. by rewrite fold_num_add_map_Fin_from, Qcplus_0_l. Qed.

Lemma num_gt_Fin_zero (a : Qc) : num_gt (Fin a) num_zero = bool_decide (0 < a)%Qc.
Proof. reflexivity. Qed.

(** C13: [calculateAverageFulfillmentTime] returns the median of the
    fulfillment times of the records whose two dates parse when it is
    positive, else their mean when that is positive, else [null]; with no
    such record it returns [null]. *)
Theorem average_fulfillment_policy (tz : Z) (data : list Sale) (s : list Qc) :
  let times := map (fulfillment_q tz) (valid_records tz data) in
  s ≡ₚ times -> StronglySorted Qcle s ->
  calculate_average_fulfillment_time tz data =
  if decide (times = []) then None
  else if bool_decide (0 < median_of_sorted s)%Qc then Some (Fin (median_of_sorted s))
  else if bool_decide (0 < mean_q times)%Qc then Some (Fin (mean_q times))
  else None.
Proof.
  intros times Hp Hs. unfold calculate_average_fulfillment_time.
  fold (valid_records tz data). subst times.
  destruct (decide (map (fulfillment_q tz) (valid_records tz data) = [])) as [Hn|Hn].
  { apply map_eq_nil in Hn. by rewrite Hn. }
  rewrite decide_False by (intros Hl; apply Hn; by apply nil_length_inv in Hl as ->).
  assert (Hmap : map (fulfillment_days tz) (valid_records tz data)
                 = map Fin (map (fulfillment_q tz) (valid_records tz data))).
  { rewrite map_map. apply map_ext_in. intros r Hr%list_elem_of_In.
    apply list_elem_of_filter in Hr as [Hv _]. by apply fulfillment_days_q. }
  rewrite Hmap, (calculate_median_spec _ s Hn Hp Hs), num_gt_Fin_zero.
  case_bool_decide; [done|].
  rewrite length_map, fold_num_add_map_Fin. unfold num_of_nat.
  rewrite num_div_Fin_nz.
  - rewrite num_gt_Fin_zero. unfold mean_q. by rewrite length_map.
  - intros Hq. change 0%Qc with (qz 0) in Hq. apply qz_inj in Hq.
    apply Hn. destruct (valid_records tz data); [done|simpl in Hq; lia].
Qed.

Lemma calculate_median_spec_witness :
  calculate_median (map Fin [qz 3; qz 1; qz 4; qz 2]) = Fin (median_of_sorted [qz 1; qz 2; qz 3; qz 4]).
Proof.
  apply calculate_median_spec.
  - discriminate.
  - apply (bool_decide_unpack _). vm_compute. reflexivity.
  - repeat constructor; vm_compute; intros Hc; discriminate Hc.
Defined.

Lemma average_fulfillment_policy_witness :
  calculate_average_fulfillment_time 0 [rec_a; rec_b] = Some (Fin (median_of_sorted [qz 5])).
Proof.
  rewrite (average_fulfillment_policy 0 [rec_a; rec_b] [qz 5]).
  - vm_compute. reflexivity.
  - apply (bool_decide_unpack _). vm_compute. reflexivity.
  - repeat constructor.
Defined.
