(* ===== verification/ChartConfig.v ===== *)
(** * ChartConfig: the chart configurations of [DashboardComponent]

    What [renderCharts] passes to [new Chart(ctx, {type, data, options})]
    (dashboard.component.ts, lines 190-367): the chart type, the data
    (labels and datasets with their values and colours) and the options
    (the scales and the tooltip label callback).  The callbacks of the
    options are functions of the source; each is a constructor here,
    interpreted by [run_label] and [run_tick], so that configurations are
    data that can be compared and computed.  [month_tick_bucket] shows
    that the tick callback of the time axis names the half-year of a
    trend point. *)

From Stdlib Require Import Ascii.
From stdpp Require Import pretty.
From S2P Require Import Prelude JsNumber JsValue JsDate Calendar Locale Kpi Trend.

Local Open Scope string_scope.
Local Open Scope list_scope.

(** ** Chart configurations *)

Inductive chart_type := Line | Bar | Pie | Doughnut.

#[export] Instance chart_type_eq_dec : EqDecision chart_type.
Proof. solve_decision. Defined.

(** A dataset's [data]: the values of an object, or the trend's points. *)
Inductive series :=
| Values (vs : list jsval)
| Points (ps : list point).

(** A colour option: absent, one colour, or one colour per element. *)
Inductive paint :=
| Unset
| One (c : jsval)
| Each (cs : list jsval).

Record dataset := mkDataset {
  ds_label : string;
  ds_data : series;
  ds_background : paint;
  ds_border : paint
}.

Record chart_data := mkChartData {
  cd_labels : option (list string);
  cd_datasets : list dataset
}.

(** ** Exceptions and the console *)

(** The errors the rendering code can meet: the canvas already holds a
    chart; a controller or scale that is not registered with Chart.js; a
    time scale without a date adapter; a [TypeError] of JavaScript. *)
Inductive exn :=
| CanvasInUse (canvas : string)
| NotRegistered
| NoDateAdapter
| TypeError (msg : string).

Inductive log_entry :=
| ConsoleError (msg : string)
| Uncaught (e : exn).

(** ** Chart options *)

(** What a tooltip callback receives as [tooltipItem.raw]: the element of
    the dataset's [data] the tooltip shows. *)
Inductive raw_item :=
| RawPoint (p : point)
| RawValue (v : jsval).

(** The value [raw.toLocaleString(...)] is called on: [tooltipItem.raw]
    itself, or [tooltipItem.raw.y].  A point is an object: its own
    [toLocaleString] is [Object.prototype]'s, printing [[object Object]];
    a primitive has no [y] ([undefined]), and [undefined] or [null] has no
    property to read ([None]). *)
Definition raw_self (r : raw_item) : option jsval :=
  match r with RawPoint _ => Some (JObject ObjectPrototype) | RawValue v => Some v end.

Definition raw_y (r : raw_item) : option jsval :=
  match r with
  | RawPoint p => Some (py p)
  | RawValue (JUndefined | JNull) => None
  | RawValue _ => Some JUndefined
  end.

(** [`${prefix}${v.toLocaleString('en-US', { style: 'currency', currency: 'USD' })}`] *)
Definition currency_label (prefix : string) (v : option jsval) : exn + list part :=
  match v ≫= to_locale_string with
  | Some ps => inr (PLit prefix :: ps)
  | None => inl (TypeError "Cannot read properties of undefined or null (reading 'toLocaleString')")
  end.

(** The [plugins.tooltip.callbacks.label] functions of the options, named
    by what they print: [tooltipItem.raw.y] (the trend chart) or
    [tooltipItem.raw] after a prefix. *)
Inductive label_callback :=
| PointYLabel (prefix : string)
| RawLabel (prefix : string).

#[export] Instance label_callback_eq_dec : EqDecision label_callback.
Proof. solve_decision. Defined.

Definition run_label (cb : label_callback) (item : raw_item) : exn + list part :=
  match cb with
  | PointYLabel prefix => currency_label prefix (raw_y item)
  | RawLabel prefix => currency_label prefix (raw_self item)
  end.

(** The [ticks.callback] of the time axis. *)
Inductive tick_callback := MonthYearTick.

#[export] Instance tick_callback_eq_dec : EqDecision tick_callback.
Proof. solve_decision. Defined.

(** [function(value) { return new Date(value).toLocaleDateString('en-US',
    { month: 'short', year: 'numeric' }); }], in the time zone [tz] of the
    browser. *)
Definition month_tick (tz : Z) (value : Z) : string := month_year_short tz (time_clip value).

Definition run_tick (tz : Z) (cb : tick_callback) (value : Z) : string :=
  match cb with MonthYearTick => month_tick tz value end.

(** The type of a scale: the one Chart.js picks for the chart type, or
    [type: 'time'] with its [time.unit]. *)
Inductive scale_kind :=
| DefaultScale
| TimeScale (unit : string).

#[export] Instance scale_kind_eq_dec : EqDecision scale_kind.
Proof. solve_decision. Defined.

Record axis := mkAxis {
  ax_kind : scale_kind;
  ax_ticks : option tick_callback;
  ax_begin_at_zero : bool;
  ax_stacked : bool
}.

Record chart_options := mkOptions {
  opt_responsive : option bool;
  opt_x : option axis;
  opt_y : option axis;
  opt_label : label_callback
}.

Record chart := mkChart {
  ch_canvas : string;
  ch_type : chart_type;
  ch_data : chart_data;
  ch_options : chart_options
}.

(** ** Tooltips *)

(** [tooltipItem.raw]: the element [i] of a dataset's [data]. *)
Definition series_item (s : series) (i : nat) : option raw_item :=
  match s with
  | Values vs => RawValue <$> vs !! i
  | Points ps => RawPoint <$> ps !! i
  end.

(** The label Chart.js shows over the element [i] of the dataset [d] of a
    chart: the label callback of its options applied to that element. *)
Definition tooltip_label (c : chart) (d i : nat) : option (exn + list part) :=
  ds ← cd_datasets (ch_data c) !! d; item ← series_item (ds_data ds) i;
  Some (run_label (opt_label (ch_options c)) item).

(** ** The labels of the time axis *)

(** The tick at the first day of half-year [k] names its month and year. *)
Lemma month_tick_half_year (tz k : Z) :
  time_clip (half_year_day k * ms_per_day - tz)%Z = Some (half_year_day k * ms_per_day - tz)%Z ->
  month_tick tz (half_year_day k * ms_per_day - tz)%Z =
  nth (if Z.even k then 0 else 6) short_month_names "" +:+ " " +:+
  pretty (if (1 <=? k / 2)%Z then k / 2 else 1 - k / 2)%Z.
Proof.
  intros Hclip. unfold month_tick. rewrite Hclip. unfold month_year_short, month_year_in, local_ymd.
  replace ((half_year_day k * ms_per_day - tz + tz) / ms_per_day)%Z with (half_year_day k)
    by (rewrite Z.sub_add, Z.div_mul; [done|unfold ms_per_day; lia]).
  rewrite civil_from_days_half_year. by destruct (Z.even k).
Qed.

(** C31: the time axis of the trend chart labels each point with its
    half-year: for an order date [t] whose local year is outside 0-99,
    the tick callback prints the start of [t]'s bucket as [Jan] or [Jul]
    (for [t] in January-June or July-December) and the local year of
    [t]. *)
Theorem month_tick_bucket (tz t s : Z) :
  four_digit_year tz t -> half_year_start_of tz t = Some s ->
  month_tick tz s = (if (get_month tz t <? 6)%Z then "Jan" else "Jul") +:+ " " +:+
    pretty (if (1 <=? get_full_year tz t)%Z then get_full_year tz t else 1 - get_full_year tz t)%Z.
Proof.
  intros Hy Hs. rewrite (half_year_start_of_spec tz t Hy) in Hs. apply time_clip_Some in Hs as [-> Hclip].
  rewrite month_tick_half_year by done. rewrite half_year_of_div2.
  unfold get_month, get_full_year, local_ymd.
  destruct (civil_from_days ((t + tz) / ms_per_day)) as [[y m] d]. unfold half_year_of. simpl.
  destruct (Z.leb_spec m 6); [rewrite (proj2 (Z.ltb_lt (m - 1) 6)) by lia|rewrite (proj2 (Z.ltb_ge (m - 1) 6)) by lia];
    rewrite ?Z.add_0_r, ?Z.even_add, Z.even_mul; reflexivity.
Qed.

Lemma month_tick_bucket_witness :
  four_digit_year 0 1686787200000 /\ half_year_start_of 0 1686787200000 = Some 1672531200000%Z /\
  month_tick 0 1672531200000 = (if (get_month 0 1686787200000 <? 6)%Z then "Jan" else "Jul") +:+ " " +:+
    pretty (if (1 <=? get_full_year 0 1686787200000)%Z then get_full_year 0 1686787200000
            else 1 - get_full_year 0 1686787200000)%Z.
Proof.
  assert (Hy : four_digit_year 0 1686787200000)
    by (unfold four_digit_year; replace (get_full_year 0 1686787200000) with 2023%Z by (vm_compute; reflexivity); lia).
  assert (Hs : half_year_start_of 0 1686787200000 = Some 1672531200000%Z) by (vm_compute; reflexivity).
  split_and!; [exact Hy|exact Hs|]. exact (month_tick_bucket 0 _ _ Hy Hs).
Defined.

(** The label of that tick. *)
Example month_tick_jan_2023 : month_tick 0 1672531200000 = "Jan 2023".
Proof. vm_compute. reflexivity. Qed.
