(* ===== verification/Browser.v ===== *)
(** * Browser: the page, Chart.js and the timers as a state monad

    The effects of the component's rendering code are on the browser: the
    canvases of the page, the Chart.js charts attached to them, the timer
    queue of [setTimeout], the values [Math.random] returns and the
    console.  They are the state of a small state-and-exception monad [M]:
    an exception leaves the effects done before it in place and skips the
    rest, as a JavaScript exception does.  Chart.js 3 and later refuses to
    attach a second chart to a canvas that holds one: [new Chart] throws
    "Canvas is already in use".  [charts_ok] (every chart on a canvas of
    the page, no canvas with two), [keeps P] (the registry stays well
    formed and every chart satisfies [P]) and [queues_nothing] are the
    invariants the rendering code keeps, with their bind lemmas for the
    hint database. *)

From Stdlib Require Import Qround.
From S2P Require Import Prelude JsNumber JsValue ChartConfig.

Local Open Scope string_scope.
Local Open Scope list_scope.

(** ** The browser and the monad *)

(** The callbacks [setTimeout] has queued. *)
Inductive task := MonthlyChartTask.

Record browser := mkBrowser {
  canvases : list string;
  charts : list chart;
  timers : list task;
  random : nat -> Qc;
  draws : nat;
  console : list log_entry;
  registered : bool;
  date_adapter : bool
}.

Definition M (A : Type) : Type := browser -> browser * (exn + A).

Definition ret {A} (a : A) : M A := fun u => (u, inr a).
Definition throw {A} (e : exn) : M A := fun u => (u, inl e).
Definition bind {A B} (m : M A) (f : A -> M B) : M B :=
  fun u => match m u with
           | (u', inl e) => (u', inl e)
           | (u', inr a) => f a u'
           end.

Declare Scope browser_scope.
Delimit Scope browser_scope with browser.
Notation "x <- m ;; k" := (bind m (fun x => k))
  (at level 100, m at next level, right associativity) : browser_scope.
Notation "m ;; k" := (bind m (fun _ : unit => k))
  (at level 100, right associativity) : browser_scope.
Local Open Scope browser_scope.

Lemma bind_ret_l {A B} (a : A) (f : A -> M B) : bind (ret a) f = f a.
Proof. reflexivity. Qed.

Lemma bind_ret_r {A} (m : M A) u : bind m ret u = m u.
Proof. unfold bind, ret. by destruct (m u) as [u' [e|a]]. Qed.

Lemma bind_assoc {A B C} (m : M A) (f : A -> M B) (g : B -> M C) u :
  bind (bind m f) g u = bind m (fun a => bind (f a) g) u.
Proof. unfold bind. by destruct (m u) as [u' [e|a]]. Qed.

Lemma bind_throw {A B} (e : exn) (f : A -> M B) : bind (throw e) f = throw e.
Proof. reflexivity. Qed.

(** The browser operations the component uses. *)
Definition with_charts (cs : list chart) (u : browser) : browser :=
  mkBrowser (canvases u) cs (timers u) (random u) (draws u) (console u) (registered u) (date_adapter u).
Definition with_timers (ts : list task) (u : browser) : browser :=
  mkBrowser (canvases u) (charts u) ts (random u) (draws u) (console u) (registered u) (date_adapter u).
Definition with_draws (n : nat) (u : browser) : browser :=
  mkBrowser (canvases u) (charts u) (timers u) (random u) n (console u) (registered u) (date_adapter u).
Definition log (e : log_entry) (u : browser) : browser :=
  mkBrowser (canvases u) (charts u) (timers u) (random u) (draws u) (console u ++ [e]) (registered u) (date_adapter u).
Definition with_registry (reg adapter : bool) (u : browser) : browser :=
  mkBrowser (canvases u) (charts u) (timers u) (random u) (draws u) (console u) reg adapter.

(** [Chart.register(...registerables)]: the controllers, elements, scales
    and plugins of Chart.js. *)
Definition chart_register : M unit :=
  fun u => (with_registry true (date_adapter u) u, inr tt).

(** [import 'chartjs-adapter-date-fns']: the module overrides the date
    adapter of Chart.js when it is evaluated. *)
Definition import_date_adapter : M unit :=
  fun u => (with_registry (registered u) true u, inr tt).

(** The options ask for a time scale. *)
Definition uses_time (opts : chart_options) : bool :=
  match opt_x opts with Some (mkAxis (TimeScale _) _ _ _) => true | _ => false end.

(** What building the chart's scales and controllers throws: nothing is
    registered, or a time scale finds no date adapter. *)
Definition chart_error (u : browser) (opts : chart_options) : option exn :=
  if negb (registered u) then Some NotRegistered
  else if uses_time opts && negb (date_adapter u) then Some NoDateAdapter
  else None.

(** [new Chart(ctx, {type, data, options})]: a canvas in use throws at
    once; otherwise the chart is recorded on its canvas before its scales
    and controllers are built, so a chart whose construction throws still
    holds the canvas. *)
Definition new_chart (id : string) (ty : chart_type) (data : chart_data) (opts : chart_options) : M unit :=
  fun u => if decide (id ∈ map ch_canvas (charts u)) then (u, inl (CanvasInUse id))
           else (with_charts (charts u ++ [mkChart id ty data opts]) u,
                 match chart_error u opts with Some e => inl e | None => inr tt end).

(** The page has run the top level of the component's module. *)
Definition loaded (u : browser) : Prop := registered u = true /\ date_adapter u = true.

(** [setTimeout(callback)] *)
Definition set_timeout (t : task) : M unit :=
  fun u => (with_timers (timers u ++ [t]) u, inr tt).

(** [Math.floor(Math.random() * 256)] *)
Definition random_byte : M Z :=
  fun u => (with_draws (S (draws u)) u, inr (Qfloor (this (random u (draws u)) * inject_Z 256))).

Lemma with_charts_charts cs u : charts (with_charts cs u) = cs.
Proof. done. Qed.
Lemma with_charts_canvases cs u : canvases (with_charts cs u) = canvases u.
Proof. done. Qed.
Lemma with_charts_twice cs cs' u : with_charts cs' (with_charts cs u) = with_charts cs' u.
Proof. done. Qed.
Lemma with_charts_loaded cs u : loaded (with_charts cs u) <-> loaded u.
Proof. done. Qed.
Lemma with_timers_loaded ts u : loaded (with_timers ts u) <-> loaded u.
Proof. done. Qed.
#[export] Hint Rewrite with_charts_charts with_charts_canvases with_charts_twice
  with_charts_loaded with_timers_loaded : kpi_rw.

(** On a loaded page, a chart on a free canvas is built without error. *)
Lemma new_chart_fresh id ty data opts u :
  loaded u -> id ∉ map ch_canvas (charts u) ->
  new_chart id ty data opts u = (with_charts (charts u ++ [mkChart id ty data opts]) u, inr tt).
Proof.
  intros [Hr Ha] Hid. unfold new_chart, chart_error. rewrite decide_False, Hr, Ha by done.
  by rewrite andb_false_r.
Qed.

(** ** The chart registry *)

(** Every chart is on a canvas of the page, and no canvas holds two. *)
Definition charts_ok (b : browser) : Prop :=
  NoDup (map ch_canvas (charts b)) /\ Forall (fun c => ch_canvas c ∈ canvases b) (charts b).

(** A computation keeps the canvases [C] of the page, the registry well
    formed, and the property [P] of every chart. *)
Definition keeps {A} (P : chart -> Prop) (C : list string) (m : M A) : Prop :=
  forall b, canvases b = C -> charts_ok b -> Forall P (charts b) ->
  canvases (fst (m b)) = C /\ charts_ok (fst (m b)) /\ Forall P (charts (fst (m b))).

Lemma keeps_ret {A} P C (a : A) : keeps P C (ret a).
Proof. by intros b. Qed.

Lemma keeps_throw {A} P C e : keeps (A:=A) P C (throw e).
Proof. by intros b. Qed.

Lemma keeps_bind {A B} P C (m : M A) (f : A -> M B) :
  keeps P C m -> (forall a, keeps P C (f a)) -> keeps P C (bind m f).
Proof.
  intros Hm Hf b Hc Hok HP. unfold bind. destruct (Hm b Hc Hok HP) as (Hc' & Hok' & HP').
  destruct (m b) as [b' [e|a]]; [done|]. by apply Hf.
Qed.

Lemma keeps_new_chart P C id ty data opts :
  id ∈ C -> P (mkChart id ty data opts) -> keeps P C (new_chart id ty data opts).
Proof.
  intros Hid Hc1 b Hc [Hnd Hin] HP. unfold new_chart. case_decide as Hu; [done|]. simpl.
  split; [done|]. unfold charts_ok, with_charts. simpl. split; [split|].
  - rewrite map_app. apply NoDup_app. split_and!; [done| |apply NoDup_singleton]. set_solver.
  - apply Forall_app. split; [done|]. constructor; [simpl; congruence|constructor].
  - apply Forall_app. split; [done|]. by constructor.
Qed.

Lemma keeps_set_timeout P C t : keeps P C (set_timeout t).
Proof. by intros b. Qed.

Lemma keeps_random_byte P C : keeps P C random_byte.
Proof. by intros b. Qed.

#[export] Hint Resolve keeps_ret keeps_throw keeps_bind keeps_set_timeout keeps_random_byte : kpi.

(** ** The timer queue *)

(** A computation that queues no callback. *)
Definition queues_nothing {A} (m : M A) : Prop := forall b, timers (fst (m b)) = timers b.

Lemma queues_nothing_bind {A B} (m : M A) (f : A -> M B) :
  queues_nothing m -> (forall a, queues_nothing (f a)) -> queues_nothing (bind m f).
Proof.
  intros Hm Hf b. unfold bind. specialize (Hm b). destruct (m b) as [b' [e|a]]; [done|].
  simpl in Hm. by rewrite Hf.
Qed.

Lemma queues_nothing_ret {A} (a : A) : queues_nothing (ret a).
Proof. by intros b. Qed.
Lemma queues_nothing_throw {A} e : queues_nothing (A:=A) (throw e).
Proof. by intros b. Qed.
Lemma queues_nothing_random_byte : queues_nothing random_byte.
Proof. by intros b. Qed.
Lemma queues_nothing_new_chart id ty data opts : queues_nothing (new_chart id ty data opts).
Proof. intros b. unfold new_chart. by case_decide. Qed.

#[export] Hint Resolve queues_nothing_bind queues_nothing_ret queues_nothing_throw
  queues_nothing_random_byte queues_nothing_new_chart : kpi.
