(* ===== verification/Charts.v ===== *)
(** * Charts: [renderCharts], [renderChart] and [getCategoryColor]

    The rendering half of [DashboardComponent] (dashboard.component.ts,
    lines 190-407), in the browser monad of [Browser] with the chart
    configurations of [ChartConfig].  [renderCharts] draws four charts and
    defers the monthly chart with [setTimeout]; [getCategoryColor] reads
    the colour tables through [Object.prototype] and draws random bytes
    for the other categories.  The lemmas give the first rendering on a
    fresh page, the rendering on a page whose canvases are in use, the
    datasets of the monthly chart, the tooltips of the charts of objects,
    and the invariants [charts_ok], [queues_nothing] and [keeps] of
    [chart_spec] (each canvas gets the chart the code draws there) for
    every rendering operation. *)

From Stdlib Require Import Ascii Qround Qabs.
From stdpp Require Import pretty.
From S2P Require Import Prelude JsNumber JsValue JsArray JsObject JsDate Locale SalesData Fixtures Kpi KpiSpec Ranking KpiTypes ChartConfig Browser.

Local Open Scope string_scope.
Local Open Scope list_scope.
Local Open Scope browser_scope.

(** ** [getCategoryColor] *)

(** A string value. *)
Definition str (s : string) : jsval := JString [PLit s].

(** [String.prototype.replace(pattern, replacement)] with a string
    pattern: the first occurrence is replaced. *)
Fixpoint replace_first (pat rep s : string) : string :=
  if String.prefix pat s then rep +:+ String.substring (String.length pat) (String.length s) s
  else match s with
       | EmptyString => EmptyString
       | String c s' => String c (replace_first pat rep s')
       end.

(** The template literal [rgba(${r}, ${g}, ${b}, ${alpha})]. *)
Definition rgba (r g b : Z) (alpha : string) : string :=
  "rgba(" +:+ pretty r +:+ ", " +:+ pretty g +:+ ", " +:+ pretty b +:+ ", " +:+ alpha +:+ ")".

Definition colors : list (string * jsval) :=
  [("Category1", str "rgba(255, 99, 132, 0.2)"); ("Category2", str "rgba(54, 162, 235, 0.2)");
   ("Category3", str "rgba(255, 206, 86, 0.2)"); ("Category4", str "rgba(75, 192, 192, 0.2)");
   ("Category5", str "rgba(153, 102, 255, 0.2)"); ("Category6", str "rgba(255, 159, 64, 0.2)");
   ("Category7", str "rgba(199, 199, 199, 0.2)"); ("Category8", str "rgba(83, 102, 255, 0.2)")].

Definition border_colors : list (string * jsval) :=
  [("Category1", str "rgba(255, 99, 132, 1)"); ("Category2", str "rgba(54, 162, 235, 1)");
   ("Category3", str "rgba(255, 206, 86, 1)"); ("Category4", str "rgba(75, 192, 192, 1)");
   ("Category5", str "rgba(153, 102, 255, 1)"); ("Category6", str "rgba(255, 159, 64, 1)");
   ("Category7", str "rgba(199, 199, 199, 1)"); ("Category8", str "rgba(83, 102, 255, 1)")].

(** [getCategoryColor(category, border)]: [colors[category]] is read
    through [Object.prototype]; a category outside the table draws three
    random bytes; [${border ? 1 : 0.2}] renders the numbers [1] and [0.2]. *)
Definition get_category_color (category : string) (border : bool) : M jsval :=
  if negb (truthy (js_get colors category)) then
    r <- random_byte ;; g <- random_byte ;; b <- random_byte ;;
    let random_color := rgba r g b (if border then "1" else "0.2") in
    ret (str (if border then replace_first "0.2" "1" random_color else random_color))
  else
    ret (if border then js_or (js_get border_colors category) (str "rgba(0,0,0,1)")
         else js_or (js_get colors category) (str "rgba(0,0,0,0.2)")).

(** ** [renderChart] and [renderCharts] *)

(** [renderChart(chartId, type, data, options)]: nothing when the page has
    no element [chartId]. *)
Definition render_chart (chart_id : string) (ty : chart_type) (data : chart_data) (options : chart_options) : M unit :=
  fun u => if decide (chart_id ∈ canvases u) then new_chart chart_id ty data options u else (u, inr tt).

Definition six_backgrounds : list jsval :=
  [str "rgba(255, 99, 132, 0.2)"; str "rgba(54, 162, 235, 0.2)"; str "rgba(255, 206, 86, 0.2)";
   str "rgba(75, 192, 192, 0.2)"; str "rgba(153, 102, 255, 0.2)"; str "rgba(255, 159, 64, 0.2)"].

Definition six_borders : list jsval :=
  [str "rgba(255, 99, 132, 1)"; str "rgba(54, 162, 235, 1)"; str "rgba(255, 206, 86, 1)";
   str "rgba(75, 192, 192, 1)"; str "rgba(153, 102, 255, 1)"; str "rgba(255, 159, 64, 1)"].

Definition sales_trend_data (k : kpis) : chart_data :=
  mkChartData None [mkDataset "Sales Trend" (Points (salesTrend k)) Unset (One (str "rgba(75, 192, 192, 1)"))].

Definition sales_by_region_data (k : kpis) : chart_data :=
  mkChartData (Some (object_keys (salesByRegion k)))
    [mkDataset "Sales by Region" (Values (object_values (salesByRegion k)))
       (One (str "rgba(153, 102, 255, 0.2)")) (One (str "rgba(153, 102, 255, 1)"))].

Definition top_categories_data (k : kpis) : chart_data :=
  mkChartData (Some (object_keys (topCategories k)))
    [mkDataset "Top Categories by Sales" (Values (object_values (topCategories k)))
       (Each six_backgrounds) (Each six_borders)].

Definition profit_distribution_data (k : kpis) : chart_data :=
  mkChartData (Some (object_keys (profitDistribution k)))
    [mkDataset "Profit Distribution by Country" (Values (object_values (profitDistribution k)))
       (Each six_backgrounds) (Each six_borders)].

Definition y_from_zero : axis := mkAxis DefaultScale None true false.

Definition sales_trend_options : chart_options :=
  mkOptions None (Some (mkAxis (TimeScale "month") (Some MonthYearTick) false false)) (Some y_from_zero)
    (PointYLabel "Sales: ").

Definition sales_by_region_options : chart_options :=
  mkOptions None None (Some y_from_zero) (RawLabel "Sales: ").

Definition top_categories_options : chart_options :=
  mkOptions (Some true) None None (RawLabel "Sales: ").

Definition profit_distribution_options : chart_options :=
  mkOptions (Some true) None None (RawLabel "Profit: ").

(** [renderCharts()]: four charts, then the monthly chart deferred with
    [setTimeout] when [monthlyRevenue] has a key. *)
Definition render_charts (k : kpis) : M unit :=
  render_chart "salesTrendChart" Line (sales_trend_data k) sales_trend_options ;;
  render_chart "salesByRegionChart" Bar (sales_by_region_data k) sales_by_region_options ;;
  render_chart "topCategoriesChart" Pie (top_categories_data k) top_categories_options ;;
  render_chart "profitDistributionChart" Doughnut (profit_distribution_data k) profit_distribution_options ;;
  if bool_decide (0 < length (object_keys (monthlyRevenue k)))%nat
  then set_timeout MonthlyChartTask else ret tt.

(** ** The deferred monthly chart *)

(** [this.monthlyRevenue[month]] for a key of [Object.keys]: always an
    own property. *)
Definition month_of (mr : list (string * list (string * jsval))) (month : string) : list (string * jsval) :=
  default [] (own_get mr month).

(** [Object.keys(this.monthlyRevenue[Object.keys(this.monthlyRevenue)[0]])]:
    with no month, the key is [undefined], read as the property
    ["undefined"], and [Object.keys(undefined)] throws a [TypeError]; the
    built-ins of [Object.prototype] have no enumerable own key. *)
Definition first_month_categories (mr : list (string * list (string * jsval))) : M (list string) :=
  let k := match object_keys mr with k0 :: _ => k0 | [] => "undefined" end in
  match own_get mr k with
  | Some inner => ret (object_keys inner)
  | None => match proto_get k with
            | Some _ => ret []
            | None => throw (TypeError "Cannot convert undefined or null to object")
            end
  end.

(** The [.map(category => ({...}))]: for each category, its value in each
    month ([|| 0]), then its background and border colours. *)
Fixpoint monthly_datasets (mr : list (string * list (string * jsval))) (cats : list string) : M (list dataset) :=
  match cats with
  | [] => ret []
  | c :: cs =>
      bg <- get_category_color c false ;;
      bd <- get_category_color c true ;;
      rest <- monthly_datasets mr cs ;;
      ret (mkDataset c (Values (map (fun m => js_or (js_get (month_of mr m) c) (JNumber num_zero)) (object_keys mr)))
                     (One bg) (One bd) :: rest)
  end.

(** The options of the monthly chart: both axes stacked. *)
Definition monthly_options : chart_options :=
  mkOptions None (Some (mkAxis DefaultScale None false true)) (Some (mkAxis DefaultScale None true true))
    (RawLabel "Sales: ").

(** The [setTimeout] callback, reading [this.monthlyRevenue] when it runs. *)
Definition monthly_chart_task (k : kpis) : M unit :=
  fun u =>
    if decide ("monthlyRevenueBreakdownChart" ∈ canvases u) then
      (cats <- first_month_categories (monthlyRevenue k) ;;
       ds <- monthly_datasets (monthlyRevenue k) cats ;;
       new_chart "monthlyRevenueBreakdownChart" Bar (mkChartData (Some (object_keys (monthlyRevenue k))) ds)
         monthly_options) u
    else (log (ConsoleError "Canvas element for monthlyRevenueChart not found.") u, inr tt).

(** What the component puts on each canvas: the chart type and options
    [renderCharts] or the deferred callback passes for that element id,
    with data showing the matching KPI field of some KPI record. *)
Definition chart_spec (c : chart) : Prop :=
  (ch_canvas c = "salesTrendChart" /\ ch_type c = Line /\ ch_options c = sales_trend_options /\
     exists k, ch_data c = sales_trend_data k) \/
  (ch_canvas c = "salesByRegionChart" /\ ch_type c = Bar /\ ch_options c = sales_by_region_options /\
     exists k, ch_data c = sales_by_region_data k) \/
  (ch_canvas c = "topCategoriesChart" /\ ch_type c = Pie /\ ch_options c = top_categories_options /\
     exists k, ch_data c = top_categories_data k) \/
  (ch_canvas c = "profitDistributionChart" /\ ch_type c = Doughnut /\
     ch_options c = profit_distribution_options /\ exists k, ch_data c = profit_distribution_data k) \/
  (ch_canvas c = "monthlyRevenueBreakdownChart" /\ ch_type c = Bar /\ ch_options c = monthly_options /\
     exists k ds, ch_data c = mkChartData (Some (object_keys (monthlyRevenue k))) ds).

(** ** Rendering lemmas *)

Definition chart_if (u : browser) (id : string) (ty : chart_type) (data : chart_data) (opts : chart_options) : list chart :=
  if decide (id ∈ canvases u) then [mkChart id ty data opts] else [].

Lemma render_chart_fresh id ty data opts u :
  loaded u -> id ∉ map ch_canvas (charts u) ->
  render_chart id ty data opts u = (with_charts (charts u ++ chart_if u id ty data opts) u, inr tt).
Proof.
  intros Hl Hid. unfold render_chart, chart_if. case_decide; [|by rewrite app_nil_r; destruct u].
  by apply new_chart_fresh.
Qed.

Lemma render_chart_in_use id ty data opts u :
  id ∈ canvases u -> id ∈ map ch_canvas (charts u) ->
  render_chart id ty data opts u = (u, inl (CanvasInUse id)).
Proof. intros Hc Hu. unfold render_chart, new_chart. by rewrite !decide_True. Qed.

Lemma chart_if_canvases u id ty data opts : Forall (fun c => ch_canvas c = id) (chart_if u id ty data opts).
Proof. unfold chart_if. case_decide; repeat constructor. Qed.

Lemma fresh_after (base cs : list chart) id :
  id ∉ map ch_canvas base -> Forall (fun c => ch_canvas c <> id) cs ->
  id ∉ map ch_canvas (base ++ cs).
Proof.
  intros Hu Hcs. rewrite map_app, elem_of_app. intros [H|H]; [done|].
  apply list_elem_of_fmap in H as (c & -> & Hc). eapply Forall_forall in Hcs; [|apply Hc]. done.
Qed.

(** The four charts [renderCharts] creates, on the canvases of the page. *)
Definition first_charts (u : browser) (k : kpis) : list chart :=
  chart_if u "salesTrendChart" Line (sales_trend_data k) sales_trend_options ++
  chart_if u "salesByRegionChart" Bar (sales_by_region_data k) sales_by_region_options ++
  chart_if u "topCategoriesChart" Pie (top_categories_data k) top_categories_options ++
  chart_if u "profitDistributionChart" Doughnut (profit_distribution_data k) profit_distribution_options.

Definition chart_ids : list string :=
  ["salesTrendChart"; "salesByRegionChart"; "topCategoriesChart"; "profitDistributionChart"].

Lemma fresh_after_chart_if u cs id id' ty data opts :
  id ∉ map ch_canvas (charts u) -> Forall (fun c => ch_canvas c <> id) cs -> id' <> id ->
  id ∉ map ch_canvas (charts u ++ cs ++ chart_if u id' ty data opts).
Proof.
  intros Hu Hcs Hne. rewrite app_assoc. apply fresh_after; [by apply fresh_after|].
  eapply Forall_impl; [apply chart_if_canvases|]. simpl. congruence.
Qed.

Lemma chart_if_with_charts cs u : chart_if (with_charts cs u) = chart_if u.
Proof. done. Qed.
#[export] Hint Rewrite chart_if_with_charts : kpi_rw.

Lemma chart_if_not_in u id id' ty data opts : id' <> id -> id ∉ map ch_canvas (chart_if u id' ty data opts).
Proof. unfold chart_if. case_decide; set_solver. Qed.

(** A canvas id is not among the charts of a list built from the page's
    charts and [chart_if]s on other ids. *)
Ltac fresh_chart :=
  autorewrite with kpi_rw; rewrite ?map_app, ?elem_of_app;
  repeat match goal with
  | |- ~ (?A \/ ?B) => cut (~ A /\ ~ B); [tauto|split]
  | |- ~ (_ ∈ map ch_canvas (chart_if _ _ _ _ _)) => apply chart_if_not_in; discriminate
  | |- _ => assumption
  end.

(** The first rendering: on a page where none of the four canvases holds
    a chart, [renderCharts] attaches one chart to each canvas the page
    has, in source order, and queues the monthly chart when there is a
    month. *)
Lemma render_charts_first (k : kpis) (u : browser) :
  loaded u -> Forall (fun id => id ∉ map ch_canvas (charts u)) chart_ids ->
  render_charts k u =
  (with_timers (timers u ++ if bool_decide (0 < length (object_keys (monthlyRevenue k)))%nat
                            then [MonthlyChartTask] else [])
     (with_charts (charts u ++ first_charts u k) u), inr tt).
Proof.
  intros Hl Hf. repeat (apply Forall_cons in Hf as [? Hf]).
  unfold render_charts, bind, first_charts.
  rewrite render_chart_fresh by fresh_chart. autorewrite with kpi_rw.
  rewrite render_chart_fresh by fresh_chart. autorewrite with kpi_rw.
  rewrite render_chart_fresh by fresh_chart. autorewrite with kpi_rw.
  rewrite render_chart_fresh by fresh_chart. autorewrite with kpi_rw.
  rewrite <-!app_assoc. case_bool_decide; [reflexivity|]. rewrite app_nil_r. by destruct u.
Qed.

(** ** Colours *)

(** No character of the string is a dot. *)
Fixpoint no_dot (s : string) : bool :=
  match s with
  | EmptyString => true
  | String c s' => negb (bool_decide (c = "."%char)) && no_dot s'
  end.

Lemma no_dot_app s1 s2 : no_dot (s1 +:+ s2) = no_dot s1 && no_dot s2.
Proof. induction s1 as [|c s1 IH]; simpl; [done|]. by rewrite IH, andb_assoc. Qed.

Lemma pretty_N_char_not_dot x : pretty_N_char x <> "."%char.
Proof. unfold pretty_N_char. repeat case_match; discriminate. Qed.

Lemma pretty_N_go_no_dot x s : no_dot s = true -> no_dot (pretty_N_go x s) = true.
Proof.
  revert s. induction (N.lt_wf_0 x) as [x _ IH]; intros s Hs.
  destruct (decide (x = 0%N)) as [->|Hx]; [by rewrite pretty_N_go_0|].
  rewrite pretty_N_go_step by lia. apply IH; [apply N.div_lt; lia|]. simpl. rewrite Hs, andb_true_r.
  by rewrite bool_decide_false by apply pretty_N_char_not_dot.
Qed.

Lemma pretty_Z_no_dot (z : Z) : no_dot (pretty z) = true.
Proof.
  destruct z as [|p|p]; unfold pretty, pretty_Z; [done| |rewrite no_dot_app];
    unfold pretty, pretty_positive, pretty, pretty_N; case_decide; try done;
    by apply pretty_N_go_no_dot.
Qed.

(** [replace('0.2', '1')] leaves a string without a dot unchanged. *)
Lemma replace_first_no_dot rep s : no_dot s = true -> replace_first "0.2" rep s = s.
Proof.
  induction s as [|c s IH]; intros Hs; [done|]. simpl in Hs. apply andb_true_iff in Hs as [Hc Hs].
  cbn [replace_first]. destruct (String.prefix "0.2" (String c s)) eqn:E.
  - exfalso. destruct s as [|c' s]; cbn [String.prefix] in E.
    + by destruct (Ascii.ascii_dec "0" c).
    + destruct (Ascii.ascii_dec "0" c); [|done]. destruct (Ascii.ascii_dec "." c'); [|done].
      subst c'. simpl in Hs. done.
  - f_equal. by apply IH.
Qed.

Lemma rgba_no_dot r g b : no_dot (rgba r g b "1") = true.
Proof. unfold rgba. by rewrite !no_dot_app, !pretty_Z_no_dot. Qed.

Lemma floor_byte (q : Qc) : (0 <= q < 1)%Qc -> (0 <= Qfloor (this q * inject_Z 256) <= 255)%Z.
Proof.
  intros [H0 H1]. unfold Qcle, Qclt in *. simpl in *.
  pose proof (Qfloor_le (this q * inject_Z 256)) as Hle.
  pose proof (Qlt_floor (this q * inject_Z 256)) as Hlt.
  set (f := Qfloor (this q * inject_Z 256)) in *.
  rewrite inject_Z_plus in Hlt. change (inject_Z 1) with 1%Q in Hlt.
  split.
  - destruct (Z.lt_ge_cases f 0) as [Hf|Hf]; [|done]. exfalso.
    assert (Hq : (inject_Z (f + 1) <= inject_Z 0)%Q) by (rewrite <-Zle_Qle; lia).
    rewrite inject_Z_plus in Hq. change (inject_Z 0) with 0%Q in Hq. change (inject_Z 1) with 1%Q in Hq.
    assert (Hp : (0 <= this q * inject_Z 256)%Q) by (apply Qmult_le_0_compat; [done|discriminate]).
    lra.
  - destruct (Z.le_gt_cases f 255) as [Hf|Hf]; [done|]. exfalso.
    assert (Hq : (inject_Z 256 <= inject_Z f)%Q) by (rewrite <-Zle_Qle; lia).
    assert (Hp : (this q * inject_Z 256 < inject_Z 256)%Q).
    { change (inject_Z 256) with (1 * inject_Z 256)%Q at 2. apply Qmult_lt_r; [reflexivity|done]. }
    lra.
Qed.

Section Colours.
Variable u : browser.
Hypothesis Hrandom : forall n, (0 <= random u n < 1)%Qc.

(** C23: a category outside the colour table draws three random bytes,
    each within [0, 255]; its colour is [rgba(r, g, b, 0.2)], or
    [rgba(r, g, b, 1)] for a border: the [replace('0.2', '1')] of the
    border branch never finds its pattern. *)
Theorem get_category_color_random (category : string) (border : bool) :
  js_get colors category = JUndefined ->
  exists r g b, (0 <= r <= 255)%Z /\ (0 <= g <= 255)%Z /\ (0 <= b <= 255)%Z /\
    get_category_color category border u =
    (with_draws (3 + draws u) u, inr (str (rgba r g b (if border then "1" else "0.2")))).
Proof.
  intros Hc. unfold get_category_color. rewrite Hc. simpl negb. cbv iota.
  unfold bind, random_byte, ret. simpl.
  eexists _, _, _. split_and!; try apply floor_byte, Hrandom.
  destruct border; [|reflexivity]. by rewrite replace_first_no_dot by apply rgba_no_dot.
Qed.
End Colours.

(** The colour table has no key that names a property of
    [Object.prototype]. *)
Lemma colors_own_proto (category : string) :
  proto_get category <> None -> own_get colors category = None /\ own_get border_colors category = None.
Proof.
  intros Hp. split; apply own_get_None; simpl; intros Hin;
    repeat (apply elem_of_cons in Hin as [->|Hin]; [by apply Hp|]); by apply elem_of_nil in Hin.
Qed.

(** C24: a category named after a property of [Object.prototype] (such as
    [constructor] or [toString]) gets the inherited built-in itself as its
    colour, a function or an object and not a colour string, and draws no
    random number. *)
Theorem get_category_color_builtin (category : string) (border : bool) (b : builtin) (u : browser) :
  proto_get category = Some b -> get_category_color category border u = (u, inr (JObject b)).
Proof.
  intros Hb. destruct (colors_own_proto category) as [H1 H2]; [congruence|].
  unfold get_category_color, js_get. rewrite H1, H2, Hb. by destruct border.
Qed.

Lemma get_category_color_random_witness :
  js_get colors "Furniture" = JUndefined /\
  exists r g b, (0 <= r <= 255)%Z /\ (0 <= g <= 255)%Z /\ (0 <= b <= 255)%Z /\
    get_category_color "Furniture" true (mkBrowser [] [] [] (fun _ => qfrac 1 2) 0 [] true true) =
    (with_draws 3 (mkBrowser [] [] [] (fun _ => qfrac 1 2) 0 [] true true), inr (str (rgba r g b "1"))).
Proof.
  assert (Hc : js_get colors "Furniture" = JUndefined) by reflexivity.
  split; [exact Hc|].
  apply (get_category_color_random (mkBrowser [] [] [] (fun _ => qfrac 1 2) 0 [] true true)); [|exact Hc].
  intros n. simpl. split; vm_compute; [intros Hq; discriminate Hq|reflexivity].
Defined.

Lemma get_category_color_builtin_witness :
  get_category_color "constructor" false (mkBrowser [] [] [] (fun _ => qfrac 1 2) 0 [] true true) =
  (mkBrowser [] [] [] (fun _ => qfrac 1 2) 0 [] true true, inr (JObject (NativeFunction "Object"))).
Proof. apply get_category_color_builtin. reflexivity. Defined.

(** ** The monthly chart *)

(** Two browser states that differ at most in the random numbers drawn. *)
Definition same_page (u u' : browser) : Prop :=
  canvases u' = canvases u /\ charts u' = charts u /\ timers u' = timers u /\ console u' = console u /\
  registered u' = registered u /\ date_adapter u' = date_adapter u.

Lemma same_page_refl u : same_page u u.
Proof. done. Qed.
Lemma same_page_trans u1 u2 u3 : same_page u1 u2 -> same_page u2 u3 -> same_page u1 u3.
Proof. intros (?&?&?&?&?&?) (?&?&?&?&?&?). repeat split; congruence. Qed.
#[export] Hint Resolve same_page_refl : kpi.

Lemma get_category_color_ok c border u :
  exists u' v, get_category_color c border u = (u', inr v) /\ same_page u u'.
Proof.
  unfold get_category_color. destruct (negb _); unfold bind, random_byte, ret; simpl; by eexists _, _.
Qed.

Lemma monthly_datasets_ok mr cats u :
  exists u' ds, monthly_datasets mr cats u = (u', inr ds) /\ same_page u u' /\ map ds_label ds = cats /\
    Forall (fun d => exists vs, ds_data d = Values vs /\ length vs = length (object_keys mr)) ds.
Proof.
  revert u. induction cats as [|c cats IH]; intros u; simpl.
  { eexists _, []. split_and!; auto with kpi. }
  unfold bind at 1. destruct (get_category_color_ok c false u) as (u1 & v1 & -> & H1).
  unfold bind at 1. destruct (get_category_color_ok c true u1) as (u2 & v2 & -> & H2).
  unfold bind at 1. destruct (IH u2) as (u3 & ds & -> & H3 & Hl & Hd).
  eexists _, _. split_and!; [reflexivity| |simpl; by rewrite Hl|].
  - eapply same_page_trans; [|apply H3]. by eapply same_page_trans.
  - constructor; [|done]. eexists. split; [reflexivity|]. apply length_map.
Qed.

Lemma object_keys_own_get {V} (o : list (string * V)) k :
  k ∈ object_keys o -> exists v, own_get o k = Some v.
Proof.
  unfold object_keys. rewrite (own_entries_perm o). intros Hk.
  destruct (own_get o k) eqn:E; [by eexists|]. by apply own_get_None in E.
Qed.

(** C25: when the monthly chart is drawn, its datasets are the categories
    of the first month only, each with one value per month: a category
    that first sells in a later month has no dataset. *)
Theorem monthly_chart_first_month (k : kpis) (u : browser) (m0 : string) (ms : list string) :
  loaded u -> "monthlyRevenueBreakdownChart" ∈ canvases u ->
  "monthlyRevenueBreakdownChart" ∉ map ch_canvas (charts u) ->
  object_keys (monthlyRevenue k) = m0 :: ms ->
  exists u' ds, monthly_chart_task k u = (u', inr tt) /\
    charts u' = charts u ++ [mkChart "monthlyRevenueBreakdownChart" Bar (mkChartData (Some (m0 :: ms)) ds) monthly_options] /\
    map ds_label ds = object_keys (month_of (monthlyRevenue k) m0) /\
    Forall (fun d => exists vs, ds_data d = Values vs /\ length vs = S (length ms)) ds.
Proof.
  intros [Hr Ha] Hc Hfree Hkeys. unfold monthly_chart_task. rewrite decide_True by done.
  destruct (object_keys_own_get (monthlyRevenue k) m0) as [inner Hinner]; [rewrite Hkeys; set_solver|].
  unfold bind at 1, first_month_categories. rewrite Hkeys, Hinner. simpl.
  unfold bind at 1. destruct (monthly_datasets_ok (monthlyRevenue k) (object_keys inner) u)
    as (u' & ds & -> & (Hcv & Hch & _ & _ & Hr' & Ha') & Hl & Hd).
  rewrite new_chart_fresh; [|split; congruence|by rewrite Hch].
  eexists _, ds. split_and!; [reflexivity|simpl; by rewrite Hch|unfold month_of; by rewrite Hinner|].
  rewrite Hkeys in Hd. done.
Qed.

(** The callback finds no month when [monthlyRevenue] is empty by the
    time it runs: [Object.keys(undefined)] throws. *)
Lemma monthly_chart_task_empty (k : kpis) (u : browser) :
  "monthlyRevenueBreakdownChart" ∈ canvases u -> monthlyRevenue k = [] ->
  monthly_chart_task k u = (u, inl (TypeError "Cannot convert undefined or null to object")).
Proof. intros Hc Hm. unfold monthly_chart_task. rewrite decide_True by done. by rewrite Hm. Qed.

(** Rendering again on a page whose first canvas holds a chart throws at
    once, and nothing changes. *)
Lemma render_charts_in_use (k : kpis) (u : browser) :
  "salesTrendChart" ∈ canvases u -> "salesTrendChart" ∈ map ch_canvas (charts u) ->
  render_charts k u = (u, inl (CanvasInUse "salesTrendChart")).
Proof. intros Hc Hu. unfold render_charts, bind. by rewrite render_chart_in_use. Qed.

(** ** Tooltips of the charts of objects *)

Lemma elem_of_chart_if c u id ty data opts : c ∈ chart_if u id ty data opts -> c = mkChart id ty data opts.
Proof. unfold chart_if. case_decide; [by intros ->%list_elem_of_singleton|by intros ?%elem_of_nil]. Qed.

(** A value of an object whose entries are finite numbers is one. *)
Lemma object_values_numeric (o : list (string * jsval)) i v :
  Forall numeric_entry o -> object_values o !! i = Some v -> exists q, v = JNumber (Fin q).
Proof.
  intros Ho Hi. apply list_elem_of_lookup_2 in Hi. unfold object_values in Hi.
  apply list_elem_of_fmap in Hi as ([key v'] & -> & He). rewrite (own_entries_perm o) in He.
  eapply Forall_forall in Ho; [|exact He]. exact Ho.
Qed.

(** The tooltip of an element of a chart of the values of an object,
    whose label callback prints [raw] after a prefix. *)
Lemma tooltip_values (o : list (string * jsval)) id ty labels l bg bd opts prefix i v :
  Forall numeric_entry o -> opt_label opts = RawLabel prefix ->
  tooltip_label (mkChart id ty (mkChartData labels [mkDataset l (Values (object_values o)) bg bd]) opts) 0 i = Some v ->
  exists q, v = inr [PLit prefix; PLit (to_locale_currency (Fin q))].
Proof.
  intros Ho Hl Hv. unfold tooltip_label, series_item in Hv. simpl in Hv. rewrite Hl in Hv.
  destruct (object_values o !! i) as [v'|] eqn:E; [|done].
  destruct (object_values_numeric o i v' Ho E) as [q ->]. exists q. by injection Hv as <-.
Qed.

Section Tooltips.
Context `{JsRuntime}.

(** C33: every tooltip of the region, category and country charts reads
    a prefix ("Profit: " for the countries' doughnut, "Sales: " for the
    others) and a dollar amount, when no region, category or country
    names a property of [Object.prototype]: the label callbacks meet a
    finite number, never a string or [undefined]. *)
Theorem object_chart_tooltips (tz : Z) (data : list Sale) (u : browser) (c : chart) (i : nat) (v : exn + list part) :
  keys_plain Region data -> keys_plain Category data -> keys_plain Country data ->
  c ∈ first_charts u (calculate_kpis tz data) -> ch_type c <> Line -> tooltip_label c 0 i = Some v ->
  exists q, v = inr [PLit (if decide (ch_type c = Doughnut) then "Profit: " else "Sales: ");
                     PLit (to_locale_currency (Fin q))].
Proof.
  intros Hr Hc Hn Hin Hty Hv. destruct (groupings_numeric tz data Hr Hc Hn) as (H1 & H2 & H3).
  unfold first_charts in Hin. rewrite !elem_of_app in Hin.
  destruct Hin as [Hin|[Hin|[Hin|Hin]]]; apply elem_of_chart_if in Hin as ->; cbn [ch_type] in Hty |- *;
    [done| | |]; unfold sales_by_region_data, top_categories_data, profit_distribution_data in Hv;
    [destruct (tooltip_values _ _ _ _ _ _ _ sales_by_region_options _ _ _ H1 eq_refl Hv) as [q ->]
    |destruct (tooltip_values _ _ _ _ _ _ _ top_categories_options _ _ _ H2 eq_refl Hv) as [q ->]
    |destruct (tooltip_values _ _ _ _ _ _ _ profit_distribution_options _ _ _ H3 eq_refl Hv) as [q ->]]; by exists q.
Qed.

(** C30: the tooltip over the bar of a region in the region chart prints
    "Sales: " and an amount that reads back as the region's total sales
    rounded to the cent: [parse_currency] of it is the sum of the sales of
    the records of that region in cents, rounded half away from zero, and
    within half a cent of the sum, when no region names a property of
    [Object.prototype]. *)
Theorem region_tooltip_amount (tz : Z) (data : list Sale) (u : browser) (c : chart) (i : nat)
    (labels : list string) (region : string) (v : exn + list part) :
  keys_plain Region data -> c ∈ first_charts u (calculate_kpis tz data) ->
  ch_canvas c = "salesByRegionChart" -> cd_labels (ch_data c) = Some labels ->
  labels !! i = Some region -> tooltip_label c 0 i = Some v ->
  let sum := sum_q sales_q (keyed Region region data) in
  exists s, v = inr [PLit "Sales: "; PLit s] /\ parse_currency s = Some (round_cents sum) /\
    (Qabs (inject_Z (round_cents sum) - this sum * 100) <= 1 # 2)%Q.
Proof.
  intros Hr Hin Hid Hl Hi Hv sum. unfold first_charts in Hin. rewrite !elem_of_app in Hin.
  destruct Hin as [Hin|[Hin|[Hin|Hin]]]; apply elem_of_chart_if in Hin as ->; try discriminate Hid.
  injection Hl as <-. unfold tooltip_label, series_item in Hv. simpl in Hv.
  destruct (object_values (sales_by_region data) !! i) as [w|] eqn:Ew; [|done].
  pose proof (object_keys_values_lookup _ _ _ _ (group_sum_nodup _ _ data) Hi Ew) as Hg.
  rewrite (group_sum_refines _ _ _ sales_or_zero_q data Hr) in Hg. unfold group_spec in Hg.
  destruct (keyed Region region data) eqn:Ek; [done|]. injection Hg as <-. injection Hv as <-.
  exists (to_locale_currency (Fin sum)). split; [subst sum; try rewrite Ek; reflexivity|].
  apply to_locale_currency_roundtrip.
Qed.
End Tooltips.

(** ** The top level of the module *)

(** Lines 4-7 of the component's module: the side-effect import
    [import 'chartjs-adapter-date-fns'] is evaluated with the imports,
    before the module body runs [Chart.register(...registerables)]. *)
Definition module_init : M unit := import_date_adapter ;; chart_register.

Lemma module_init_loaded u : loaded (fst (module_init u)).
Proof. split; reflexivity. Qed.

(** C32: the top level of the component's module is what lets
    [renderCharts] draw: after it, the first rendering on a page with
    free canvases draws one chart per canvas and throws nothing; with the
    registration but without the date adapter's import, the time axis of
    the trend chart cannot be built, and [new Chart] throws after taking
    its canvas, before any other chart is drawn. *)
Theorem module_init_renders (k : kpis) (u : browser) :
  Forall (fun id => id ∉ map ch_canvas (charts u)) chart_ids ->
  "salesTrendChart" ∈ canvases u -> date_adapter u = false ->
  (let u1 := fst (module_init u) in
   render_charts k u1 =
   (with_timers (timers u1 ++ if bool_decide (0 < length (object_keys (monthlyRevenue k)))%nat
                              then [MonthlyChartTask] else [])
      (with_charts (charts u1 ++ first_charts u1 k) u1), inr tt)) /\
  (let u2 := fst (chart_register u) in
   render_charts k u2 =
   (with_charts (charts u2 ++ [mkChart "salesTrendChart" Line (sales_trend_data k) sales_trend_options]) u2,
    inl NoDateAdapter)).
Proof.
  intros Hf Hc Ha. split; cbv zeta.
  - apply render_charts_first; [apply module_init_loaded|done].
  - unfold render_charts, bind at 1, render_chart. rewrite decide_True by done.
    apply Forall_cons in Hf as [Hfree _]. unfold new_chart. rewrite decide_False by done.
    unfold chart_error. simpl. by rewrite Ha.
Qed.

(** ** Witnesses *)

(** A page with the five canvases of the template, no chart yet,
    [Math.random] always [0.5], on which the module's top level has run. *)
Definition page0 : browser :=
  mkBrowser ["salesTrendChart"; "salesByRegionChart"; "topCategoriesChart";
             "profitDistributionChart"; "monthlyRevenueBreakdownChart"] [] [] (fun _ => qfrac 1 2) 0 [] true true.

Lemma monthly_chart_first_month_witness :
  exists u' ds, monthly_chart_task (calculate_kpis 0 [rec_a; rec_b]) page0 = (u', inr tt) /\
    charts u' = [mkChart "monthlyRevenueBreakdownChart" Bar (mkChartData (Some ["January 2023"; "August 2023"]) ds) monthly_options] /\
    map ds_label ds = object_keys (month_of (monthlyRevenue (calculate_kpis 0 [rec_a; rec_b])) "January 2023") /\
    Forall (fun d => exists vs, ds_data d = Values vs /\ length vs = 2%nat) ds.
Proof.
  apply (monthly_chart_first_month (calculate_kpis 0 [rec_a; rec_b]) page0 "January 2023" ["August 2023"]).
  - split; reflexivity.
  - apply (bool_decide_unpack _). vm_compute. reflexivity.
  - intros Hin. by apply elem_of_nil in Hin.
  - vm_compute. reflexivity.
Defined.

(** On the scenario of the specification the monthly chart has the
    months January and August 2023 but one dataset, category [A]: the
    August sales of category [B] are in [monthlyRevenue] and not drawn. *)
Example monthly_chart_drops_category :
  let k := calculate_kpis 0 [rec_a; rec_b] in
  object_keys (monthlyRevenue k) = ["January 2023"; "August 2023"] /\
  own_get (month_of (monthlyRevenue k) "August 2023") "B" = Some (JNumber (Fin (qz 50))) /\
  map (fun c => (cd_labels (ch_data c), map ds_label (cd_datasets (ch_data c))))
      (charts (fst (monthly_chart_task k page0))) = [(Some ["January 2023"; "August 2023"], ["A"])].
Proof. split_and!; vm_compute; reflexivity. Qed.

Lemma keeps_render_chart P C id ty data opts :
  P (mkChart id ty data opts) -> keeps P C (render_chart id ty data opts).
Proof.
  intros Hp b Hc Hok. unfold render_chart. case_decide as Hid; [|done].
  apply keeps_new_chart; [congruence|done..].
Qed.

Lemma chart_spec_trend k : chart_spec (mkChart "salesTrendChart" Line (sales_trend_data k) sales_trend_options).
Proof. left. simpl. eauto. Qed.
Lemma chart_spec_region k :
  chart_spec (mkChart "salesByRegionChart" Bar (sales_by_region_data k) sales_by_region_options).
Proof. right; left. simpl. eauto. Qed.
Lemma chart_spec_categories k :
  chart_spec (mkChart "topCategoriesChart" Pie (top_categories_data k) top_categories_options).
Proof. do 2 right; left. simpl. eauto. Qed.
Lemma chart_spec_profit k :
  chart_spec (mkChart "profitDistributionChart" Doughnut (profit_distribution_data k) profit_distribution_options).
Proof. do 3 right; left. simpl. eauto. Qed.
Lemma chart_spec_monthly k ds :
  chart_spec (mkChart "monthlyRevenueBreakdownChart" Bar
                (mkChartData (Some (object_keys (monthlyRevenue k))) ds) monthly_options).
Proof. do 4 right. simpl. eauto 10. Qed.
#[export] Hint Resolve keeps_render_chart chart_spec_trend chart_spec_region chart_spec_categories
  chart_spec_profit chart_spec_monthly : kpi.

Lemma keeps_get_category_color P C c border : keeps P C (get_category_color c border).
Proof. unfold get_category_color. destruct (negb _); auto 10 with kpi. Qed.

Lemma keeps_monthly_datasets P C mr cats : keeps P C (monthly_datasets mr cats).
Proof. induction cats; simpl; auto 10 using keeps_get_category_color with kpi. Qed.

Lemma keeps_render_charts C k : keeps chart_spec C (render_charts k).
Proof. unfold render_charts. case_bool_decide; auto 10 with kpi. Qed.

Lemma keeps_monthly_chart_task C k : keeps chart_spec C (monthly_chart_task k).
Proof.
  intros b Hc Hok. unfold monthly_chart_task. case_decide as Hm; [|done]. rewrite Hc in Hm.
  revert b Hc Hok. apply keeps_bind; [unfold first_month_categories; repeat case_match; auto with kpi|].
  intros cats. apply keeps_bind; [apply keeps_monthly_datasets|]. intros ds.
  apply keeps_new_chart; [congruence|auto with kpi].
Qed.

Lemma queues_nothing_get_category_color c border : queues_nothing (get_category_color c border).
Proof. unfold get_category_color. destruct (negb _); auto 10 with kpi. Qed.

Lemma queues_nothing_monthly_datasets mr cats : queues_nothing (monthly_datasets mr cats).
Proof. induction cats; simpl; auto 10 using queues_nothing_get_category_color with kpi. Qed.

(** The deferred monthly chart queues no further callback. *)
Lemma queues_nothing_monthly_chart_task k : queues_nothing (monthly_chart_task k).
Proof.
  intros b. unfold monthly_chart_task. case_decide as Hin; [|done]. clear Hin. revert b.
  apply queues_nothing_bind; [unfold first_month_categories; repeat case_match; auto with kpi|].
  intros cats. apply queues_nothing_bind; [apply queues_nothing_monthly_datasets|auto with kpi].
Qed.

Lemma module_init_renders_witness :
  let u := with_registry false false page0 in
  Forall (fun id => id ∉ map ch_canvas (charts u)) chart_ids /\
  "salesTrendChart" ∈ canvases u /\ date_adapter u = false /\
  (let u1 := fst (module_init u) in
   render_charts (calculate_kpis 0 [rec_a]) u1 =
   (with_timers (timers u1 ++ if bool_decide (0 < length (object_keys (monthlyRevenue (calculate_kpis 0 [rec_a]))))%nat
                              then [MonthlyChartTask] else [])
      (with_charts (charts u1 ++ first_charts u1 (calculate_kpis 0 [rec_a])) u1), inr tt)) /\
  (let u2 := fst (chart_register u) in
   render_charts (calculate_kpis 0 [rec_a]) u2 =
   (with_charts (charts u2 ++ [mkChart "salesTrendChart" Line (sales_trend_data (calculate_kpis 0 [rec_a]))
                                 sales_trend_options]) u2, inl NoDateAdapter)).
Proof.
  intros u.
  assert (Hf : Forall (fun id => id ∉ map ch_canvas (charts u)) chart_ids)
    by (repeat constructor; intros Hin; by apply elem_of_nil in Hin).
  assert (Hc : "salesTrendChart" ∈ canvases u) by (apply (bool_decide_unpack _); vm_compute; reflexivity).
  split_and!; [exact Hf|exact Hc|reflexivity|..];
    [exact (proj1 (module_init_renders (calculate_kpis 0 [rec_a]) u Hf Hc eq_refl))
    |exact (proj2 (module_init_renders (calculate_kpis 0 [rec_a]) u Hf Hc eq_refl))].
Defined.

Lemma object_chart_tooltips_witness :
  let k := calculate_kpis 0 [rec_a; rec_b] in
  let c := mkChart "salesByRegionChart" Bar (sales_by_region_data k) sales_by_region_options in
  keys_plain Region [rec_a; rec_b] /\ keys_plain Category [rec_a; rec_b] /\ keys_plain Country [rec_a; rec_b] /\
  c ∈ first_charts page0 k /\ ch_type c <> Line /\
  tooltip_label c 0 0 = Some (inr [PLit "Sales: "; PLit "$150.00"]) /\
  exists q, (inr [PLit "Sales: "; PLit "$150.00"] : exn + list part) =
            inr [PLit (if decide (ch_type c = Doughnut) then "Profit: " else "Sales: ");
                 PLit (to_locale_currency (Fin q))].
Proof.
  intros k c.
  assert (Hr : keys_plain Region [rec_a; rec_b]) by (apply keys_plain_b_spec; vm_compute; reflexivity).
  assert (Hc : keys_plain Category [rec_a; rec_b]) by (apply keys_plain_b_spec; vm_compute; reflexivity).
  assert (Hn : keys_plain Country [rec_a; rec_b]) by (apply keys_plain_b_spec; vm_compute; reflexivity).
  assert (Hin : c ∈ first_charts page0 k).
  { unfold first_charts. apply elem_of_app. right. apply elem_of_app. left.
    unfold chart_if. rewrite decide_True; [apply list_elem_of_here|].
    apply (bool_decide_unpack _). vm_compute. reflexivity. }
  assert (Ht : ch_type c <> Line) by discriminate.
  assert (Hv : tooltip_label c 0 0 = Some (inr [PLit "Sales: "; PLit "$150.00"])) by (vm_compute; reflexivity).
  split_and!; [exact Hr|exact Hc|exact Hn|exact Hin|exact Ht|exact Hv|].
  exact (object_chart_tooltips 0 [rec_a; rec_b] page0 c 0 _ Hr Hc Hn Hin Ht Hv).
Defined.

Lemma region_tooltip_amount_witness :
  let k := calculate_kpis 0 [rec_a; rec_b] in
  let c := mkChart "salesByRegionChart" Bar (sales_by_region_data k) sales_by_region_options in
  keys_plain Region [rec_a; rec_b] /\ c ∈ first_charts page0 k /\
  cd_labels (ch_data c) = Some ["West"] /\
  tooltip_label c 0 0 = Some (inr [PLit "Sales: "; PLit "$150.00"]) /\
  parse_currency "$150.00" = Some (round_cents (sum_q sales_q (keyed Region "West" [rec_a; rec_b]))).
Proof.
  intros k c.
  assert (Hr : keys_plain Region [rec_a; rec_b]) by (apply keys_plain_b_spec; vm_compute; reflexivity).
  assert (Hin : c ∈ first_charts page0 k).
  { unfold first_charts. apply elem_of_app. right. apply elem_of_app. left.
    unfold chart_if. rewrite decide_True; [apply list_elem_of_here|].
    apply (bool_decide_unpack _). vm_compute. reflexivity. }
  assert (Hl : cd_labels (ch_data c) = Some ["West"]) by (vm_compute; reflexivity).
  assert (Hv : tooltip_label c 0 0 = Some (inr [PLit "Sales: "; PLit "$150.00"])) by (vm_compute; reflexivity).
  split_and!; [exact Hr|exact Hin|exact Hl|exact Hv|].
  destruct (region_tooltip_amount 0 [rec_a; rec_b] page0 c 0 ["West"] "West" _ Hr Hin eq_refl Hl eq_refl Hv)
    as (s & Hs & Hp & _).
  injection Hs as <-. exact Hp.
Defined.
