(* ===== verification/Dashboard.v ===== *)
(** * Dashboard: the component's life cycle as a state machine

    [DashboardComponent] (dashboard.component.ts, lines 14-66) holds the
    last record list it received and the twelve KPI fields.  [ngOnInit]
    calls [loadSalesData] (one request to the data service) and
    [startPolling] (a 60-second [setInterval] whose callback sends another
    request).  Each request answers once, in any order: the success
    callback stores the records, runs [calculateKPIs] and [renderCharts];
    the error callback logs to the console.  [renderCharts] may queue the
    monthly chart with [setTimeout]; the queued callback runs later, as an
    event of its own.

    The state ([dashboard]) keeps the records, the KPI fields, the
    outstanding requests (by number, in the order they were sent), the
    timer, and the browser page of [Browser] (canvases, charts, timer queue,
    console).  [step] is the effect of one event ([OnInit], a timer [Tick],
    the answer [Respond] or the failure [Fail] of an outstanding request,
    the [Timeout] of the first queued callback); it is [None] for an event
    that cannot happen in the state.  [reachable] closes the initial states
    (one per page the component starts on) under [step].  An exception a
    callback throws is reported on the console ([run_callback]) and the
    component carries on. *)

From S2P Require Import Prelude JsNumber JsValue JsArray JsObject JsDate SalesData Fixtures Kpi KpiSpec ChartConfig Browser Charts.

Local Open Scope list_scope.

Record dashboard := mkDashboard {
  salesData : list Sale;
  kpi : kpis;
  pending : list nat;
  next_request : nat;
  polling : bool;
  page : browser
}.

(** The field initializers: every KPI is [0] or empty (lines 15-29). *)
Definition initial_kpis : kpis :=
  mkKpis (JNumber num_zero) (JNumber num_zero) [] [] [] [] (JNumber num_zero)
         (JNumber num_zero) (JNumber num_zero) (JNumber num_zero) (JNumber num_zero) [].

(** The component before [ngOnInit], on the page [b]. *)
Definition initial (b : browser) : dashboard := mkDashboard [] initial_kpis [] 0 false b.

Inductive event :=
| OnInit
| Tick
| Respond (id : nat) (sales : list Sale)
| Fail (id : nat)
| Timeout.

(** [this.couchdbService.getSalesData().subscribe(...)]: a new outstanding
    request. *)
Definition send_request (st : dashboard) : dashboard :=
  mkDashboard (salesData st) (kpi st) (pending st ++ [next_request st])
              (S (next_request st)) (polling st) (page st).

Definition settle (id : nat) (st : dashboard) : dashboard :=
  mkDashboard (salesData st) (kpi st) (filter (fun i => i <> id) (pending st))
              (next_request st) (polling st) (page st).

Definition with_page (b : browser) (st : dashboard) : dashboard :=
  mkDashboard (salesData st) (kpi st) (pending st) (next_request st) (polling st) b.

(** A callback runs to its end or throws; what it throws is reported on
    the console. *)
Definition run_callback (m : M unit) (b : browser) : browser :=
  match m b with
  | (b', inl e) => log (Uncaught e) b'
  | (b', inr _) => b'
  end.

(** The error callback: [console.error('Error fetching sales data:', error)]. *)
Definition on_error (st : dashboard) : dashboard :=
  with_page (log (ConsoleError "Error fetching sales data:") (page st)) st.

Section Machine.
Context `{JsRuntime} (tz : Z).

(** The success callback: [this.salesData = sales; this.calculateKPIs();
    this.renderCharts();] *)
Definition on_sales (sales : list Sale) (st : dashboard) : dashboard :=
  let k := calculate_kpis tz sales in
  mkDashboard sales k (pending st) (next_request st) (polling st)
              (run_callback (render_charts k) (page st)).

(** The first queued [setTimeout] callback runs, reading the KPI fields of
    the moment. *)
Definition on_timeout (st : dashboard) : option dashboard :=
  match timers (page st) with
  | MonthlyChartTask :: ts =>
      Some (with_page (run_callback (monthly_chart_task (kpi st)) (with_timers ts (page st))) st)
  | [] => None
  end.

(** [loadSalesData] and [startPolling]. *)
Definition load_sales_data (st : dashboard) : dashboard := send_request st.
Definition start_polling (st : dashboard) : dashboard :=
  mkDashboard (salesData st) (kpi st) (pending st) (next_request st) true (page st).

Definition step (st : dashboard) (ev : event) : option dashboard :=
  match ev with
  | OnInit => if polling st then None else Some (start_polling (load_sales_data st))
  | Tick => if polling st then Some (send_request st) else None
  | Respond id sales =>
      if decide (id ∈ pending st) then Some (on_sales sales (settle id st)) else None
  | Fail id => if decide (id ∈ pending st) then Some (on_error (settle id st)) else None
  | Timeout => on_timeout st
  end.

(** A run of events from a state, stopping at an impossible one. *)
Fixpoint run (st : dashboard) (evs : list event) : option dashboard :=
  match evs with
  | [] => Some st
  | ev :: evs' => match step st ev with Some st' => run st' evs' | None => None end
  end.

Inductive reachable : dashboard -> Prop :=
| reach_init b : reachable (initial b)
| reach_step st ev st' : reachable st -> step st ev = Some st' -> reachable st'.

(** The KPI fields agree with the records: they are the initial ones
    before any answer, and [calculateKPIs] of the stored records after. *)
Definition consistent (st : dashboard) : Prop :=
  (salesData st = [] /\ kpi st = initial_kpis) \/
  kpi st = calculate_kpis tz (salesData st).

(** Outstanding requests are distinct and numbered below the next one. *)
Definition requests_ok (st : dashboard) : Prop :=
  NoDup (pending st) /\ Forall (fun i => (i < next_request st)%nat) (pending st).
End Machine.

(** The five kinds of event, each with the guard that lets it happen:
    leaves one goal per event, with [st'] replaced by its value. *)
Ltac step_cases Hs :=
  match type of Hs with step _ ?st ?ev = Some _ =>
    destruct ev as [| |?id ?sales|?id|]; simpl in Hs;
    [ destruct (polling st); [done|]
    | destruct (polling st); [|done]
    | case_decide; [|done]
    | case_decide; [|done]
    | unfold on_timeout in Hs; destruct (timers (page st)) as [|[] ?ts]; [done|] ];
    injection Hs as <-
  end.

Section Invariants.
Context `{JsRuntime} (tz : Z).

Lemma step_consistent st ev st' :
  consistent tz st -> step tz st ev = Some st' -> consistent tz st'.
Proof. intros Hc Hs. step_cases Hs; try done. by right. Qed.

Lemma send_request_ok st : requests_ok st -> requests_ok (send_request st).
Proof.
  intros [Hnd Hlt]. unfold requests_ok, send_request. simpl. split.
  - apply NoDup_app. split_and!; [done| |apply NoDup_singleton].
    intros i Hi ->%list_elem_of_singleton.
    eapply Forall_forall in Hlt; [|apply Hi]. lia.
  - apply Forall_app. split; [|constructor; [lia|constructor]].
    eapply Forall_impl; [apply Hlt|]. simpl. lia.
Qed.

Lemma settle_ok id st : requests_ok st -> requests_ok (settle id st).
Proof.
  intros [Hnd Hlt]. unfold requests_ok, settle. simpl. split.
  - by apply NoDup_filter.
  - apply Forall_forall. intros i Hi%list_elem_of_filter. destruct Hi as [_ Hi].
    by eapply Forall_forall in Hlt.
Qed.

Lemma step_requests_ok st ev st' :
  requests_ok st -> step tz st ev = Some st' -> requests_ok st'.
Proof.
  intros Hr Hs. step_cases Hs; [apply send_request_ok|apply send_request_ok|apply settle_ok|apply settle_ok|]; done.
Qed.

(** C18: in every reachable state the KPI fields are those of the
    initializers (before the first answer) or [calculateKPIs] of the
    records stored last, and the outstanding requests are distinct. *)
Theorem reachable_invariant (st : dashboard) :
  reachable tz st -> consistent tz st /\ requests_ok st.
Proof.
  induction 1 as [|st ev st' _ [Hc Hr] Hs].
  - split; [by left|]. split; constructor.
  - split; [by eapply step_consistent|by eapply step_requests_ok].
Qed.

Lemma run_reachable st evs st' :
  reachable tz st -> run tz st evs = Some st' -> reachable tz st'.
Proof.
  revert st. induction evs as [|ev evs IH]; intros st Hr Hrun; simpl in Hrun.
  - by injection Hrun as <-.
  - destruct (step tz st ev) as [st1|] eqn:Hs; [|done]. apply (IH st1); [|done].
    by apply (reach_step _ st ev st1).
Qed.

Lemma run_ticks st n :
  polling st = true ->
  exists st', run tz st (repeat Tick n) = Some st' /\
              length (pending st') = (length (pending st) + n)%nat /\ polling st' = true.
Proof.
  revert st. induction n as [|n IH]; intros st Hp; simpl.
  - exists st. split_and!; [done|lia|done].
  - rewrite Hp. destruct (IH (send_request st) Hp) as (st' & Hrun & Hlen & Hp').
    exists st'. split_and!; [done| |done].
    rewrite Hlen. unfold send_request. simpl. rewrite length_app. simpl. lia.
Qed.

(** C20: nothing bounds the outstanding requests: after [ngOnInit], [n]
    timer ticks with no answer leave [n + 1] requests outstanding, and the
    interval is never cleared (the component has no [ngOnDestroy]). *)
Theorem polling_unbounded (b : browser) (n : nat) :
  exists st, run tz (initial b) (OnInit :: repeat Tick n) = Some st /\
             length (pending st) = S n /\ step tz st Tick <> None.
Proof.
  destruct (run_ticks (start_polling (load_sales_data (initial b))) n eq_refl)
    as (st & Hrun & Hlen & Hp).
  exists st. split_and!; [done|by rewrite Hlen|]. simpl. by rewrite Hp.
Qed.

Lemma run_callback_ok (m : M unit) (b : browser) :
  keeps chart_spec (canvases b) m -> charts_ok b -> Forall chart_spec (charts b) ->
  canvases (run_callback m b) = canvases b /\ charts_ok (run_callback m b) /\
  Forall chart_spec (charts (run_callback m b)).
Proof.
  intros Hm Hok HP. unfold run_callback.
  destruct (Hm b eq_refl Hok HP) as (Hc & Hok' & HP'). by destruct (m b) as [b' [e|[]]].
Qed.

Lemma step_charts_ok st ev st' :
  step tz st ev = Some st' -> charts_ok (page st) -> Forall chart_spec (charts (page st)) ->
  canvases (page st') = canvases (page st) /\ charts_ok (page st') /\
  Forall chart_spec (charts (page st')).
Proof.
  intros Hs Hok HP. step_cases Hs; try done.
  - apply run_callback_ok; [apply keeps_render_charts|done..].
  - apply (run_callback_ok _ (with_timers ts (page st))); [apply keeps_monthly_chart_task|done..].
Qed.

(** C22: whatever events happen, each canvas of the page holds at most
    one chart, and the chart on it is the one the component draws there:
    the sales trend as a line chart with its time axis, the sales by
    region as a bar chart, the top categories as a pie chart, the profit
    by country as a doughnut chart, each with its options and the data of
    the matching KPI field, and the monthly breakdown as a stacked bar
    chart over the months of [monthlyRevenue]. *)
Theorem run_charts_ok (st : dashboard) (evs : list event) (st' : dashboard) :
  charts_ok (page st) -> Forall chart_spec (charts (page st)) -> run tz st evs = Some st' ->
  canvases (page st') = canvases (page st) /\ charts_ok (page st') /\
  Forall chart_spec (charts (page st')).
Proof.
  revert st. induction evs as [|ev evs IH]; intros st Hok HP Hrun; simpl in Hrun.
  - by injection Hrun as <-.
  - destruct (step tz st ev) as [st1|] eqn:Hs; [|done].
    destruct (step_charts_ok st ev st1 Hs Hok HP) as (Hc1 & Hok1 & HP1).
    destruct (IH st1 Hok1 HP1 Hrun) as (Hc2 & Hok2 & HP2). split_and!; [congruence|done..].
Qed.
End Invariants.

Section Rendering.
Context `{JsRuntime} (tz : Z).
Local Arguments run_callback : simpl never.

(** The first answer on a page without charts attaches the four charts
    (and queues the monthly one when there is a month). *)
Lemma first_render (b : browser) (k : kpis) :
  loaded b -> charts b = [] ->
  run_callback (render_charts k) b =
  with_timers (timers b ++ if bool_decide (0 < length (object_keys (monthlyRevenue k)))%nat
                           then [MonthlyChartTask] else [])
    (with_charts (first_charts b k) b).
Proof.
  intros Hl Hnone. unfold run_callback. rewrite render_charts_first
    by (done || rewrite Hnone; repeat constructor; intros Hin; by apply elem_of_nil in Hin).
  by rewrite Hnone.
Qed.

(** Any later answer throws at the first chart and is logged. *)
Lemma later_render (b : browser) (k k' : kpis) ts :
  "salesTrendChart" ∈ canvases b ->
  run_callback (render_charts k') (with_timers ts (with_charts (first_charts b k) b)) =
  log (Uncaught (CanvasInUse "salesTrendChart")) (with_timers ts (with_charts (first_charts b k) b)).
Proof.
  intros Hc. unfold run_callback. rewrite render_charts_in_use; [done|done|].
  simpl. unfold first_charts, chart_if. rewrite decide_True by done. set_solver.
Qed.

(** C21: the charts never show a later answer: on a page where the
    module has registered Chart.js, after two answers the KPI fields are
    those of the second, the charts still hold the data of the first, and
    the second [renderCharts] has thrown "Canvas is already in use" at its
    first chart. *)
Theorem charts_keep_first_answer (b : browser) (s1 s2 : list Sale) :
  loaded b -> "salesTrendChart" ∈ canvases b -> charts b = [] ->
  exists st, run tz (initial b) [OnInit; Tick; Respond 0 s1; Respond 1 s2] = Some st /\
    salesData st = s2 /\ kpi st = calculate_kpis tz s2 /\
    charts (page st) = first_charts b (calculate_kpis tz s1) /\
    last (console (page st)) = Some (Uncaught (CanvasInUse "salesTrendChart")).
Proof.
  intros Hl Hc Hnone. simpl. eexists. split; [reflexivity|]. simpl.
  rewrite (first_render b _ Hl Hnone), later_render by done.
  split_and!; [done..|]. apply last_snoc.
Qed.

(** C19: answers are applied in the order they arrive, not the order the
    requests were sent: whatever the page and the records, when the
    answer to the first request arrives after the answer to the poll sent
    later, the older records overwrite the newer ones, and no request is
    left outstanding. *)
Theorem stale_answer_overwrites (b : browser) (s1 s2 : list Sale) :
  exists st, run tz (initial b) [OnInit; Tick; Respond 1 s2; Respond 0 s1] = Some st /\
    salesData st = s1 /\ kpi st = calculate_kpis tz s1 /\ pending st = [].
Proof. simpl. eexists. split; [reflexivity|]. split_and!; reflexivity. Qed.

(** C26: the deferred monthly chart reads [monthlyRevenue] when it runs:
    when an answer with no record is handled between the first answer and
    the timer, the callback finds no month and throws a [TypeError]. *)
Theorem monthly_chart_after_empty_answer (b : browser) (s1 : list Sale) :
  loaded b -> "salesTrendChart" ∈ canvases b -> "monthlyRevenueBreakdownChart" ∈ canvases b ->
  charts b = [] -> timers b = [] -> object_keys (monthly_revenue tz s1) <> [] ->
  exists st, run tz (initial b) [OnInit; Tick; Respond 0 s1; Respond 1 []; Timeout] = Some st /\
    last (console (page st)) = Some (Uncaught (TypeError "Cannot convert undefined or null to object")).
Proof.
  intros Hl Hc Hm Hnone Ht Hk. simpl. unfold on_timeout.
  cbn [page on_sales settle send_request start_polling load_sales_data initial].
  rewrite (first_render b _ Hl Hnone), Ht, bool_decide_true
    by (simpl; destruct (object_keys (monthly_revenue tz s1)); [done|simpl; lia]).
  rewrite later_render by done. cbn [timers log with_timers app].
  eexists. split; [reflexivity|]. cbn [page with_page kpi on_sales]. unfold run_callback at 1.
  rewrite monthly_chart_task_empty by done. apply last_snoc.
Qed.
End Rendering.

Lemma charts_keep_first_answer_witness :
  loaded page0 /\ "salesTrendChart" ∈ canvases page0 /\ charts page0 = [] /\
  exists st, run 0 (initial page0) [OnInit; Tick; Respond 0 [rec_a]; Respond 1 [rec_a; rec_b]] = Some st /\
    salesData st = [rec_a; rec_b] /\ kpi st = calculate_kpis 0 [rec_a; rec_b] /\
    charts (page st) = first_charts page0 (calculate_kpis 0 [rec_a]) /\
    last (console (page st)) = Some (Uncaught (CanvasInUse "salesTrendChart")).
Proof.
  assert (Hc : "salesTrendChart" ∈ canvases page0) by (apply (bool_decide_unpack _); vm_compute; reflexivity).
  assert (Hl : loaded page0) by (split; reflexivity).
  split_and!; [exact Hl|exact Hc|reflexivity|].
  exact (charts_keep_first_answer 0 page0 [rec_a] [rec_a; rec_b] Hl Hc eq_refl).
Defined.

Lemma monthly_chart_after_empty_answer_witness :
  object_keys (monthly_revenue 0 [rec_a]) <> [] /\
  exists st, run 0 (initial page0) [OnInit; Tick; Respond 0 [rec_a]; Respond 1 []; Timeout] = Some st /\
    last (console (page st)) = Some (Uncaught (TypeError "Cannot convert undefined or null to object")).
Proof.
  assert (Hk : object_keys (monthly_revenue 0 [rec_a]) <> []) by (vm_compute; discriminate).
  split; [exact Hk|].
  assert (Hc : "salesTrendChart" ∈ canvases page0) by (apply (bool_decide_unpack _); vm_compute; reflexivity).
  assert (Hm : "monthlyRevenueBreakdownChart" ∈ canvases page0) by (apply (bool_decide_unpack _); vm_compute; reflexivity).
  assert (Hl : loaded page0) by (split; reflexivity).
  exact (monthly_chart_after_empty_answer 0 page0 [rec_a] Hl Hc Hm eq_refl eq_refl Hk).
Defined.

Lemma run_charts_ok_witness :
  charts_ok page0 /\ Forall chart_spec (charts page0) /\
  is_Some (run 0 (initial page0) [OnInit; Respond 0 [rec_a]; Timeout]) /\
  match run 0 (initial page0) [OnInit; Respond 0 [rec_a]; Timeout] with
  | Some st => canvases (page st) = canvases page0 /\ charts_ok (page st) /\
               Forall chart_spec (charts (page st))
  | None => False
  end.
Proof.
  assert (Hok : charts_ok page0) by (split; constructor).
  assert (HP : Forall chart_spec (charts page0)) by constructor.
  assert (Hs : is_Some (run 0 (initial page0) [OnInit; Respond 0 [rec_a]; Timeout]))
    by (vm_compute; eexists; reflexivity).
  split_and!; [exact Hok|exact HP|exact Hs|].
  destruct (run 0 (initial page0) [OnInit; Respond 0 [rec_a]; Timeout]) as [st|] eqn:E; [|by destruct Hs].
  exact (run_charts_ok 0 (initial page0) [OnInit; Respond 0 [rec_a]; Timeout] st Hok HP E).
Defined.

Lemma reachable_invariant_witness :
  consistent 0 (on_sales 0 [rec_a] (settle 1 (send_request (start_polling (load_sales_data (initial page0)))))) /\
  requests_ok (on_sales 0 [rec_a] (settle 1 (send_request (start_polling (load_sales_data (initial page0)))))).
Proof.
  apply (reachable_invariant 0).
  apply (run_reachable 0 (initial page0) [OnInit; Tick; Respond 1 [rec_a]]); [constructor|reflexivity].
Defined.

(** The initial KPI fields are not those of an empty record list:
    before the first answer [returnOnInvestment] is [0], after an answer
    with no records it is [NaN]. *)
Example initial_differs_from_empty :
  returnOnInvestment initial_kpis = JNumber num_zero /\
  returnOnInvestment (calculate_kpis 0 []) = JNumber NaN.
Proof. split; reflexivity. Qed.

Section Timers.
Context `{JsRuntime} (tz : Z).

Lemma run_callback_timers (m : M unit) (b : browser) :
  queues_nothing m -> timers (run_callback m b) = timers b.
Proof. intros Hm. unfold run_callback. specialize (Hm b). by destruct (m b) as [b' [e|[]]]. Qed.

Lemma timeout_step (st : dashboard) (ts : list task) :
  timers (page st) = MonthlyChartTask :: ts ->
  exists st', step tz st Timeout = Some st' /\ timers (page st') = ts.
Proof.
  intros Ht. simpl. unfold on_timeout. rewrite Ht. eexists. split; [reflexivity|].
  simpl. by rewrite run_callback_timers by apply queues_nothing_monthly_chart_task.
Qed.

(** C29: the deferred callbacks terminate: from any state, as many
    [Timeout] events as there are queued callbacks run them all and leave
    the queue empty, since the monthly chart callback queues nothing. *)
Theorem timers_drain (st : dashboard) :
  exists st', run tz st (repeat Timeout (length (timers (page st)))) = Some st' /\
              timers (page st') = [].
Proof.
  remember (timers (page st)) as ts eqn:Ht. revert st Ht.
  induction ts as [|[] ts IH]; intros st Ht; cbn [length repeat run].
  - by exists st.
  - destruct (timeout_step st ts (eq_sym Ht)) as (st1 & Hs & Ht1). rewrite Hs.
    apply (IH st1). by rewrite Ht1.
Qed.
End Timers.
