(* ===== verification/AppModule.v ===== *)
(** * AppModule: the root NgModule (app.module.ts)

    [AppModule] declares three components, imports fifteen modules and
    bootstraps [AppComponent].  What an import contributes is the set of
    providers of the imported module; when two imported modules provide
    the same token, the root injector uses the provider of the module
    imported last (Angular's NgModule provider resolution).  The tokens
    the imported modules provide are those of the Angular and Material
    packages, which are not in the sources; only the animation tokens,
    which two of the imports both provide, are written out.

    [app_module_animations] shows the consequence: [NoopAnimationsModule],
    imported after [BrowserAnimationsModule], decides the animation
    driver, so the Material components of the application do not
    animate. *)

From S2P Require Import Prelude.

Local Open Scope string_scope.
Local Open Scope list_scope.

Inductive ng_module :=
| BrowserModule | FormsModule | ReactiveFormsModule | HttpClientModule | NgChartsModule
| AppRoutingModule | MatDatepickerModule | MatNativeDateModule | MatFormFieldModule
| MatInputModule | MatButtonModule | MatSelectModule | MatOptionModule
| BrowserAnimationsModule | NoopAnimationsModule.

#[export] Instance ng_module_eq_dec : EqDecision ng_module.
Proof. solve_decision. Defined.

Record ng_module_def := mkNgModule {
  declarations : list string;
  imports : list ng_module;
  providers : list (string * string);
  bootstrap : list string
}.

(** The [@NgModule] metadata of [AppModule]. *)
Definition app_module : ng_module_def :=
  mkNgModule ["AppComponent"; "DashboardComponent"; "ForecastComponent"]
    [BrowserModule; FormsModule; HttpClientModule; NgChartsModule; AppRoutingModule;
     MatDatepickerModule; MatNativeDateModule; MatFormFieldModule; MatInputModule;
     MatButtonModule; MatSelectModule; MatOptionModule; ReactiveFormsModule;
     BrowserAnimationsModule; NoopAnimationsModule]
    [] ["AppComponent"].

(** The animation providers of the imported modules: the token
    [ANIMATION_MODULE_TYPE] and the renderer factory. *)
Definition module_providers (m : ng_module) : list (string * string) :=
  match m with
  | BrowserAnimationsModule =>
      [("ANIMATION_MODULE_TYPE", "BrowserAnimations"); ("RendererFactory2", "AnimationRendererFactory")]
  | NoopAnimationsModule =>
      [("ANIMATION_MODULE_TYPE", "NoopAnimations"); ("RendererFactory2", "AnimationRendererFactory(NoopAnimationDriver)")]
  | _ => []
  end.

(** The root injector's providers: those of the imports in import order,
    then the module's own. *)
Definition root_providers (d : ng_module_def) : list (string * string) :=
  concat (map module_providers (imports d)) ++ providers d.

(** The provider of a token: the last one listed. *)
Definition resolve (d : ng_module_def) (token : string) : option string :=
  last (map snd (filter (fun p => p.1 = token) (root_providers d))).

(** The provider of the last import that provides the token wins. *)
Lemma resolve_last_import (d : ng_module_def) (pre post : list ng_module) (m : ng_module) token v :
  imports d = pre ++ m :: post -> providers d = [] ->
  last (map snd (filter (fun p => p.1 = token) (module_providers m))) = Some v ->
  Forall (fun m' => filter (fun p => p.1 = token) (module_providers m') = []) post ->
  resolve d token = Some v.
Proof.
  intros Hi Hp Hm Hpost. unfold resolve, root_providers. rewrite Hi, Hp, app_nil_r, map_app, concat_app.
  simpl. rewrite !filter_app.
  assert (Hnil : filter (fun p => p.1 = token) (concat (map module_providers post)) = []).
  { clear Hi. induction Hpost as [|m' post Hm' _ IH]; [done|]. cbn [map concat]. by rewrite filter_app, Hm', IH. }
  by rewrite Hnil, app_nil_r, map_app, last_app, Hm.
Qed.

(** The application runs with the no-op animation driver: both
    animation modules provide [ANIMATION_MODULE_TYPE] and the renderer
    factory, and [NoopAnimationsModule] is imported last. *)
Theorem app_module_animations :
  resolve app_module "ANIMATION_MODULE_TYPE" = Some "NoopAnimations" /\
  resolve app_module "RendererFactory2" = Some "AnimationRendererFactory(NoopAnimationDriver)" /\
  BrowserAnimationsModule ∈ imports app_module.
Proof.
  split_and!.
  - apply (resolve_last_import app_module
             (removelast (imports app_module)) [] NoopAnimationsModule); try reflexivity; constructor.
  - apply (resolve_last_import app_module
             (removelast (imports app_module)) [] NoopAnimationsModule); try reflexivity; constructor.
  - apply (bool_decide_unpack _). vm_compute. reflexivity.
Qed.
